(** * Jira/Claude webhook orchestrator: a shallow embedding

    The development follows the JavaScript sources one class at a time:

    - [Js]            the string and array built-ins the code relies on
                      (strings are sequences of UTF-16 code units);
    - [RegExp]        the fragment of the pattern language that the literals
                      in the sources use, with a backtracking matcher;
    - [Evaluator]     [ClaudeTestingEvaluator]: section extraction and the
                      final score;
    - [Effects]       the external world (tracker, AI adapter, artifact
                      store) as a state-and-exception monad that records
                      every external call;
    - [Orchestrator]  [JiraWebhookProcessor]: validation, classification,
                      stage labels, key extraction and the phase handlers.

    Definitions come first, the theorems about them last. *)

From Stdlib Require Import List NArith ZArith Bool Ascii String Lia.
From Stdlib Require QArith.
From stdpp Require Import gmap.
Import ListNotations.

Set Implicit Arguments.
Local Open Scope list_scope.

(** ** JavaScript strings and the built-ins used by the sources *)

Module Js.

(** A JavaScript string is a sequence of UTF-16 code units. *)
Definition jsstring := list N.

(** An ASCII literal of the source text. *)
Definition lit (s : string) : jsstring :=
  List.map N_of_ascii (list_ascii_of_string s).

(** [a === b] on strings. *)
Fixpoint streq (a b : jsstring) : bool :=
  match a, b with
  | [], [] => true
  | x :: a', y :: b' => N.eqb x y && streq a' b'
  | _, _ => false
  end.

(** [arr.includes(x)] on an array of strings. *)
Definition arrayIncludes (arr : list jsstring) (x : jsstring) : bool :=
  existsb (streq x) arr.

(** [s.startsWith(p)]. *)
Fixpoint startsWith (s p : jsstring) {struct p} : bool :=
  match p, s with
  | [], _ => true
  | y :: p', x :: s' => N.eqb x y && startsWith s' p'
  | _ :: _, [] => false
  end.

(** [s.includes(p)]: [p] occurs somewhere in [s]. *)
Fixpoint includes (s p : jsstring) : bool :=
  startsWith s p ||
  match s with
  | [] => false
  | _ :: s' => includes s' p
  end.

(** Truthiness of a possibly missing string: [undefined], [null] and the
    empty string are falsy. *)
Definition truthy (s : option jsstring) : bool :=
  match s with
  | Some (_ :: _) => true
  | _ => false
  end.

(** [s || ''] for a possibly missing string. *)
Definition orEmpty (s : option jsstring) : jsstring :=
  match s with
  | Some t => t
  | None => []
  end.

(** White space and line terminators of ECMAScript: what [trim] strips and
    what [\s] matches. *)
Definition isSpace (c : N) : bool :=
  ((9 <=? c) && (c <=? 13) || (c =? 32) || (c =? 160) || (c =? 5760)
   || (8192 <=? c) && (c <=? 8202) || (c =? 8232) || (c =? 8233)
   || (c =? 8239) || (c =? 8287) || (c =? 12288) || (c =? 65279))%N.

Fixpoint trimStart (s : jsstring) : jsstring :=
  match s with
  | [] => []
  | x :: s' => if isSpace x then trimStart s' else s
  end.

Fixpoint trimEnd (s : jsstring) : jsstring :=
  match s with
  | [] => []
  | x :: s' =>
      match trimEnd s' with
      | [] => if isSpace x then [] else [x]
      | t => x :: t
      end
  end.

(** [s.trim()]. *)
Definition trim (s : jsstring) : jsstring := trimEnd (trimStart s).

(** [s.split(sep)] for a one-unit separator; never returns the empty
    array ([''.split('\n')] is [['']]). *)
Fixpoint split (sep : N) (s : jsstring) : list jsstring :=
  match s with
  | [] => [[]]
  | x :: s' =>
      if N.eqb x sep then [] :: split sep s'
      else match split sep s' with
           | l :: ls => (x :: l) :: ls
           | [] => [[x]]
           end
  end.

(** [s.replace(p, '')] for a string pattern: the first occurrence of [p]
    is removed, nothing changes when there is none. *)
Fixpoint removeFirst (p s : jsstring) : jsstring :=
  if startsWith s p then skipn (List.length p) s
  else match s with
       | [] => []
       | x :: s' => x :: removeFirst p s'
       end.

(** [s.toLowerCase()] / case folding restricted to Basic Latin. *)
Definition isUpper (c : N) : bool := ((65 <=? c) && (c <=? 90))%N.
Definition isLower (c : N) : bool := ((97 <=? c) && (c <=? 122))%N.
Definition isDigit (c : N) : bool := ((48 <=? c) && (c <=? 57))%N.
Definition isLetter (c : N) : bool := isUpper c || isLower c.

(** Code units that the sources name. *)
Definition newline : N := 10.
Definition bullet : N := 8226.   (* U+2022 *)
Definition dash : N := 45.       (* '-' *)

End Js.
Import Js.

(** ** Regular expressions

    The fragment of the pattern language that the literals of the sources
    are written in: classes, sequences, alternatives, greedy and lazy
    quantifiers over a class, one capture group, a positive lookahead and
    the end-of-input assertion.  Matching is the backtracking search of
    ECMAScript: alternatives left to right, a greedy quantifier longest
    first, a lazy one shortest first. *)

Module RegExp.

Inductive regex : Type :=
| Eps                                             (* empty pattern *)
| Cls (p : N -> bool)                             (* one unit of a class *)
| Seq (r1 r2 : regex)                             (* r1 r2 *)
| Alt (r1 r2 : regex)                             (* r1 | r2 *)
| Rep (greedy : bool) (min : nat) (p : N -> bool) (* c{min,} or c{min,}? *)
| Group (r : regex)                               (* ( r ), capture 1 *)
| Ahead (r : regex)                               (* (?= r ) *)
| EndInput.                                       (* $ *)

(** State handed to the continuation: the input that is left and the
    text of capture 1, if the group was crossed. *)
Definition result := (jsstring * option jsstring)%type.
Definition cont := jsstring -> option jsstring -> option result.

(** [c*] / [c*?] followed by [k]. *)
Fixpoint star (greedy : bool) (p : N -> bool) (s : jsstring)
         (k : jsstring -> option result) : option result :=
  match s with
  | x :: s' =>
      if p x then
        if greedy then
          match star greedy p s' k with
          | Some r => Some r
          | None => k s
          end
        else
          match k s with
          | Some r => Some r
          | None => star greedy p s' k
          end
      else k s
  | [] => k s
  end.

(** [c{min,}] followed by [k]. *)
Fixpoint rep (greedy : bool) (min : nat) (p : N -> bool) (s : jsstring)
         (k : jsstring -> option result) : option result :=
  match min with
  | O => star greedy p s k
  | S m =>
      match s with
      | x :: s' => if p x then rep greedy m p s' k else None
      | [] => None
      end
  end.

Fixpoint run (r : regex) (s : jsstring) (c : option jsstring) (k : cont)
  : option result :=
  match r with
  | Eps => k s c
  | Cls p =>
      match s with
      | x :: s' => if p x then k s' c else None
      | [] => None
      end
  | Seq r1 r2 => run r1 s c (fun s1 c1 => run r2 s1 c1 k)
  | Alt r1 r2 =>
      match run r1 s c k with
      | Some res => Some res
      | None => run r2 s c k
      end
  | Rep g m p => rep g m p s (fun s1 => k s1 c)
  | Group r1 =>
      run r1 s c
          (fun s1 _ => k s1 (Some (firstn (List.length s - List.length s1) s)))
  | Ahead r1 =>
      match run r1 s c (fun s1 c1 => Some (s1, c1)) with
      | Some (_, c1) => k s c1
      | None => None
      end
  | EndInput =>
      match s with
      | [] => k s c
      | _ :: _ => None
      end
  end.

(** A match attempt at the current position: the rest of the input after
    the match and capture 1. *)
Definition matchHere (r : regex) (s : jsstring) : option result :=
  run r s None (fun s1 c1 => Some (s1, c1)).

(** The leftmost match, as [RegExp.prototype.exec] searches for it. *)
Fixpoint exec (r : regex) (s : jsstring) : option result :=
  match matchHere r s with
  | Some res => Some res
  | None =>
      match s with
      | [] => None
      | _ :: s' => exec r s'
      end
  end.

(** [s.match(r)[1]]: [None] when [s.match(r)] is [null]. *)
Definition match1 (r : regex) (s : jsstring) : option jsstring :=
  match exec r s with
  | Some (_, Some g) => Some g
  | Some (_, None) => Some []
  | None => None
  end.

(** [s.replace(/^r/, '')]: the match can only start at the first unit;
    it is removed when there is one. *)
Definition removeAnchored (r : regex) (s : jsstring) : jsstring :=
  match matchHere r s with
  | Some (rest, _) => rest
  | None => s
  end.

(** Literal text as a pattern, case sensitive. *)
Definition chr (c : N) : regex := Cls (N.eqb c).

Fixpoint text (s : jsstring) : regex :=
  match s with
  | [] => Eps
  | c :: s' => Seq (chr c) (text s')
  end.

(** Case folding of the [i] flag (Canonicalize) on Basic Latin: a letter
    is compared by its upper-case form, every other unit by itself.  On
    patterns written in Basic Latin this is exact, because no unit above
    127 canonicalizes to one below 128. *)
Definition canonicalize (c : N) : N :=
  if isLower c then (c - 32)%N else c.

Definition chrI (c : N) : regex :=
  Cls (fun x => N.eqb (canonicalize x) (canonicalize c)).

Fixpoint textI (s : jsstring) : regex :=
  match s with
  | [] => Eps
  | c :: s' => Seq (chrI c) (textI s')
  end.

Definition any (_ : N) : bool := true.

End RegExp.
Import RegExp.

(** ** Section extraction shared by both classes

    Both [extractSection] methods build the same pattern,
    [new RegExp(`## ${sectionName}([\\s\\S]*?)(?=##|$)`, 'i')], and read
    capture 1 of [text.match(regex)].  The section name is spliced into the
    pattern source; it is read here as literal text, which is what the
    pattern means for the names the callers pass (letters and spaces). *)

Definition sectionRegex (sectionName : jsstring) : regex :=
  Seq (textI (lit "## " ++ sectionName))
      (Seq (Group (Rep false 0 any))
           (Ahead (Alt (text (lit "##")) EndInput))).

(** ** ClaudeTestingEvaluator *)

Module Evaluator.

(** [/^[•-]\s*/] *)
Definition bulletPrefix : regex :=
  Seq (Cls (fun c => N.eqb c bullet || N.eqb c dash)) (Rep true 0 isSpace).

Definition extractSection (text sectionName : jsstring) : list jsstring :=
  match match1 (sectionRegex sectionName) text with
  | None => []
  | Some body =>
      List.filter
        (fun line => negb (Nat.eqb (List.length line) 0))
        (List.map
           (fun line => trim (removeAnchored bulletPrefix line))
           (List.filter
              (fun line => startsWith (trim line) [bullet]
                           || startsWith (trim line) [dash])
              (split newline body)))
  end.

(** The parsed adapter response, with the fields the class reads, typed as
    the response format of the prompt asks: scores are integer points,
    [readyForDeployment] is a boolean. *)
Record Category := { score : Z; analysis : jsstring }.

Record EvalError := {
  severity : jsstring;
  type : jsstring;
  description : jsstring;
  impact : jsstring;
  recommendation : jsstring
}.

Record OverallAssessment := {
  summary : jsstring;
  readyForDeployment : bool;
  majorConcerns : list jsstring;
  recommendations : list jsstring
}.

Record Evaluation := {
  requirementsCoverage : Category;
  qualityCraftsmanship : Category;
  usabilityPracticality : Category;
  completenessPolish : Category;
  errors : list EvalError;
  overallAssessment : OverallAssessment
}.

Record Breakdown := {
  bd_requirementsCoverage : Z;
  bd_qualityCraftsmanship : Z;
  bd_usabilityPracticality : Z;
  bd_completenessPolish : Z
}.

Record FinalScore := {
  overallScore : Z;
  maxScore : Z;
  scorePercentage : Z;
  errorCount : nat;
  criticalErrors : nat;
  highErrors : nat;
  blockingErrors : nat;
  meetsCriteria : bool;
  passingScore : Z;
  fs_readyForDeployment : bool;
  coreRequirementsMet : bool;
  breakdown : Breakdown
}.

Definition calculateFinalScore (evaluation : Evaluation) : FinalScore :=
  let scores :=
    [ score (requirementsCoverage evaluation);
      score (qualityCraftsmanship evaluation);
      score (usabilityPracticality evaluation);
      score (completenessPolish evaluation) ] in
  let overallScore := fold_left (fun sum score => (sum + score)%Z) scores 0%Z in
  let errorCount := List.length (errors evaluation) in
  let criticalErrors :=
    List.length
      (List.filter (fun e => streq (severity e) (lit "CRITICAL")) (errors evaluation)) in
  let highErrors :=
    List.length
      (List.filter (fun e => streq (severity e) (lit "HIGH")) (errors evaluation)) in
  let PASSING_SCORE := 80%Z in
  let hasBlockingErrors := Nat.ltb 0 criticalErrors || Nat.ltb 0 highErrors in
  let coreRequirementsMet := (20 <=? score (requirementsCoverage evaluation))%Z in
  let meetsCriteria :=
    (PASSING_SCORE <=? overallScore)%Z
    && negb hasBlockingErrors
    && coreRequirementsMet
    && readyForDeployment (overallAssessment evaluation) in
  {| overallScore := overallScore;
     maxScore := 100;
     scorePercentage := overallScore;
     errorCount := errorCount;
     criticalErrors := criticalErrors;
     highErrors := highErrors;
     blockingErrors := criticalErrors + highErrors;
     meetsCriteria := meetsCriteria;
     passingScore := PASSING_SCORE;
     fs_readyForDeployment := readyForDeployment (overallAssessment evaluation);
     coreRequirementsMet := coreRequirementsMet;
     breakdown :=
       {| bd_requirementsCoverage := score (requirementsCoverage evaluation);
          bd_qualityCraftsmanship := score (qualityCraftsmanship evaluation);
          bd_usabilityPracticality := score (usabilityPracticality evaluation);
          bd_completenessPolish := score (completenessPolish evaluation) |} |}.

End Evaluator.

(** ** Tracker data, as the webhook and the REST client deliver it *)

Module Jira.

(** A label arrives as a plain string or as an object with a [name]. *)
Inductive Label : Type :=
| LabelString (s : jsstring)
| LabelObject (name : jsstring).

(** [typeof label === 'string' ? label : label.name] *)
Definition labelText (l : Label) : jsstring :=
  match l with
  | LabelString s => s
  | LabelObject n => n
  end.

(** [label.name]: [undefined] on a plain string. *)
Definition labelName (l : Label) : option jsstring :=
  match l with
  | LabelString _ => None
  | LabelObject n => Some n
  end.

Record Fields := {
  summary : option jsstring;
  description : option jsstring;
  status : jsstring;                 (* fields.status.name *)
  issuetype : jsstring;              (* fields.issuetype.name *)
  labels : option (list Label)
}.

Record Issue := {
  key : option jsstring;
  fields : Fields
}.

Record ChangeItem := { field : jsstring }.

Record Changelog := { items : option (list ChangeItem) }.

Record WebhookPayload := {
  webhookEvent : option jsstring;
  issue : option Issue;
  changelog : option Changelog
}.

(** The argument of [updateIssue]: the fields that are written. *)
Record FieldsUpdate := {
  setSummary : option jsstring;
  setDescription : option jsstring;
  setLabels : option (list jsstring)
}.

Definition applyUpdate (u : FieldsUpdate) (i : Issue) : Issue :=
  {| key := key i;
     fields :=
       {| summary :=
            match setSummary u with Some s => Some s | None => summary (fields i) end;
          description :=
            match setDescription u with
            | Some d => Some d
            | None => description (fields i)
            end;
          status := status (fields i);
          issuetype := issuetype (fields i);
          labels :=
            match setLabels u with
            | Some ls => Some (List.map LabelString ls)
            | None => labels (fields i)
            end |} |}.

(** [${issue.key}] in a template string. *)
Definition keyText (k : option jsstring) : jsstring :=
  match k with
  | Some s => s
  | None => lit "undefined"
  end.

End Jira.
Import Jira.

(** What the orchestrator hands to the implementation adapter and reads
    back from it. *)

Record Requirements := {
  functionalRequirements : list jsstring;
  technicalRequirements : list jsstring;
  acceptanceCriteria : list jsstring;
  validationTests : list jsstring;
  definitionOfDone : list jsstring
}.

Record Implementation := {
  impl_type : jsstring;
  impl_title : jsstring;
  primaryDeliverable : jsstring;
  supportingFiles : list (jsstring * jsstring)
}.

Record ImplementationResult := {
  implementation : Implementation;
  tests : option jsstring;             (* tests.content, when present *)
  documentation : option jsstring
}.

Record ArtifactsResult := {
  directory : jsstring;
  files : list jsstring;
  implementationType : jsstring
}.

(** ** The external world

    Every call that leaves the process (tracker REST call, AI adapter call,
    file-system call) is recorded in a log, in the order it is issued.  The
    environment decides which calls fail: [fault n c] is the error message
    of the call [c] issued after [n] earlier ones, if that call fails.  The
    tracker keeps its issues in a store keyed by issue key. *)

Module Effects.

Inductive Exn : Type := Error (message : jsstring).

Definition message (e : Exn) : jsstring :=
  match e with Error m => m end.

Inductive Result (A : Type) : Type :=
| Returned (a : A)
| Threw (e : Exn).
Arguments Returned {A} a.
Arguments Threw {A} e.

Inductive Call : Type :=
| AddComment (issueKey comment : jsstring)
| GetIssue (issueKey : jsstring)
| UpdateIssue (issueKey : jsstring) (update : FieldsUpdate)
| GenerateImplementation (criteriaIssue : Issue) (originalKey : jsstring)
                         (requirements : Requirements)
| Mkdir (path : jsstring)
| WriteFile (path content : jsstring)
| Stat (path : jsstring).

Record World := {
  tracker : gmap (list N) Issue;
  log : list Call
}.

Record Env := {
  fault : nat -> Call -> option jsstring;
  adapterReply : Issue -> jsstring -> Requirements -> ImplementationResult
}.

(** Computations: read the environment, change the world, return or
    throw. *)
Definition M (A : Type) : Type := Env -> World -> Result A * World.

Definition ret {A} (a : A) : M A := fun _ w => (Returned a, w).

Definition throw {A} (e : Exn) : M A := fun _ w => (Threw e, w).

Definition bind {A B} (m : M A) (f : A -> M B) : M B :=
  fun env w =>
    match m env w with
    | (Returned a, w') => f a env w'
    | (Threw e, w') => (Threw e, w')
    end.

(** [try { m } catch (error) { h error }] *)
Definition tryCatch {A} (m : M A) (h : Exn -> M A) : M A :=
  fun env w =>
    match m env w with
    | (Returned a, w') => (Returned a, w')
    | (Threw e, w') => h e env w'
    end.

(** The outcome of [m] as a value, for a [catch] block that returns from
    the enclosing function. *)
Definition attempt {A} (m : M A) : M (Result A) :=
  fun env w =>
    match m env w with
    | (r, w') => (Returned r, w')
    end.

(** The world after one more call was issued. *)
Definition logged (c : Call) (w : World) : World :=
  {| tracker := tracker w; log := log w ++ [c] |}.

(** One external call: logged, then failed or not by the environment. *)
Definition external (c : Call) : M unit :=
  fun env w =>
    match fault env (List.length (log w)) c with
    | Some msg => (Threw (Error msg), logged c w)
    | None => (Returned tt, logged c w)
    end.

Definition readTracker : M (gmap (list N) Issue) :=
  fun _ w => (Returned (tracker w), w).

Definition writeTracker (t : gmap (list N) Issue) : M unit :=
  fun _ w => (Returned tt, {| tracker := t; log := log w |}).

Definition askAdapter : M (Issue -> jsstring -> Requirements -> ImplementationResult) :=
  fun env w => (Returned (adapterReply env), w).

End Effects.
Import Effects.

Declare Scope js_scope.
Delimit Scope js_scope with js.
Notation "x <- m ;; k" := (bind m (fun x => k))
  (at level 100, m at next level, right associativity) : js_scope.
Notation "m ;; k" := (bind m (fun _ => k))
  (at level 100, right associativity) : js_scope.
Local Open Scope js_scope.

(** ** JiraApiHelpers: the tracker gateway *)

Module JiraApi.

Definition getIssue (issueKey : jsstring) : M Issue :=
  external (GetIssue issueKey) ;;
  t <- readTracker ;;
  match t !! issueKey with
  | Some i => ret i
  | None => throw (Error (lit "Failed to fetch issue " ++ issueKey ++ lit ": 404"))
  end.

Definition updateIssue (issueKey : jsstring) (update : FieldsUpdate) : M unit :=
  external (UpdateIssue issueKey update) ;;
  t <- readTracker ;;
  match t !! issueKey with
  | Some i => writeTracker (<[issueKey := applyUpdate update i]> t)
  | None => throw (Error (lit "Failed to update issue " ++ issueKey ++ lit ": 404 - "))
  end.

Definition addComment (issueKey comment : jsstring) : M unit :=
  external (AddComment issueKey comment).

(** [formatComment(title, content, footer)] with a footer. *)
Definition formatComment (title content footer : jsstring) : jsstring :=
  lit "**" ++ title ++ lit "**" ++ [newline; newline] ++ content
      ++ [newline; newline] ++ footer.

End JiraApi.

(** ** JiraWebhookProcessor: the pure part *)

Module Orchestrator.

Inductive Classification : Type :=
| initial_inquiry
| deliverable_criteria
| testing_criteria
| ignore.

Inductive Stage : Type :=
| none
| analyzed
| implemented
| tested.

(** The text of a stage, as the source writes it in [claude-stage-...]. *)
Definition stageName (s : Stage) : jsstring :=
  match s with
  | none => lit "none"
  | analyzed => lit "analyzed"
  | implemented => lit "implemented"
  | tested => lit "tested"
  end.

Definition criteriaMarker : jsstring := lit "Deliverable Criteria:".
Definition generatedMarker : jsstring := lit "*Generated by Claude Automation System*".

(** *** Validation of the event *)

Definition supportedEvents : list jsstring :=
  [lit "jira:issue_created"; lit "jira:issue_updated"].

Definition actionableStatuses : list jsstring :=
  [lit "Ready for Implementation"; lit "In Progress";
   lit "Ready for Development"; lit "Testing Criteria"].

(** [supportedEvents.includes(webhookPayload.webhookEvent)]: a missing
    event type is in no list. *)
Definition includesEvent (l : list jsstring) (e : option jsstring) : bool :=
  match e with
  | Some s => arrayIncludes l s
  | None => false
  end.

(** [webhookPayload.webhookEvent === name] *)
Definition eventIs (e : option jsstring) (name : jsstring) : bool :=
  match e with
  | Some s => streq s name
  | None => false
  end.

(** [changelog?.items?.some(item => item.field === 'status')], falsy when
    the changelog or its items are missing. *)
Definition isStatusChange (c : option Changelog) : bool :=
  match c with
  | Some cl =>
      match items cl with
      | Some its => existsb (fun item => streq (field item) (lit "status")) its
      | None => false
      end
  | None => false
  end.

Definition isValidWebhookEvent (webhookPayload : WebhookPayload) : bool :=
  if negb (includesEvent supportedEvents (webhookEvent webhookPayload)) then false
  else
    match issue webhookPayload with
    | None => false
    | Some issue =>
        if negb (truthy (key issue)) then false
        else
          let issueType := issuetype (fields issue) in
          let status := status (fields issue) in
          if negb (arrayIncludes [lit "Story"; lit "Task"] issueType) then false
          else if eventIs (webhookEvent webhookPayload) (lit "jira:issue_updated")
          then
            if negb (isStatusChange (changelog webhookPayload)) then false
            else
              let summary := orEmpty (summary (fields issue)) in
              if includes summary criteriaMarker then
                if negb (arrayIncludes actionableStatuses status) then false
                else true
              else false
          else true
    end.

(** *** Classification *)

Definition claudeMarkers : list jsstring :=
  [lit "Claude Generated"; lit "*Touched by Claude*"; criteriaMarker;
   lit "Implementation:"; generatedMarker].

Definition hasClaudeMarkers (summary description : jsstring) : bool :=
  existsb (fun marker => includes summary marker || includes description marker)
          claudeMarkers.

Definition readyStatuses : list jsstring :=
  [lit "Ready for Implementation"; lit "In Progress"; lit "Ready for Development"].

(** [isReadyForImplementation], on the issue of the payload. *)
Definition isReadyForImplementation (issue : Issue) : bool :=
  arrayIncludes readyStatuses (status (fields issue)).

(** The body of [classifyIssueType] once [webhookPayload.issue] is read. *)
Definition classifyIssue (issue : Issue) : Classification :=
  let summary := orEmpty (summary (fields issue)) in
  let description := orEmpty (description (fields issue)) in
  let status := status (fields issue) in
  if negb (hasClaudeMarkers summary description) then initial_inquiry
  else if includes summary criteriaMarker then
    if streq status (lit "Testing Criteria") then testing_criteria
    else if isReadyForImplementation issue then deliverable_criteria
    else ignore
  else ignore.

(** Reading a property of [webhookPayload.issue] when the issue is
    missing raises a [TypeError]. *)
Definition typeError (property : string) : Exn :=
  Error (lit "Cannot read properties of undefined (reading '" ++ lit property
             ++ lit "')").

Definition classifyIssueType (webhookPayload : WebhookPayload)
  : Result Classification :=
  match issue webhookPayload with
  | None => Threw (typeError "fields")
  | Some issue => Returned (classifyIssue issue)
  end.

(** *** Stage labels *)

(** [labels.includes(x)] where [labels] holds [label.name] of every
    label: [undefined] for a plain string, which equals no stage tag. *)
Definition namesInclude (names : list (option jsstring)) (x : jsstring) : bool :=
  existsb (fun n => match n with Some s => streq s x | None => false end) names.

Definition getHighestStageCompleted (issue : Issue) : Stage :=
  let labels :=
    match labels (fields issue) with
    | Some ls => List.map labelName ls
    | None => []
    end in
  if namesInclude labels (lit "claude-stage-tested") then tested
  else if namesInclude labels (lit "claude-stage-implemented") then implemented
  else if namesInclude labels (lit "claude-stage-analyzed") then analyzed
  else none.

Definition stageLabels : list jsstring :=
  [lit "claude-stage-analyzed"; lit "claude-stage-implemented";
   lit "claude-stage-tested"].

(** The label array that [updateStageLabel] writes back. *)
Definition updatedLabels (newStage : Stage) (currentLabels : list Label)
  : list jsstring :=
  let newLabel := lit "claude-stage-" ++ stageName newStage in
  let nonStageLabels :=
    List.filter (fun label => negb (arrayIncludes stageLabels (labelText label)))
                currentLabels in
  List.map labelText nonStageLabels ++ [newLabel].

(** *** Criteria issues *)

Definition validateClaudeGeneratedCriteria (issue : Issue) : bool :=
  let summary := orEmpty (summary (fields issue)) in
  let description := orEmpty (description (fields issue)) in
  if negb (includes summary criteriaMarker) then false
  else if negb (includes description generatedMarker) then false
  else true.

(** [/(PCP1-\d+)/] *)
Definition projectSpecificPattern : regex :=
  Group (Seq (text (lit "PCP1-")) (Rep true 1 isDigit)).

(** [/([A-Z]{2,}-\d+)/] *)
Definition genericPattern : regex :=
  Group (Seq (Rep true 2 isUpper) (Seq (chr dash) (Rep true 1 isDigit))).

(** [/([A-Za-z]+\d*-\d+)/] *)
Definition permissivePattern : regex :=
  Group (Seq (Rep true 1 isLetter)
             (Seq (Rep true 0 isDigit) (Seq (chr dash) (Rep true 1 isDigit)))).

(** [/\*\*Original Issue:\*\* ([A-Z]+-\d+)/] *)
Definition descriptionPattern : regex :=
  Seq (text (lit "**Original Issue:** "))
      (Group (Seq (Rep true 1 isUpper) (Seq (chr dash) (Rep true 1 isDigit)))).

(** The description fallback of [extractOriginalIssueKey]. *)
Definition keyFromDescription (description : option jsstring) : option jsstring :=
  if truthy description then match1 descriptionPattern (orEmpty description)
  else None.

Definition extractOriginalIssueKey (summary description : option jsstring)
  : option jsstring :=
  if truthy summary then
    match match1 projectSpecificPattern (orEmpty summary) with
    | Some key => Some key
    | None =>
        match match1 genericPattern (orEmpty summary) with
        | Some key => Some key
        | None =>
            match match1 permissivePattern (orEmpty summary) with
            | Some key => Some key
            | None => keyFromDescription description
            end
        end
    end
  else keyFromDescription description.

Definition extractSection (text sectionName : jsstring) : list jsstring :=
  match match1 (sectionRegex sectionName) text with
  | None => []
  | Some body =>
      List.map
        (fun line => trim (removeFirst [bullet] line))
        (List.filter
           (fun line => startsWith (trim line) [bullet])
           (split newline body))
  end.

Definition extractRequirementsFromCriteria (criteriaIssue : Issue) : Requirements :=
  let description := orEmpty (description (fields criteriaIssue)) in
  {| functionalRequirements := extractSection description (lit "Functional Requirements");
     technicalRequirements := extractSection description (lit "Technical Requirements");
     acceptanceCriteria := extractSection description (lit "Acceptance Criteria");
     validationTests := extractSection description (lit "Validation Tests");
     definitionOfDone := extractSection description (lit "Definition of Done") |}.

(** ** JiraWebhookProcessor: the phase handlers *)

(** What a handler returns, by its [action]. *)
Inductive Outcome : Type :=
| Ignored (reason : jsstring)
| Skipped (reason : jsstring) (stage : Stage)
          (criteriaIssue : option jsstring) (originalIssue : jsstring)
| ImplementationFailed (criteriaIssue : option jsstring) (originalIssue : jsstring)
                       (error errorType : jsstring)
| ArtifactsFailed (criteriaIssue : option jsstring) (originalIssue : jsstring)
                  (implementation : ImplementationResult)
                  (error errorType : jsstring)
| ImplementationGenerated (criteriaIssue : option jsstring) (originalIssue : jsstring)
                          (implementation : ImplementationResult)
                          (artifacts : ArtifactsResult)
| SystemError (criteriaIssue : option jsstring) (error errorType : jsstring)
| OtherOutcome (action : jsstring).   (* outcomes of the other two phases *)

Definition action (o : Outcome) : jsstring :=
  match o with
  | Ignored _ => lit "ignored"
  | Skipped _ _ _ _ => lit "skipped"
  | ImplementationFailed _ _ _ _ => lit "implementation_failed"
  | ArtifactsFailed _ _ _ _ _ => lit "artifacts_failed"
  | ImplementationGenerated _ _ _ _ => lit "implementation_generated"
  | SystemError _ _ _ => lit "system_error"
  | OtherOutcome a => a
  end.

(** [table[k] || default] for the small file-name tables. *)
Fixpoint lookupOr (table : list (jsstring * jsstring)) (k default : jsstring)
  : jsstring :=
  match table with
  | [] => default
  | (k', v) :: rest => if streq k k' then v else lookupOr rest k default
  end.

Definition getPrimaryFileName (implementationType : jsstring) : jsstring :=
  lookupOr [(lit "code", lit "solution.js"); (lit "documentation", lit "document.md");
            (lit "analysis", lit "analysis.md"); (lit "process", lit "process.md");
            (lit "other", lit "deliverable.txt")]
           implementationType (lit "implementation.txt").

Definition getValidationFileName (implementationType : jsstring) : jsstring :=
  lookupOr [(lit "code", lit "tests.js");
            (lit "documentation", lit "validation-checklist.md");
            (lit "analysis", lit "peer-review-criteria.md");
            (lit "process", lit "validation-plan.md");
            (lit "other", lit "validation.md")]
           implementationType (lit "validation.md").

Definition shouldCreateConfigFile (implementationType : jsstring) : bool :=
  arrayIncludes [lit "code"; lit "process"] implementationType.

Definition getConfigFileName (implementationType : jsstring) : jsstring :=
  lookupOr [(lit "code", lit "package.json"); (lit "process", lit "process-config.json")]
           implementationType (lit "config.json").

(** [arr.join(sep)] *)
Fixpoint join (sep : jsstring) (l : list jsstring) : jsstring :=
  match l with
  | [] => []
  | [x] => x
  | x :: rest => x ++ sep ++ join sep rest
  end.

Definition mkdir (path : jsstring) : M unit := external (Mkdir path).
Definition writeFile (path content : jsstring) : M unit :=
  external (WriteFile path content).
Definition stat (path : jsstring) : M unit := external (Stat path).

(** [for (const x of xs) { await body(x) }] *)
Fixpoint forEach {A} (xs : list A) (body : A -> M unit) : M unit :=
  match xs with
  | [] => ret tt
  | x :: rest => body x ;; forEach rest body
  end.

(** The methods that the handlers call only when the instance has them:
    [this.hasOverrideLabel ? this.hasOverrideLabel(...) : false]. *)
Record Instance := {
  hasOverrideLabel : option (Issue -> jsstring -> bool);
  removeOverrideLabel : option (jsstring -> jsstring -> M unit)
}.

(** The class as the sources define it: neither method is declared. *)
Definition JiraWebhookProcessor : Instance :=
  {| hasOverrideLabel := None; removeOverrideLabel := None |}.

Definition updateStageLabel (issueKey : jsstring) (newStage : Stage) : M unit :=
  tryCatch
    (issue <- JiraApi.getIssue issueKey ;;
     let currentLabels :=
       match labels (fields issue) with
       | Some ls => ls
       | None => []
       end in
     JiraApi.updateIssue issueKey
       {| setSummary := None; setDescription := None;
          setLabels := Some (updatedLabels newStage currentLabels) |})
    (fun _ => ret tt).

Definition quote : N := 34.
Definition nl : jsstring := [newline].

Definition skippedComment (highestStage : Stage) : jsstring :=
  JiraApi.formatComment
    (lit "Implementation Skipped")
    (lit "Implementation was skipped because it has already been completed (stage: "
       ++ stageName highestStage ++ lit ")." ++ nl ++ nl
       ++ lit "To force regeneration, add the label `claude-force-reimplement` and try again.")
    (lit "*Skipped by Claude Automation System*").

Definition generationFailedComment (errorMessage : jsstring) : jsstring :=
  JiraApi.formatComment
    (lit "Implementation Generation Failed")
    (lit "An error occurred during automated implementation generation:" ++ nl ++ nl
       ++ lit "`" ++ errorMessage ++ lit "`" ++ nl ++ nl
       ++ lit "Please review the deliverable criteria and try again.")
    (lit "*Error logged by Claude Automation System*").

Definition artifactsFailedComment (errorMessage : jsstring) : jsstring :=
  JiraApi.formatComment
    (lit "Artifacts Creation Failed")
    (lit "Implementation was generated successfully, but failed to create file artifacts:"
       ++ nl ++ nl ++ lit "`" ++ errorMessage ++ lit "`" ++ nl ++ nl
       ++ lit "Please check file system permissions and try again.")
    (lit "*Error logged by Claude Automation System*").

Definition generatedComment (originalKey : jsstring)
           (generated : ImplementationResult) (artifactsResult : ArtifactsResult)
  : jsstring :=
  JiraApi.formatComment
    (lit "Implementation Generated")
    (lit "Claude has successfully generated the implementation for " ++ originalKey
       ++ lit "." ++ nl ++ nl
       ++ lit "  **Implementation Details:**" ++ nl
       ++ lit "  - Type: " ++ impl_type (implementation generated) ++ nl
       ++ lit "  - Title: " ++ impl_title (implementation generated) ++ nl ++ nl
       ++ lit "  **Artifacts Created:**" ++ nl
       ++ lit "  "
       ++ join nl (List.map (fun file => bullet :: lit " " ++ file) (files artifactsResult))
       ++ nl ++ nl
       ++ lit "  **Next Steps:**" ++ nl
       ++ lit "  1. Review generated implementation in repository" ++ nl
       ++ lit "  2. Move to " ++ [quote] ++ lit "Testing Criteria" ++ [quote]
       ++ lit " status to trigger automated evaluation" ++ nl
       ++ lit "  3. Or proceed with manual testing and review" ++ nl ++ nl
       ++ lit "  **Repository Location:** `work-items/" ++ originalKey
       ++ lit "/implementation/`")
    (lit "*Generated by Claude Automation System*").

Definition systemErrorComment (errorMessage : jsstring) : jsstring :=
  JiraApi.formatComment
    (lit "Automation System Error")
    (lit "An error occurred in the Claude automation system:" ++ nl ++ nl
       ++ lit "`" ++ errorMessage ++ lit "`" ++ nl ++ nl
       ++ lit "Please check the system logs and try again, or proceed with manual processing.")
    (lit "*Error logged by Claude Automation System*").

Section Handlers.

(** The two report renderers are text templates over the clock and the
    adapter's result; the other two phase handlers are arbitrary
    computations.  None of the properties below depends on them. *)
Variable generateImplementationSummary : jsstring -> ImplementationResult -> jsstring.
Variable generateConfigFile : jsstring -> Implementation -> jsstring.
Variable processInitialInquiry : WebhookPayload -> M Outcome.
Variable processTestingCriteria : WebhookPayload -> M Outcome.

(** The instance the handlers run on. *)
Variable this : Instance.

(** Paths are relative to the working directory of the process. *)
Definition createImplementationArtifacts (originalKey : jsstring)
           (implementationResult : ImplementationResult) : M ArtifactsResult :=
  tryCatch
    (let implementation := implementation implementationResult in
     let workItemsDir := lit "work-items/" ++ originalKey in
     let implementationDir := workItemsDir ++ lit "/implementation" in
     let inDir := fun file : jsstring => implementationDir ++ lit "/" ++ file in
     mkdir workItemsDir ;;
     mkdir implementationDir ;;
     (* 1. primary deliverable *)
     let primaryFile := getPrimaryFileName (impl_type implementation) in
     writeFile (inDir primaryFile) (primaryDeliverable implementation) ;;
     let createdFiles := [primaryFile] in
     (* 2. supporting files *)
     forEach (supportingFiles implementation)
             (fun entry => writeFile (inDir (fst entry)) (snd entry)) ;;
     let createdFiles := createdFiles ++ List.map fst (supportingFiles implementation) in
     (* 3. validation file *)
     createdFiles <-
       (if truthy (tests implementationResult) then
          let testFile := getValidationFileName (impl_type implementation) in
          writeFile (inDir testFile) (orEmpty (tests implementationResult)) ;;
          ret (createdFiles ++ [testFile])
        else ret createdFiles) ;;
     (* 4. documentation *)
     createdFiles <-
       (if truthy (documentation implementationResult) then
          writeFile (inDir (lit "README.md"))
                    (orEmpty (documentation implementationResult)) ;;
          ret (createdFiles ++ [lit "README.md"])
        else ret createdFiles) ;;
     (* 5. implementation summary *)
     writeFile (inDir (lit "implementation-summary.md"))
               (generateImplementationSummary originalKey implementationResult) ;;
     let createdFiles := createdFiles ++ [lit "implementation-summary.md"] in
     (* 6. configuration file *)
     createdFiles <-
       (if shouldCreateConfigFile (impl_type implementation) then
          let configFile := getConfigFileName (impl_type implementation) in
          writeFile (inDir configFile) (generateConfigFile originalKey implementation) ;;
          ret (createdFiles ++ [configFile])
        else ret createdFiles) ;;
     (* verification *)
     forEach createdFiles
             (fun file =>
                tryCatch (stat (inDir file))
                         (fun _ => throw (Error (lit "Failed to create " ++ file)))) ;;
     ret {| directory := implementationDir;
            files := createdFiles;
            implementationType := impl_type implementation |})
    (fun error =>
       throw (Error (lit "Failed to create implementation artifacts: "
                       ++ message error))).

(** The adapter call, seen from the orchestrator: one external call
    that returns the adapter's result or throws. *)
Definition generateImplementation (criteriaIssue : Issue) (originalKey : jsstring)
           (requirements : Requirements) : M ImplementationResult :=
  external (GenerateImplementation criteriaIssue originalKey requirements) ;;
  reply <- askAdapter ;;
  ret (reply criteriaIssue originalKey requirements).

Definition processDeliverableCriteria (webhookPayload : WebhookPayload) : M Outcome :=
  match issue webhookPayload with
  | None => throw (typeError "key")   (* [issue.key] is read before [try] *)
  | Some issue =>
    let issueKey := keyText (key issue) in
    tryCatch
      ((if negb (validateClaudeGeneratedCriteria issue) then
          throw (Error (lit "Deliverable criteria must be Claude-generated to proceed with implementation"))
        else ret tt) ;;
       let originalKey :=
         extractOriginalIssueKey (summary (fields issue)) (description (fields issue)) in
       (if negb (truthy originalKey) then
          throw (Error (lit "Could not extract original issue key from deliverable criteria"))
        else ret tt) ;;
       let originalKey := orEmpty originalKey in
       (* stage progression *)
       let highestStage := getHighestStageCompleted issue in
       let hasForceReimplement :=
         match hasOverrideLabel this with
         | Some has => has issue (lit "reimplement")
         | None => false
         end in
       match highestStage, hasForceReimplement with
       | implemented, false | tested, false =>
           JiraApi.addComment issueKey (skippedComment highestStage) ;;
           ret (Skipped (lit "Implementation already exists") highestStage
                        (key issue) originalKey)
       | _, _ =>
           (* remove the override label if present *)
           match hasForceReimplement, removeOverrideLabel this with
           | true, Some remove =>
               tryCatch (remove issueKey (lit "reimplement")) (fun _ => ret tt)
           | _, _ => ret tt
           end ;;
           (* step 1: original issue *)
           _ <- JiraApi.getIssue originalKey ;;
           (* step 2: requirements *)
           let requirements := extractRequirementsFromCriteria issue in
           (* step 3: generation *)
           generated <- attempt (generateImplementation issue originalKey requirements) ;;
           match generated with
           | Threw implementationError =>
               JiraApi.addComment
                 issueKey (generationFailedComment (message implementationError)) ;;
               ret (ImplementationFailed (key issue) originalKey
                                         (message implementationError)
                                         (lit "claude_generation_failure"))
           | Returned implementation =>
               (* step 4: artifacts *)
               created <- attempt (createImplementationArtifacts originalKey implementation) ;;
               match created with
               | Threw artifactsError =>
                   JiraApi.addComment
                     issueKey (artifactsFailedComment (message artifactsError)) ;;
                   ret (ArtifactsFailed (key issue) originalKey implementation
                                        (message artifactsError)
                                        (lit "artifacts_creation_failure"))
               | Returned artifactsResult =>
                   (* step 5: success comment *)
                   JiraApi.addComment
                     issueKey (generatedComment originalKey implementation artifactsResult) ;;
                   (* step 6: stage label *)
                   tryCatch (updateStageLabel issueKey implemented) (fun _ => ret tt) ;;
                   ret (ImplementationGenerated (key issue) originalKey
                                                implementation artifactsResult)
               end
           end
       end)
      (fun error =>
         JiraApi.addComment issueKey (systemErrorComment (message error)) ;;
         ret (SystemError (key issue) (message error) (lit "system_failure")))
  end.

Definition processWebhook (webhookPayload : WebhookPayload) : M Outcome :=
  tryCatch
    (let isValid := isValidWebhookEvent webhookPayload in
     if negb isValid then ret (Ignored (lit "Non-actionable event"))
     else
       match classifyIssueType webhookPayload with
       | Threw e => throw e
       | Returned initial_inquiry => processInitialInquiry webhookPayload
       | Returned deliverable_criteria => processDeliverableCriteria webhookPayload
       | Returned testing_criteria => processTestingCriteria webhookPayload
       | Returned ignore =>
           ret (Ignored (lit "No action required for this issue type"))
       end)
    (fun error =>
       throw (Error (lit "Webhook processing failed: " ++ message error))).

End Handlers.

End Orchestrator.

Import Orchestrator.

(** ** Inputs used in the examples below *)

Definition category (points : Z) : Evaluator.Category :=
  {| Evaluator.score := points; Evaluator.analysis := [] |}.

Definition assessment (ready : bool) : Evaluator.OverallAssessment :=
  {| Evaluator.summary := []; Evaluator.readyForDeployment := ready;
     Evaluator.majorConcerns := []; Evaluator.recommendations := [] |}.

Definition errorOf (sev : string) : Evaluator.EvalError :=
  {| Evaluator.severity := lit sev; Evaluator.type := lit "FUNCTIONAL";
     Evaluator.description := []; Evaluator.impact := [];
     Evaluator.recommendation := [] |}.

Definition evaluationOf (rc qc up cp : Z) (errs : list Evaluator.EvalError)
           (ready : bool) : Evaluator.Evaluation :=
  {| Evaluator.requirementsCoverage := category rc;
     Evaluator.qualityCraftsmanship := category qc;
     Evaluator.usabilityPracticality := category up;
     Evaluator.completenessPolish := category cp;
     Evaluator.errors := errs;
     Evaluator.overallAssessment := assessment ready |}.

(** An adapter response whose category scores exceed the 25 points the
    prompt asks for. *)
Definition generousEvaluation : Evaluator.Evaluation :=
  evaluationOf 30 30 30 30 [] true.

(** The description of a criteria issue in the layout that
    [createDeliverableCriteriaIssue] writes, abridged, for the original
    issue PCP1-67. *)
Definition generatedDescription : jsstring :=
  lit "**Claude Generated Delivery Criteria**" ++ nl
  ++ lit "    " ++ nl
  ++ lit "**Original Issue:** PCP1-67 - Fix login bug" ++ nl ++ nl
  ++ lit "## Functional Requirements" ++ nl
  ++ bullet :: lit " Users can log in" ++ nl
  ++ bullet :: lit " Failed logins are reported" ++ nl ++ nl
  ++ lit "## Technical Requirements  " ++ nl
  ++ bullet :: lit " Sessions expire" ++ nl ++ nl
  ++ lit "---" ++ nl
  ++ lit "*Generated by Claude Automation System*".

Definition criteriaIssue (description : jsstring) (statusName : string)
           (labelList : list Label) : Issue :=
  {| key := Some (lit "PCP1-68");
     fields :=
       {| summary := Some (lit "Deliverable Criteria: PCP1-67 - Fix login bug");
          description := Some description;
          status := lit statusName;
          issuetype := lit "Task";
          labels := Some labelList |} |}.

(** A status-change event for an issue. *)
Definition statusChanged (i : Issue) : WebhookPayload :=
  {| webhookEvent := Some (lit "jira:issue_updated");
     issue := Some i;
     changelog := Some {| items := Some [ {| field := lit "status" |} ] |} |}.

(** An event of a type the processor does not handle. *)
Definition deletedEvent (i : Issue) : WebhookPayload :=
  {| webhookEvent := Some (lit "jira:issue_deleted");
     issue := Some i;
     changelog := None |}.

Definition sampleImplementation : ImplementationResult :=
  {| implementation :=
       {| impl_type := lit "code"; impl_title := lit "Login fix";
          primaryDeliverable := lit "module.exports = {};";
          supportingFiles := [] |};
     tests := Some (lit "// tests");
     documentation := Some (lit "# Login fix") |}.

(** An environment in which no external call fails. *)
Definition calm : Env :=
  {| fault := fun _ _ => None; adapterReply := fun _ _ _ => sampleImplementation |}.

(** A world whose tracker holds the given issues and whose log is empty. *)
Definition worldOf (t : gmap (list N) Issue) : World := {| tracker := t; log := [] |}.

Definition idleHandler (_ : WebhookPayload) : M Outcome := ret (OtherOutcome []).
Definition noSummary (_ : jsstring) (_ : ImplementationResult) : jsstring := [].
Definition noConfig (_ : jsstring) (_ : Implementation) : jsstring := [].

(** [n] runs of [m], one after the other. *)
Fixpoint times (n : nat) (m : M unit) : M unit :=
  match n with
  | O => ret tt
  | S k => m ;; times k m
  end.

(** The criteria issue for PCP1-67 before implementation, after it, and
    after it with the override label that the skip comment advertises. *)
Definition freshIssue : Issue :=
  criteriaIssue generatedDescription "Ready for Implementation" [].

Definition implementedIssue : Issue :=
  criteriaIssue generatedDescription "Ready for Implementation"
                [LabelObject (lit "claude-stage-implemented")].

Definition forcedIssue : Issue :=
  criteriaIssue generatedDescription "Ready for Implementation"
                [LabelObject (lit "claude-stage-implemented");
                 LabelObject (lit "claude-force-reimplement")].


(** A tracker that answers every request with status 503. *)
Definition trackerDown : Env :=
  {| fault := fun _ c =>
       match c with
       | AddComment k _ => Some (lit "Failed to add comment to " ++ k ++ lit ": 503 - ")
       | GetIssue k => Some (lit "Failed to fetch issue " ++ k ++ lit ": 503")
       | UpdateIssue k _ => Some (lit "Failed to update issue " ++ k ++ lit ": 503 - ")
       | _ => None
       end;
     adapterReply := fun _ _ _ => sampleImplementation |}.

Definition trackerWith (i : Issue) : gmap (list N) Issue :=
  {[ keyText (key i) := i ]}.

(** A section whose items are written with dashes, one whose bullet is
    indented, and one with an empty bullet. *)
Definition dashedSection : jsstring :=
  lit "## Functional Requirements" ++ nl ++ lit "- Users can log in".

Definition indentedSection : jsstring :=
  lit "## Functional Requirements" ++ nl ++ lit "  " ++ bullet :: lit " Users can log in".

Definition emptyItemSection : jsstring :=
  lit "## Functional Requirements" ++ nl ++ [bullet].

(** ** Vocabulary of the statements *)

(** A stage tag, and the tag of a stage. *)
Definition isStageLabel (text : jsstring) : bool := arrayIncludes stageLabels text.

Definition stageTag (s : Stage) : jsstring := lit "claude-stage-" ++ stageName s.

(** No pattern finds a key in the summary: the summary is missing or empty,
    or none of the three patterns matches it. *)
Definition noKeyInSummary (summary : option jsstring) : Prop :=
  truthy summary = false
  \/ (match1 projectSpecificPattern (orEmpty summary) = None
      /\ match1 genericPattern (orEmpty summary) = None
      /\ match1 permissivePattern (orEmpty summary) = None).

Definition originalIssueLine : jsstring := lit "**Original Issue:** ABC-12".

(** A key as the patterns cut it out: a head, a dash and digits. *)
Definition keyParts (head : jsstring -> Prop) (k : jsstring) : Prop :=
  exists u d,
    k = u ++ dash :: d /\ head u
    /\ List.Forall (fun c => isDigit c = true) d /\ 1 <= List.length d.

(** Heads of a key: upper-case letters, or letters followed by digits. *)
Definition upperHead (n : nat) (u : jsstring) : Prop :=
  List.Forall (fun c => isUpper c = true) u /\ n <= List.length u.

Definition permissiveHead (u : jsstring) : Prop :=
  exists a b,
    u = a ++ b /\ List.Forall (fun c => isLetter c = true) a /\ 1 <= List.length a
    /\ List.Forall (fun c => isDigit c = true) b.

(** [hasForceReimplement] as [processDeliverableCriteria] computes it. *)
Definition overrideRequested (this : Instance) (i : Issue) : bool :=
  match hasOverrideLabel this with
  | Some has => has i (lit "reimplement")
  | None => false
  end.

(** The top-level [catch] block of [processDeliverableCriteria]: one
    comment, then the [system_error] outcome; a failure of that comment is
    not caught. *)
Definition reportSystemError (i : Issue) (msg : jsstring) (env : Env) (w : World)
  : Result Outcome * World :=
  let c := AddComment (keyText (key i)) (systemErrorComment msg) in
  (match fault env (List.length (log w)) c with
   | None => Returned (SystemError (key i) msg (lit "system_failure"))
   | Some msg' => Threw (Error msg')
   end,
   logged c w).


(** A line that both [extractSection] methods read alike: if, once trimmed,
    it starts with a bullet or a dash, then the bullet is its first unit
    and some text other than white space follows it. *)
Definition plainBullet (line : jsstring) : bool :=
  if startsWith (trim line) [bullet] || startsWith (trim line) [dash]
  then
    match line with
    | c :: rest => N.eqb c bullet && negb (Nat.eqb (List.length (trim rest)) 0)
    | [] => false
    end
  else true.

(** A computation that leaves the tracker's store as it found it. *)
Definition keepsTracker {A} (m : M A) : Prop :=
  forall env w, tracker (snd (m env w)) = tracker w.

(** The path of a file in the implementation directory of an issue. *)
Definition artifactPath (originalKey file : jsstring) : jsstring :=
  ((lit "work-items/" ++ originalKey) ++ lit "/implementation") ++ lit "/" ++ file.

(** A call that writes the given file of the implementation directory. *)
Definition writes (originalKey : jsstring) (c : Call) (file : jsstring) : Prop :=
  exists content, c = WriteFile (artifactPath originalKey file) content.

(** The file system refuses to create directories. *)
Definition diskFull : Env :=
  {| fault := fun _ c =>
       match c with
       | Mkdir _ => Some (lit "ENOSPC: no space left on device")
       | _ => None
       end;
     adapterReply := fun _ _ _ => sampleImplementation |}.

(** The implementation adapter fails on every request. *)
Definition adapterDown : Env :=
  {| fault := fun _ c =>
       match c with
       | GenerateImplementation _ _ _ => Some (lit "Claude API error: 529")
       | _ => None
       end;
     adapterReply := fun _ _ _ => sampleImplementation |}.

(** The tracker accepts comments and reads, and refuses every update. *)
Definition readOnlyTracker : Env :=
  {| fault := fun _ c =>
       match c with
       | UpdateIssue k _ => Some (lit "Failed to update issue " ++ k ++ lit ": 403 - ")
       | _ => None
       end;
     adapterReply := fun _ _ _ => sampleImplementation |}.

(** The original issue of the examples. *)
Definition originalIssue : Issue :=
  {| key := Some (lit "PCP1-67");
     fields :=
       {| summary := Some (lit "Fix login bug");
          description := Some (lit "Users cannot log in");
          status := lit "To Do";
          issuetype := lit "Story";
          labels := None |} |}.

Definition bothIssues : gmap (list N) Issue :=
  <[lit "PCP1-67" := originalIssue]> (trackerWith freshIssue).

(** ** ClaudeTestingEvaluator: the recommendation *)

(** The object [generateRecommendation] returns; the last two fields exist
    in the [NEEDS_WORK] branch only. *)
Record Recommendation := {
  rec_status : jsstring;
  rec_action : jsstring;
  rec_summary : jsstring;
  nextSteps : list jsstring;
  criticalIssues : option (list Evaluator.EvalError);
  rec_majorConcerns : option (list jsstring)
}.

Section Recommendations.

(** [`${n}`] for a number: the text JavaScript prints for it. *)
Variable numberText : Z -> jsstring.

Definition generateRecommendation (finalScore : Evaluator.FinalScore)
           (evaluation : Evaluator.Evaluation) : Recommendation :=
  if Evaluator.meetsCriteria finalScore then
    {| rec_status := lit "APPROVED";
       rec_action := lit "READY_FOR_DEPLOYMENT";
       rec_summary :=
         lit "Implementation meets all criteria with score "
           ++ numberText (Evaluator.overallScore finalScore)
           ++ lit "/100 and zero errors.";
       nextSteps := [lit "Proceed to deployment/implementation";
                     lit "Update stakeholders on completion";
                     lit "Monitor post-deployment metrics"];
       criticalIssues := None;
       rec_majorConcerns := None |}
  else
    let issues := [] in
    let issues :=
      if (Evaluator.overallScore finalScore <? Evaluator.passingScore finalScore)%Z
      then issues ++ [lit "Score " ++ numberText (Evaluator.overallScore finalScore)
                          ++ lit "/100 below required "
                          ++ numberText (Evaluator.passingScore finalScore)
                          ++ lit "/100"]
      else issues in
    let issues :=
      if Nat.ltb 0 (Evaluator.errorCount finalScore)
      then issues ++ [numberText (Z.of_nat (Evaluator.errorCount finalScore))
                        ++ lit " errors found ("
                        ++ numberText (Z.of_nat (Evaluator.criticalErrors finalScore))
                        ++ lit " critical, "
                        ++ numberText (Z.of_nat (Evaluator.highErrors finalScore))
                        ++ lit " high)"]
      else issues in
    let issues :=
      if negb (Evaluator.fs_readyForDeployment finalScore)
      then issues ++ [lit "Claude assessment indicates not ready for deployment"]
      else issues in
    {| rec_status := lit "NEEDS_WORK";
       rec_action := lit "RETURN_FOR_REVISION";
       rec_summary := lit "Implementation needs revision: " ++ join (lit ", ") issues;
       nextSteps := [lit "Address identified errors and issues";
                     lit "Improve implementation quality";
                     lit "Re-submit for evaluation"];
       criticalIssues :=
         Some (List.filter (fun e => streq (Evaluator.severity e) (lit "CRITICAL"))
                           (Evaluator.errors evaluation));
       rec_majorConcerns :=
         Some (Evaluator.majorConcerns (Evaluator.overallAssessment evaluation)) |}.

End Recommendations.

(** An evaluation with one more reported error. *)
Definition withError (x : Evaluator.EvalError) (e : Evaluator.Evaluation)
  : Evaluator.Evaluation :=
  {| Evaluator.requirementsCoverage := Evaluator.requirementsCoverage e;
     Evaluator.qualityCraftsmanship := Evaluator.qualityCraftsmanship e;
     Evaluator.usabilityPracticality := Evaluator.usabilityPracticality e;
     Evaluator.completenessPolish := Evaluator.completenessPolish e;
     Evaluator.errors := x :: Evaluator.errors e;
     Evaluator.overallAssessment := Evaluator.overallAssessment e |}.

(** A rendering of numbers used in the examples: every number as [n]. *)
Definition anyNumber (_ : Z) : jsstring := lit "n".

(** ** ClaudeRequirementsAnalyzer: the analysis

    The parsed adapter response, with the fields the orchestrator reads,
    typed as the response format of the prompt asks. *)

Module Analyzer.

Record DeliveryCriteria := {
  functionalRequirements : list jsstring;
  technicalRequirements : list jsstring;
  qualityRequirements : list jsstring;
  acceptanceCriteria : list jsstring;
  definitionOfDone : list jsstring
}.

Record ValidationTests := {
  unitTests : list jsstring;
  integrationTests : list jsstring;
  edgeCases : list jsstring;
  performanceTests : list jsstring
}.

Record TechnicalApproach := {
  architecture : jsstring;
  components : list jsstring;
  dependencies : list jsstring;
  risks : list jsstring;
  mitigations : list jsstring
}.

Record EstimatedEffort := {
  storyPoints : Z;
  hours : Z;
  complexity : jsstring;
  confidence : jsstring;
  assumptions : list jsstring
}.

Record Analysis := {
  deliveryCriteria : DeliveryCriteria;
  validationTests : ValidationTests;
  technicalApproach : TechnicalApproach;
  estimatedEffort : EstimatedEffort
}.

Definition getFallbackAnalysis : Analysis :=
  {| deliveryCriteria :=
       {| functionalRequirements := [lit "Core functionality implemented as described"];
          technicalRequirements := [lit "Code follows project standards"];
          qualityRequirements := [lit "Unit tests with >80% coverage"];
          acceptanceCriteria := [lit "All functional requirements met"];
          definitionOfDone := [lit "Code reviewed and deployed"] |};
     validationTests :=
       {| unitTests := [lit "Test core functionality"];
          integrationTests := [lit "Test system integration"];
          edgeCases := [lit "Test error handling"];
          performanceTests := [lit "Validate performance requirements"] |};
     technicalApproach :=
       {| architecture := lit "Standard implementation approach";
          components := [lit "Main component"];
          dependencies := [lit "Standard project dependencies"];
          risks := [lit "Implementation complexity"];
          mitigations := [lit "Thorough testing and code review"] |};
     estimatedEffort :=
       {| storyPoints := 5;
          hours := 16;
          complexity := lit "Medium";
          confidence := lit "Medium";
          assumptions := [lit "Requirements are clear and complete"] |} |}.

End Analyzer.

(** ** JiraWebhookProcessor: the criteria issue it writes

    [createDeliverableCriteriaIssue] builds two texts, the summary and the
    description of the new issue, and hands them to [createIssue].  The
    time stamp is the clock's [toISOString()]. *)

(** [items.map(x => `• ${x}`).join('\n')] *)
Definition bulleted (items : list jsstring) : jsstring :=
  join nl (List.map (fun req => bullet :: lit " " ++ req) items).

Section CriteriaIssue.

(** [`${n}`] for a number. *)
Variable numberText : Z -> jsstring.

Definition criteriaSummary (originalIssue : Issue) : jsstring :=
  lit "Deliverable Criteria: " ++ keyText (key originalIssue) ++ lit " - "
      ++ keyText (summary (fields originalIssue)).

Definition criteriaDescription (originalIssue : Issue) (analysis : Analyzer.Analysis)
           (timestamp : jsstring) : jsstring :=
  let criteria := Analyzer.deliveryCriteria analysis in
  let validation := Analyzer.validationTests analysis in
  let approach := Analyzer.technicalApproach analysis in
  let effort := Analyzer.estimatedEffort analysis in
  lit "**Claude Generated Delivery Criteria**" ++ nl
  ++ lit "    " ++ nl
  ++ lit "**Original Issue:** " ++ keyText (key originalIssue) ++ lit " - "
  ++ keyText (summary (fields originalIssue)) ++ nl
  ++ lit "**Analysis Date:** " ++ timestamp ++ nl
  ++ nl
  ++ lit "## Functional Requirements" ++ nl
  ++ bulleted (Analyzer.functionalRequirements criteria) ++ nl
  ++ nl
  ++ lit "## Technical Requirements  " ++ nl
  ++ bulleted (Analyzer.technicalRequirements criteria) ++ nl
  ++ nl
  ++ lit "## Acceptance Criteria" ++ nl
  ++ bulleted (Analyzer.acceptanceCriteria criteria) ++ nl
  ++ nl
  ++ lit "## Validation Tests" ++ nl
  ++ lit "**Unit Tests:**" ++ nl
  ++ bulleted (Analyzer.unitTests validation) ++ nl
  ++ nl
  ++ lit "**Integration Tests:**" ++ nl
  ++ bulleted (Analyzer.integrationTests validation) ++ nl
  ++ nl
  ++ lit "## Technical Approach" ++ nl
  ++ lit "**Architecture:** " ++ Analyzer.architecture approach ++ nl
  ++ lit "**Components:** " ++ join (lit ", ") (Analyzer.components approach) ++ nl
  ++ lit "**Dependencies:** " ++ join (lit ", ") (Analyzer.dependencies approach) ++ nl
  ++ nl
  ++ lit "## Definition of Done" ++ nl
  ++ bulleted (Analyzer.definitionOfDone criteria) ++ nl
  ++ nl
  ++ lit "## Estimated Effort" ++ nl
  ++ lit "**Story Points:** " ++ numberText (Analyzer.storyPoints effort) ++ nl
  ++ lit "**Complexity:** " ++ Analyzer.complexity effort ++ nl
  ++ lit "**Hours:** " ++ numberText (Analyzer.hours effort) ++ nl
  ++ nl
  ++ lit "---" ++ nl
  ++ lit "*Generated by Claude Automation System*" ++ nl
  ++ lit "**Instructions:** Move this issue to " ++ [quote]
  ++ lit "Ready for Implementation" ++ [quote]
  ++ lit " to trigger automated development.".

End CriteriaIssue.

(** Texts without [#], and texts without a line break. *)
Definition hashSign : N := 35.

Definition hashFree (s : jsstring) : bool :=
  forallb (fun c => negb (N.eqb c hashSign)) s.

Definition oneLine (s : jsstring) : bool := forallb (fun c => negb (N.eqb c newline)) s.

(** The two texts differ, letter case aside, at some position that both
    have. *)
Fixpoint mismatch (a p : jsstring) : bool :=
  match a, p with
  | x :: a', y :: p' =>
      negb (N.eqb (canonicalize x) (canonicalize y)) || mismatch a' p'
  | _, _ => false
  end.

(** A text made of an opening and of sections, each a heading line
    [## name] followed by a body. *)
Fixpoint sections (secs : list (jsstring * jsstring)) : jsstring :=
  match secs with
  | [] => []
  | (name, body) :: rest => (lit "## " ++ name) ++ body ++ sections rest
  end.

(** The items that [extractSection] of the orchestrator reads in the body
    of a section. *)
Definition bulletItems (body : jsstring) : list jsstring :=
  List.map (fun line => trim (removeFirst [bullet] line))
           (List.filter (fun line => startsWith (trim line) [bullet])
                        (split newline body)).

(** The items that [extractSection] of the evaluator reads there. *)
Definition listItems (body : jsstring) : list jsstring :=
  List.filter
    (fun line => negb (Nat.eqb (List.length line) 0))
    (List.map
       (fun line => trim (removeAnchored Evaluator.bulletPrefix line))
       (List.filter
          (fun line => startsWith (trim line) [bullet]
                       || startsWith (trim line) [dash])
          (split newline body))).

(** The texts of an original issue and of an analysis that a criteria
    issue carries before its section [Definition of Done] ends. *)
Definition plainTexts (originalIssue : Issue) (analysis : Analyzer.Analysis)
           (timestamp : jsstring) : list jsstring :=
  let criteria := Analyzer.deliveryCriteria analysis in
  let validation := Analyzer.validationTests analysis in
  let approach := Analyzer.technicalApproach analysis in
  [keyText (key originalIssue); keyText (summary (fields originalIssue)); timestamp;
   Analyzer.architecture approach]
    ++ Analyzer.functionalRequirements criteria
    ++ Analyzer.technicalRequirements criteria
    ++ Analyzer.acceptanceCriteria criteria
    ++ Analyzer.unitTests validation
    ++ Analyzer.integrationTests validation
    ++ Analyzer.components approach
    ++ Analyzer.dependencies approach
    ++ Analyzer.definitionOfDone criteria.

(** The listed requirements, each on one line. *)
Definition listedItems (analysis : Analyzer.Analysis) : list jsstring :=
  let criteria := Analyzer.deliveryCriteria analysis in
  let validation := Analyzer.validationTests analysis in
  Analyzer.functionalRequirements criteria
    ++ Analyzer.technicalRequirements criteria
    ++ Analyzer.acceptanceCriteria criteria
    ++ Analyzer.unitTests validation
    ++ Analyzer.integrationTests validation
    ++ Analyzer.definitionOfDone criteria.

(** A criteria issue with the given texts, as the tracker shows it once
    created; used in the examples. *)
Definition createdIssue (newKey summary description : jsstring) : Issue :=
  {| key := Some newKey;
     fields :=
       {| summary := Some summary;
          description := Some description;
          status := lit "To Do";
          issuetype := lit "Task";
          labels := None |} |}.

(** The opening of the description of a criteria issue and its seven
    sections, heading by heading. *)
Definition criteriaOpening (originalIssue : Issue) (timestamp : jsstring) : jsstring :=
  lit "**Claude Generated Delivery Criteria**" ++ nl
  ++ lit "    " ++ nl
  ++ lit "**Original Issue:** " ++ keyText (key originalIssue) ++ lit " - "
  ++ keyText (summary (fields originalIssue)) ++ nl
  ++ lit "**Analysis Date:** " ++ timestamp ++ nl
  ++ nl.

Definition criteriaSections (numberText : Z -> jsstring) (analysis : Analyzer.Analysis)
  : list (jsstring * jsstring) :=
  let criteria := Analyzer.deliveryCriteria analysis in
  let validation := Analyzer.validationTests analysis in
  let approach := Analyzer.technicalApproach analysis in
  let effort := Analyzer.estimatedEffort analysis in
  [(lit "Functional Requirements",
    nl ++ bulleted (Analyzer.functionalRequirements criteria) ++ nl ++ nl);
   (lit "Technical Requirements",
    lit "  " ++ nl ++ bulleted (Analyzer.technicalRequirements criteria) ++ nl ++ nl);
   (lit "Acceptance Criteria",
    nl ++ bulleted (Analyzer.acceptanceCriteria criteria) ++ nl ++ nl);
   (lit "Validation Tests",
    nl ++ lit "**Unit Tests:**" ++ nl
       ++ bulleted (Analyzer.unitTests validation) ++ nl ++ nl
       ++ lit "**Integration Tests:**" ++ nl
       ++ bulleted (Analyzer.integrationTests validation) ++ nl ++ nl);
   (lit "Technical Approach",
    nl ++ lit "**Architecture:** " ++ Analyzer.architecture approach ++ nl
       ++ lit "**Components:** " ++ join (lit ", ") (Analyzer.components approach) ++ nl
       ++ lit "**Dependencies:** " ++ join (lit ", ") (Analyzer.dependencies approach)
       ++ nl ++ nl);
   (lit "Definition of Done",
    nl ++ bulleted (Analyzer.definitionOfDone criteria) ++ nl ++ nl);
   (lit "Estimated Effort",
    nl ++ lit "**Story Points:** " ++ numberText (Analyzer.storyPoints effort) ++ nl
       ++ lit "**Complexity:** " ++ Analyzer.complexity effort ++ nl
       ++ lit "**Hours:** " ++ numberText (Analyzer.hours effort) ++ nl
       ++ nl
       ++ lit "---" ++ nl
       ++ lit "*Generated by Claude Automation System*" ++ nl
       ++ lit "**Instructions:** Move this issue to " ++ [quote]
       ++ lit "Ready for Implementation" ++ [quote]
       ++ lit " to trigger automated development.")].

(** The event the tracker sends when an issue has been created. *)
Definition createdEvent (i : Issue) : WebhookPayload :=
  {| webhookEvent := Some (lit "jira:issue_created");
     issue := Some i;
     changelog := None |}.

(** The criteria issue written for the original issue of the examples
    and the fallback analysis. *)
Definition fallbackCriteriaIssue : Issue :=
  createdIssue (lit "PCP1-68") (criteriaSummary originalIssue)
               (criteriaDescription anyNumber originalIssue
                                    Analyzer.getFallbackAnalysis
                                    (lit "2025-01-01T00:00:00.000Z")).

(** ** JiraWebhookProcessor: the initial inquiry

    The calls of this phase that leave the process through other doors
    than the ones logged above (the analysis adapter, the creation of an
    issue, the link between two issues) are parameters: computations that
    return or throw.  Each method reads the clock once; its reading is a
    parameter of the method. *)

Record InquiryResult := {
  inquiry_originalIssue : option jsstring;
  inquiry_criteriaIssue : option jsstring;
  inquiry_analysis : Analyzer.Analysis
}.

Section InitialInquiry.

Variable numberText : Z -> jsstring.
Variable analyzeRequirements : Issue -> M Analyzer.Analysis.
Variable createIssue : jsstring -> jsstring -> jsstring -> jsstring -> M Issue.
Variable linkIssues : option jsstring -> option jsstring -> jsstring -> M unit.

Definition claudeMarker (analysis : Analyzer.Analysis) (timestamp : jsstring) : jsstring :=
  nl ++ nl ++ lit "---" ++ nl
  ++ lit "*Touched by Claude* - Requirements analyzed on " ++ timestamp ++ nl ++ nl
  ++ lit "**Analysis Summary:**" ++ nl
  ++ bullet :: lit " "
  ++ numberText (Z.of_nat (List.length (Analyzer.functionalRequirements
                                           (Analyzer.deliveryCriteria analysis))))
  ++ lit " functional requirements identified" ++ nl
  ++ bullet :: lit " "
  ++ numberText (Z.of_nat (List.length (Analyzer.unitTests
                                           (Analyzer.validationTests analysis))))
  ++ lit " test scenarios defined" ++ nl
  ++ bullet :: lit " Estimated effort: "
  ++ numberText (Analyzer.storyPoints (Analyzer.estimatedEffort analysis))
  ++ lit " story points" ++ nl ++ nl
  ++ lit "Detailed delivery criteria created in linked issue.".

Definition markIssueAsTouchedByClaude (issueKey : jsstring)
           (analysis : Analyzer.Analysis) (timestamp : jsstring) : M unit :=
  tryCatch
    (issue <- JiraApi.getIssue issueKey ;;
     let currentDescription := orEmpty (description (fields issue)) in
     let updatedDescription := currentDescription ++ claudeMarker analysis timestamp in
     JiraApi.updateIssue issueKey
       {| setSummary := None; setDescription := Some updatedDescription;
          setLabels := None |})
    (fun error => throw error).

Definition createDeliverableCriteriaIssue (originalIssue : Issue)
           (analysis : Analyzer.Analysis) (timestamp : jsstring) : M Issue :=
  match key originalIssue with
  | None => throw (typeError "split")   (* [originalIssue.key.split] before [try] *)
  | Some originalKey =>
      let projectKey := hd [] (split dash originalKey) in
      tryCatch
        (createIssue projectKey (lit "Task") (criteriaSummary originalIssue)
                     (criteriaDescription numberText originalIssue analysis timestamp))
        (fun error => throw error)
  end.

Definition analysisFailedComment (errorMessage : jsstring) : jsstring :=
  JiraApi.formatComment
    (lit "Claude Analysis Failed")
    (lit "An error occurred during automated requirements analysis:" ++ nl ++ nl
       ++ lit "`" ++ errorMessage ++ lit "`" ++ nl ++ nl
       ++ lit "Please review and try again, or proceed with manual analysis.")
    (lit "*Error logged by Claude Automation System*").

Definition processInitialInquiry (webhookPayload : WebhookPayload)
           (markedAt createdAt : jsstring) : M InquiryResult :=
  match issue webhookPayload with
  | None => throw (typeError "key")   (* [issue.key] is read before [try] *)
  | Some issue =>
    tryCatch
      ((* step 1: analysis *)
       analysis <- analyzeRequirements issue ;;
       (* step 2: mark the original issue *)
       markIssueAsTouchedByClaude (keyText (key issue)) analysis markedAt ;;
       (* step 3: criteria issue; the log line reads [issue.key.split] *)
       match key issue with
       | None => throw (typeError "split")
       | Some _ => ret tt
       end ;;
       criteriaIssue <- createDeliverableCriteriaIssue issue analysis createdAt ;;
       (* step 4: link *)
       linkIssues (key issue) (key criteriaIssue) (lit "Relates") ;;
       ret {| inquiry_originalIssue := key issue;
              inquiry_criteriaIssue := key criteriaIssue;
              inquiry_analysis := analysis |})
      (fun error =>
         tryCatch
           (JiraApi.addComment (keyText (key issue))
                               (analysisFailedComment (message error)))
           (fun _ => ret tt) ;;
         throw error)
  end.

End InitialInquiry.

(** The three doors of the examples: the analysis falls back, no issue
    can be created, links are accepted. *)
Definition fallbackAnalyzer (_ : Issue) : M Analyzer.Analysis :=
  ret Analyzer.getFallbackAnalysis.

Definition noCreateIssue (_ _ _ _ : jsstring) : M Issue :=
  throw (Error (lit "Failed to create issue: 400 - ")).

Definition anyLink (_ _ : option jsstring) (_ : jsstring) : M unit := ret tt.

(** ** JiraWebhookProcessor: loading an implementation back

    [loadImplementationResult] lists the implementation directory, derives
    the implementation type from the names it finds, and reads the primary
    file of that type. *)

(** The type derived from the directory listing. *)
Definition loadedImplementationType (files : list jsstring) : jsstring :=
  if arrayIncludes files (lit "solution.js") then lit "code"
  else if arrayIncludes files (lit "document.md") then lit "documentation"
  else if arrayIncludes files (lit "analysis.md") then lit "analysis"
  else if arrayIncludes files (lit "process.md") then lit "process"
  else lit "other".

Definition getPrimaryFileForType (implementationType : jsstring) : jsstring :=
  lookupOr [(lit "code", lit "solution.js"); (lit "documentation", lit "document.md");
            (lit "analysis", lit "analysis.md"); (lit "process", lit "process.md");
            (lit "other", lit "implementation.txt")]
           implementationType (lit "implementation.txt").

(** The file that [loadImplementationResult] reads, given the listing. *)
Definition loadedPrimaryFile (files : list jsstring) : jsstring :=
  getPrimaryFileForType (loadedImplementationType files).

Definition getCompletionStatus (implementationType : jsstring) : jsstring :=
  lookupOr [(lit "code", lit "Code Complete");
            (lit "documentation", lit "Documentation Complete");
            (lit "analysis", lit "Analysis Complete");
            (lit "process", lit "Process Complete");
            (lit "other", lit "Implementation Complete")]
           implementationType (lit "Implementation Complete").

(** The names the loader looks for. *)
Definition loaderNames : list jsstring :=
  [lit "solution.js"; lit "document.md"; lit "analysis.md"; lit "process.md";
   lit "implementation.txt"].

(** No supporting file of the implementation bears a name the loader
    looks for. *)
Definition plainSupportingFiles (r : ImplementationResult) : bool :=
  forallb (fun name =>
             negb (arrayIncludes (List.map fst (supportingFiles (implementation r)))
                                 name))
          loaderNames.

(** The four types with a primary file of their own. *)
Definition knownTypes : list jsstring :=
  [lit "code"; lit "documentation"; lit "analysis"; lit "process"].

(** ** JiraWebhookProcessor: the testing phase

    The phase loads the implementation from the file system, asks the
    evaluator for a verdict, saves the verdict and moves the issue on.
    These four steps are parameters, computations that return or throw;
    so are the two comments that render the verdict. *)

(** The object [evaluateImplementation] returns. *)
Record EvaluationResult := {
  er_originalIssue : jsstring;
  er_criteriaIssue : option jsstring;
  er_implementationType : jsstring;
  er_evaluation : Evaluator.Evaluation;
  er_finalScore : Evaluator.FinalScore;
  er_recommendation : Recommendation;
  er_evaluatedAt : jsstring
}.

(** What [processTestingCriteria] returns, by its [action] and fields. *)
Inductive TestingOutcome : Type :=
| TestingSkipped (reason : jsstring) (criteriaIssue : option jsstring)
                 (originalIssue : jsstring)
| EvaluationNotDone (criteriaIssue : option jsstring) (originalIssue : jsstring)
                    (error errorType : jsstring)
| EvaluationPassed (criteriaIssue : option jsstring) (originalIssue : jsstring)
                   (evaluationResult : EvaluationResult) (nextStatus : jsstring)
| EvaluationFailed (criteriaIssue : option jsstring) (originalIssue : jsstring)
                   (evaluationResult : EvaluationResult)
                   (failureReasons : list Evaluator.EvalError)
| TestingSystemError (criteriaIssue : option jsstring) (error errorType : jsstring).

Definition testingAction (o : TestingOutcome) : jsstring :=
  match o with
  | TestingSkipped _ _ _ => lit "skipped"
  | EvaluationNotDone _ _ _ _ => lit "evaluation_failed"
  | EvaluationPassed _ _ _ _ => lit "evaluation_passed"
  | EvaluationFailed _ _ _ _ => lit "evaluation_failed"
  | TestingSystemError _ _ _ => lit "system_error"
  end.

Definition testingSkippedComment : jsstring :=
  JiraApi.formatComment
    (lit "Testing Skipped")
    (lit "Testing was skipped because it has already been completed." ++ nl ++ nl
       ++ lit "To force re-evaluation, add the label `claude-force-retest` and try again.")
    (lit "*Skipped by Claude Testing Evaluation System*").

Definition loadFailedComment (originalKey errorMessage : jsstring) : jsstring :=
  JiraApi.formatComment
    (lit "Testing Evaluation - ERROR")
    (lit "Unable to load implementation artifacts for evaluation:" ++ nl ++ nl
       ++ lit "`" ++ errorMessage ++ lit "`" ++ nl ++ nl
       ++ lit "Please ensure the implementation has been generated first by moving the issue to "
       ++ [quote] ++ lit "Ready for Implementation" ++ [quote] ++ lit "." ++ nl ++ nl
       ++ lit "**Repository Location:** `work-items/" ++ originalKey ++ lit "/`")
    (lit "*Error logged by Claude Testing Evaluation System*").

Definition evaluationErrorComment (originalKey errorMessage : jsstring) : jsstring :=
  JiraApi.formatComment
    (lit "Testing Evaluation - ERROR")
    (lit "An error occurred during automated testing evaluation:" ++ nl ++ nl
       ++ lit "`" ++ errorMessage ++ lit "`" ++ nl ++ nl
       ++ lit "This may indicate:" ++ nl
       ++ bullet :: lit " Implementation artifacts are missing or corrupted" ++ nl
       ++ bullet :: lit " Deliverable criteria format issues" ++ nl
       ++ bullet :: lit " Claude API communication problems" ++ nl ++ nl
       ++ lit "Please check the implementation artifacts and try again, or proceed with manual evaluation."
       ++ nl ++ nl
       ++ lit "**Repository Location:** `work-items/" ++ originalKey ++ lit "/`")
    (lit "*Error logged by Claude Testing Evaluation System*").

Definition testingSystemErrorComment (errorMessage : jsstring) : jsstring :=
  JiraApi.formatComment
    (lit "Testing Evaluation System Error")
    (lit "A system error occurred during testing evaluation:" ++ nl ++ nl
       ++ lit "`" ++ errorMessage ++ lit "`" ++ nl ++ nl
       ++ lit "Please check the system logs and try again, or proceed with manual evaluation.")
    (lit "*Error logged by Claude Testing Evaluation System*").

Section TestingPhase.

Variable loadImplementationResult : jsstring -> M ImplementationResult.
Variable evaluateImplementation :
  Issue -> jsstring -> ImplementationResult -> M EvaluationResult.
Variable saveEvaluationResults : jsstring -> EvaluationResult -> M unit.
Variable updateToCompletionStatus : jsstring -> jsstring -> EvaluationResult -> M unit.
Variable passedComment : jsstring -> EvaluationResult -> jsstring.
Variable failedComment : jsstring -> EvaluationResult -> jsstring.

Variable this : Instance.

Definition processTestingCriteria (webhookPayload : WebhookPayload)
  : M TestingOutcome :=
  match issue webhookPayload with
  | None => throw (typeError "key")   (* [issue.key] is read before [try] *)
  | Some issue =>
    let issueKey := keyText (key issue) in
    tryCatch
      ((if negb (validateClaudeGeneratedCriteria issue) then
          throw (Error (lit "Testing criteria must be Claude-generated deliverable criteria to proceed with evaluation"))
        else ret tt) ;;
       let originalKey :=
         extractOriginalIssueKey (summary (fields issue)) (description (fields issue)) in
       (if negb (truthy originalKey) then
          throw (Error (lit "Could not extract original issue key from deliverable criteria"))
        else ret tt) ;;
       let originalKey := orEmpty originalKey in
       (* stage progression *)
       let highestStage := getHighestStageCompleted issue in
       let hasForceRetest :=
         match hasOverrideLabel this with
         | Some has => has issue (lit "retest")
         | None => false
         end in
       match highestStage, hasForceRetest with
       | tested, false =>
           JiraApi.addComment issueKey testingSkippedComment ;;
           ret (TestingSkipped (lit "Testing already completed") (key issue) originalKey)
       | _, _ =>
           (* remove the override label if present *)
           match hasForceRetest, removeOverrideLabel this with
           | true, Some remove =>
               tryCatch (remove issueKey (lit "retest")) (fun _ => ret tt)
           | _, _ => ret tt
           end ;;
           (* step 1: load *)
           loaded <- attempt (loadImplementationResult originalKey) ;;
           match loaded with
           | Threw loadError =>
               JiraApi.addComment
                 issueKey (loadFailedComment originalKey (message loadError)) ;;
               ret (EvaluationNotDone (key issue) originalKey (message loadError)
                                      (lit "implementation_not_found"))
           | Returned implementationResult =>
               (* step 2: evaluation *)
               evaluated <-
                 attempt (evaluateImplementation issue originalKey implementationResult) ;;
               match evaluated with
               | Threw evaluationError =>
                   JiraApi.addComment
                     issueKey
                     (evaluationErrorComment originalKey (message evaluationError)) ;;
                   ret (EvaluationNotDone (key issue) originalKey
                                          (message evaluationError)
                                          (lit "claude_evaluation_failure"))
               | Returned evaluationResult =>
                   (* step 3: save *)
                   tryCatch (saveEvaluationResults originalKey evaluationResult)
                            (fun _ => ret tt) ;;
                   (* step 4: stage label, whatever the verdict *)
                   tryCatch (updateStageLabel issueKey tested) (fun _ => ret tt) ;;
                   (* step 5: the verdict *)
                   if Evaluator.meetsCriteria (er_finalScore evaluationResult) then
                     JiraApi.addComment
                       issueKey (passedComment originalKey evaluationResult) ;;
                     updateToCompletionStatus issueKey originalKey evaluationResult ;;
                     ret (EvaluationPassed
                            (key issue) originalKey evaluationResult
                            (getCompletionStatus
                               (er_implementationType evaluationResult)))
                   else
                     JiraApi.addComment
                       issueKey (failedComment originalKey evaluationResult) ;;
                     ret (EvaluationFailed
                            (key issue) originalKey evaluationResult
                            (match criticalIssues (er_recommendation evaluationResult) with
                             | Some reasons => reasons
                             | None => []
                             end))
               end
           end
       end)
      (fun error =>
         JiraApi.addComment issueKey (testingSystemErrorComment (message error)) ;;
         ret (TestingSystemError (key issue) (message error) (lit "system_failure")))
  end.

End TestingPhase.

(** [hasForceRetest] as [processTestingCriteria] computes it. *)
Definition retestRequested (this : Instance) (i : Issue) : bool :=
  match hasOverrideLabel this with
  | Some has => has i (lit "retest")
  | None => false
  end.

(** The doors of the testing phase in the examples. *)
Definition nothingToLoad (originalKey : jsstring) : M ImplementationResult :=
  throw (Error (lit "Implementation summary not found for " ++ originalKey)).


Definition evaluationResultOf (e : Evaluator.Evaluation) : EvaluationResult :=
  {| er_originalIssue := lit "PCP1-67";
     er_criteriaIssue := Some (lit "PCP1-68");
     er_implementationType := lit "code";
     er_evaluation := e;
     er_finalScore := Evaluator.calculateFinalScore e;
     er_recommendation :=
       generateRecommendation anyNumber (Evaluator.calculateFinalScore e) e;
     er_evaluatedAt := lit "2025-01-02T00:00:00.000Z" |}.

Definition evaluatesTo (e : Evaluator.Evaluation)
           (_ : Issue) (_ : jsstring) (_ : ImplementationResult) : M EvaluationResult :=
  ret (evaluationResultOf e).

Definition savesNothing (_ : jsstring) (_ : EvaluationResult) : M unit :=
  throw (Error (lit "EACCES: permission denied")).

Definition cannotMoveOn (_ _ : jsstring) (_ : EvaluationResult) : M unit :=
  throw (Error (lit "Failed to add comment to PCP1-68: 500 - ")).

Definition noVerdictText (_ : jsstring) (_ : EvaluationResult) : jsstring := [].

(** ** JiraApiHelpers: the helpers on summaries *)

(** [/([A-Z]+-\d+)/] *)
Definition issueKeyPattern : regex :=
  Group (Seq (Rep true 1 isUpper) (Seq (chr dash) (Rep true 1 isDigit))).

Definition extractIssueKeyFromSummary (summary : jsstring) : option jsstring :=
  match1 issueKeyPattern summary.

(** The first, second and fourth marker start with a pictograph: two
    surrogates for each of the first two, one unit for the last. *)
Definition automationMarkers : list jsstring :=
  [55356%N :: 57263%N :: lit " Deliverable Criteria:";
   55358%N :: 56598%N :: lit " Automated";
   lit "Claude Generated";
   9989%N :: lit " Implementation:"].

(** [summary.includes] on a missing summary raises a [TypeError]. *)
Definition isAutomationIssue (issue : Issue) : Result bool :=
  match summary (fields issue) with
  | None => Threw (typeError "includes")
  | Some summary =>
      Returned (existsb (fun marker => includes summary marker) automationMarkers)
  end.

(** ** ClaudeImplementationAgent: the validation scores

    The parsed implementation with the fields the scores read.  A field
    that may be missing is an option; the three fields that
    [parseImplementationResponse] requires are strings, falsy when
    empty. *)

Module Agent.

Record Implementation := {
  type : jsstring;
  title : jsstring;
  description : option jsstring;
  primaryDeliverable : jsstring;
  usageInstructions : option jsstring;
  dependencies : option (list jsstring);
  configurationOptions : option (list jsstring);   (* the keys of the object *)
  validationCriteria : option (list jsstring)
}.

Record Tests := {
  content : option jsstring;
  tests_type : jsstring
}.

(** [x && x.length > n] for a possibly missing string or array. *)
Definition longerThan {A} (x : option (list A)) (n : nat) : bool :=
  match x with
  | Some l => Nat.ltb n (List.length l)
  | None => false
  end.

Definition analyzeContentQuality (implementation : Implementation) : Z :=
  let primaryLength := List.length (primaryDeliverable implementation) in
  let hasDescription := longerThan (description implementation) 10 in
  let hasUsageInstructions := longerThan (usageInstructions implementation) 10 in
  let hasValidationCriteria := longerThan (validationCriteria implementation) 0 in
  let score := 5%Z in
  let score := if Nat.ltb 100 primaryLength then (score + 1)%Z else score in
  let score := if Nat.ltb 1000 primaryLength then (score + 1)%Z else score in
  let score := if hasDescription then (score + 1)%Z else score in
  let score := if hasUsageInstructions then (score + 1)%Z else score in
  let score := if hasValidationCriteria then (score + 1)%Z else score in
  Z.min score 10.

(** [Math.round(presentFields.length / 5 * 10)]: the quotient by five of
    an integer from 0 to 5, times ten, rounds to twice that integer. *)
Definition analyzeCompleteness (implementation : Implementation) : Z :=
  let present :=
    List.filter (fun field : bool => field)
                [truthy (Some (type implementation));
                 truthy (Some (title implementation));
                 truthy (description implementation);
                 truthy (Some (primaryDeliverable implementation));
                 truthy (usageInstructions implementation)] in
  (2 * Z.of_nat (List.length present))%Z.

Definition analyzeUsability (implementation : Implementation) : Z :=
  let hasUsageInstructions := longerThan (usageInstructions implementation) 20 in
  let hasDependencies := longerThan (dependencies implementation) 0 in
  let hasConfiguration := longerThan (configurationOptions implementation) 0 in
  let score := 5%Z in
  let score := if hasUsageInstructions then (score + 2)%Z else score in
  let score := if hasDependencies then (score + 1)%Z else score in
  let score := if hasConfiguration then (score + 2)%Z else score in
  Z.min score 10.

Definition analyzeTestQuality (tests : option Tests) : Z :=
  match tests with
  | None => 0
  | Some t =>
      if negb (truthy (content t)) then 0%Z
      else
        let content := orEmpty (content t) in
        let testPatterns :=
          if streq (tests_type t) (lit "code")
          then [lit "test("; lit "it("; lit "describe("; lit "expect("; lit "assert"]
          else [lit "validation"; lit "check"; lit "verify"; lit "review";
                lit "criteria"] in
        let foundPatterns :=
          List.filter (fun pattern => includes content pattern) testPatterns in
        Z.min (Z.of_nat (List.length foundPatterns) * 2) 10
  end.

(** The mean of the four scores; a multiple of a quarter, exact as a
    JavaScript number. *)
Definition calculateOverallScore (cq comp us tq : Z) : QArith_base.Q :=
  QArith_base.Qdiv
    (QArith_base.inject_Z
       (fold_left (fun sum score => (sum + score)%Z) [cq; comp; us; tq] 0%Z))
    (QArith_base.inject_Z 4).

(** [score >= n] for a whole number [n]. *)
Definition atLeast (score : QArith_base.Q) (n : Z) : bool :=
  QArith_base.Qle_bool (QArith_base.inject_Z n) score.

Definition getQualityRating (score : QArith_base.Q) : jsstring :=
  if atLeast score 9 then lit "Excellent"
  else if atLeast score 8 then lit "Very Good"
  else if atLeast score 7 then lit "Good"
  else if atLeast score 6 then lit "Acceptable"
  else if atLeast score 5 then lit "Needs Improvement"
  else lit "Poor".

Record Validation := {
  passed : bool;
  overallScore : QArith_base.Q;
  overall : jsstring;
  contentQuality : Z;
  completeness : Z;
  usability : Z;
  testQuality : Z
}.

Definition validateImplementation (implementation : Implementation)
           (tests : option Tests) : Validation :=
  let contentQuality := analyzeContentQuality implementation in
  let completeness := analyzeCompleteness implementation in
  let usability := analyzeUsability implementation in
  let testQuality := analyzeTestQuality tests in
  let overallScore :=
    calculateOverallScore contentQuality completeness usability testQuality in
  let passed := atLeast overallScore 7 in
  {| passed := passed;
     overallScore := overallScore;
     overall := getQualityRating overallScore;
     contentQuality := contentQuality;
     completeness := completeness;
     usability := usability;
     testQuality := testQuality |}.

End Agent.

(** A complete implementation without tests, for the examples. *)
Definition thoroughImplementation : Agent.Implementation :=
  {| Agent.type := lit "documentation";
     Agent.title := lit "Login guide";
     Agent.description := Some (lit "How users log in");
     Agent.primaryDeliverable := List.repeat 97%N 1001;
     Agent.usageInstructions := Some (lit "Read it from top to bottom");
     Agent.dependencies := Some [lit "none"];
     Agent.configurationOptions := Some [lit "theme"];
     Agent.validationCriteria := Some [lit "reviewed"] |}.

(** A computation that only adds calls to the log. *)
Definition extendsLog {A} (m : M A) : Prop :=
  forall env w, exists calls, log (snd (m env w)) = log w ++ calls.

(** The criteria issue of the examples as the tracker holds it after the
    stage label was written. *)
Definition storedImplementedIssue : Issue :=
  criteriaIssue generatedDescription "Ready for Implementation"
                [LabelString (lit "claude-stage-implemented")].

(** An environment in which the files can be written but not read back. *)
Definition unreadableDisk : Env :=
  {| fault := fun _ c =>
       match c with
       | Stat _ => Some (lit "ENOENT: no such file or directory")
       | _ => None
       end;
     adapterReply := fun _ _ _ => sampleImplementation |}.

(** An implementation of type [documentation]. *)
Definition documentationImplementation : ImplementationResult :=
  {| implementation :=
       {| impl_type := lit "documentation"; impl_title := lit "Login guide";
          primaryDeliverable := lit "# Login guide";
          supportingFiles := [] |};
     tests := Some (lit "- [ ] complete");
     documentation := Some (lit "# Login guide") |}.

(** ** The webhook body as it arrives

    The records of [Jira] describe an issue as the REST client returns
    it: [fields], [fields.status.name] and [fields.issuetype.name] are
    there.  The body of a webhook is parsed JSON of any shape.  In [Wire]
    every property that [processWebhook], [isValidWebhookEvent] and
    [classifyIssueType] read may be absent; an absent property reads as
    [undefined], and reading a property of [undefined] raises a
    [TypeError].  The three phase handlers are parameters here. *)

Module Wire.

Record Named := { name : option jsstring }.

Record Fields := {
  summary : option jsstring;
  description : option jsstring;
  status : option Named;
  issuetype : option Named;
  labels : option (list Label)
}.

Record Issue := {
  key : option jsstring;
  fields : option Fields
}.

Record WebhookPayload := {
  webhookEvent : option jsstring;
  issue : option Issue;
  changelog : option Changelog
}.

(** [list.includes(name)] for a name that may be [undefined]. *)
Definition includesName (l : list jsstring) (n : option jsstring) : bool :=
  match n with
  | Some s => arrayIncludes l s
  | None => false
  end.

(** [name === text] for a name that may be [undefined]. *)
Definition nameIs (n : option jsstring) (text : jsstring) : bool :=
  match n with
  | Some s => streq s text
  | None => false
  end.

Definition isValidWebhookEvent (webhookPayload : WebhookPayload) : Result bool :=
  if negb (includesEvent supportedEvents (webhookEvent webhookPayload))
  then Returned false
  else
    match issue webhookPayload with
    | None => Returned false
    | Some i =>
        if negb (truthy (key i)) then Returned false
        else
          match fields i with
          | None => Threw (typeError "issuetype")   (* issue.fields.issuetype *)
          | Some f =>
              match issuetype f with
              | None => Threw (typeError "name")    (* issue.fields.issuetype.name *)
              | Some typeObject =>
                  let issueType := name typeObject in
                  match status f with
                  | None => Threw (typeError "name")   (* issue.fields.status.name *)
                  | Some statusObject =>
                      let status := name statusObject in
                      if negb (includesName [lit "Story"; lit "Task"] issueType)
                      then Returned false
                      else if eventIs (webhookEvent webhookPayload)
                                      (lit "jira:issue_updated")
                      then
                        if negb (isStatusChange (changelog webhookPayload))
                        then Returned false
                        else
                          let summary := orEmpty (summary f) in
                          if includes summary criteriaMarker then
                            if negb (includesName actionableStatuses status)
                            then Returned false
                            else Returned true
                          else Returned false
                      else Returned true
                  end
              end
          end
    end.

Definition classifyIssueType (webhookPayload : WebhookPayload)
  : Result Classification :=
  match issue webhookPayload with
  | None => Threw (typeError "fields")              (* issue.fields *)
  | Some i =>
      match fields i with
      | None => Threw (typeError "summary")         (* issue.fields.summary *)
      | Some f =>
          let summary := orEmpty (summary f) in
          let description := orEmpty (description f) in
          match status f with
          | None => Threw (typeError "name")        (* issue.fields.status.name *)
          | Some statusObject =>
              let status := name statusObject in
              match issuetype f with
              | None => Threw (typeError "name")    (* logged: issue.fields.issuetype.name *)
              | Some _ =>
                  if negb (hasClaudeMarkers summary description)
                  then Returned initial_inquiry
                  else if includes summary criteriaMarker then
                    if nameIs status (lit "Testing Criteria")
                    then Returned testing_criteria
                    else if includesName readyStatuses status   (* isReadyForImplementation *)
                    then Returned deliverable_criteria
                    else Returned ignore
                  else Returned ignore
              end
          end
      end
  end.

Section Handlers.

Variable processInitialInquiry : WebhookPayload -> M Outcome.
Variable processDeliverableCriteria : WebhookPayload -> M Outcome.
Variable processTestingCriteria : WebhookPayload -> M Outcome.

Definition processWebhook (webhookPayload : WebhookPayload) : M Outcome :=
  tryCatch
    (match isValidWebhookEvent webhookPayload with
     | Threw e => throw e
     | Returned isValid =>
         if negb isValid then ret (Ignored (lit "Non-actionable event"))
         else
           match classifyIssueType webhookPayload with
           | Threw e => throw e
           | Returned initial_inquiry => processInitialInquiry webhookPayload
           | Returned deliverable_criteria => processDeliverableCriteria webhookPayload
           | Returned testing_criteria => processTestingCriteria webhookPayload
           | Returned ignore =>
               ret (Ignored (lit "No action required for this issue type"))
           end
     end)
    (fun error =>
       throw (Error (lit "Webhook processing failed: " ++ message error))).

End Handlers.

(** A payload of [Jira], with every property present, as it arrives. *)
Definition received (p : Jira.WebhookPayload) : WebhookPayload :=
  {| webhookEvent := Jira.webhookEvent p;
     issue :=
       option_map
         (fun i =>
            {| key := Jira.key i;
               fields :=
                 Some {| summary := Jira.summary (Jira.fields i);
                         description := Jira.description (Jira.fields i);
                         status := Some {| name := Some (Jira.status (Jira.fields i)) |};
                         issuetype :=
                           Some {| name := Some (Jira.issuetype (Jira.fields i)) |};
                         labels := Jira.labels (Jira.fields i) |} |})
         (Jira.issue p);
     changelog := Jira.changelog p |}.

End Wire.

(** An event for an issue of which only the key was sent. *)
Definition keyOnlyEvent : Wire.WebhookPayload :=
  {| Wire.webhookEvent := Some (lit "jira:issue_created");
     Wire.issue := Some {| Wire.key := Some (lit "PCP1-70"); Wire.fields := None |};
     Wire.changelog := None |}.

Definition quietHandler (_ : Wire.WebhookPayload) : M Outcome := ret (OtherOutcome []).

(** ** Basic facts about the string built-ins *)

Lemma streq_eq (a b : jsstring) : streq a b = true <-> a = b.
Proof.
  revert b; induction a as [|x a IH]; intros [|y b]; simpl; split;
    try congruence; try reflexivity.
  - intros H. apply andb_prop in H as [Hx Hs].
    apply N.eqb_eq in Hx. apply IH in Hs. congruence.
  - intros H. inversion H; subst. rewrite N.eqb_refl. simpl. now apply IH.
Qed.

Lemma streq_refl (a : jsstring) : streq a a = true.
Proof. now apply streq_eq. Qed.

Lemma streq_neq (a b : jsstring) : streq a b = false <-> a <> b.
Proof.
  split.
  - intros H E. apply streq_eq in E. congruence.
  - intros H. destruct (streq a b) eqn:E; [|reflexivity].
    apply streq_eq in E. contradiction.
Qed.

Lemma arrayIncludes_In (l : list jsstring) (x : jsstring) :
  arrayIncludes l x = true <-> In x l.
Proof.
  unfold arrayIncludes. rewrite existsb_exists. split.
  - intros [y [Hy E]]. apply streq_eq in E. now subst.
  - intros H. exists x. split; [assumption | apply streq_refl].
Qed.

Lemma filter_length_zero {A} (f : A -> bool) (l : list A) :
  List.length (List.filter f l) = 0 <-> forall x, In x l -> f x = false.
Proof.
  induction l as [|a l IH]; simpl.
  - split; [intros _ x [] | reflexivity].
  - destruct (f a) eqn:E; simpl.
    + split; [discriminate |].
      intros H. specialize (H a (or_introl eq_refl)). congruence.
    + rewrite IH. split.
      * intros H x [<- | Hx]; auto.
      * intros H x Hx. apply H. now right.
Qed.

(** ** The final score *)

Lemma overallScore_sum (e : Evaluator.Evaluation) :
  Evaluator.overallScore (Evaluator.calculateFinalScore e)
  = (Evaluator.score (Evaluator.requirementsCoverage e)
     + Evaluator.score (Evaluator.qualityCraftsmanship e)
     + Evaluator.score (Evaluator.usabilityPracticality e)
     + Evaluator.score (Evaluator.completenessPolish e))%Z.
Proof. simpl. lia. Qed.

(** C1.  The verdict [meetsCriteria] is true exactly when the overall
    score, which is the sum of the four category scores of the
    evaluation, is at least 80, no error of the evaluation has severity
    CRITICAL or HIGH, the requirements-coverage score is at least 20 and
    the adapter's [readyForDeployment] flag is true; any CRITICAL or HIGH
    error makes the verdict false, whatever the scores. *)
Theorem meetsCriteria_iff_four_conditions (e : Evaluator.Evaluation) :
  let total := (Evaluator.score (Evaluator.requirementsCoverage e)
                + Evaluator.score (Evaluator.qualityCraftsmanship e)
                + Evaluator.score (Evaluator.usabilityPracticality e)
                + Evaluator.score (Evaluator.completenessPolish e))%Z in
  Evaluator.overallScore (Evaluator.calculateFinalScore e) = total
  /\ (Evaluator.meetsCriteria (Evaluator.calculateFinalScore e) = true <->
        (80 <= total)%Z
        /\ (forall x, In x (Evaluator.errors e) ->
                      Evaluator.severity x <> lit "CRITICAL"
                      /\ Evaluator.severity x <> lit "HIGH")
        /\ (20 <= Evaluator.score (Evaluator.requirementsCoverage e))%Z
        /\ Evaluator.readyForDeployment (Evaluator.overallAssessment e) = true)
  /\ (forall x, In x (Evaluator.errors e) ->
                Evaluator.severity x = lit "CRITICAL"
                \/ Evaluator.severity x = lit "HIGH" ->
                Evaluator.meetsCriteria (Evaluator.calculateFinalScore e) = false).
Proof.
  intros total.
  assert (blocking :
    forall sev,
      Nat.ltb 0 (List.length
                   (List.filter (fun x => streq (Evaluator.severity x) sev)
                                (Evaluator.errors e))) = false
      <-> forall x, In x (Evaluator.errors e) -> Evaluator.severity x <> sev).
  { intros sev. rewrite Nat.ltb_ge, Nat.le_0_r, filter_length_zero.
    split; intros H x Hx; specialize (H x Hx); now apply streq_neq. }
  assert (Htotal : Evaluator.overallScore (Evaluator.calculateFinalScore e) = total)
    by apply overallScore_sum.
  split; [exact Htotal |]. split.
  - rewrite <- Htotal.
    cbn [Evaluator.meetsCriteria Evaluator.overallScore Evaluator.calculateFinalScore].
    rewrite !andb_true_iff, negb_true_iff, orb_false_iff, !Z.leb_le, !blocking.
    split.
    + intros [[[Hs [Hc Hh]] Hr] Hd].
      split; [assumption |]. split; [| split; assumption].
      intros x Hx. split; [now apply Hc | now apply Hh].
    + intros [Hs [He [Hr Hd]]].
      split; [split; [split; [assumption | split] | assumption] | assumption];
        intros x Hx; now apply He.
  - intros x Hx Hsev.
    cbn [Evaluator.meetsCriteria Evaluator.calculateFinalScore].
    rewrite !andb_false_iff, negb_false_iff, orb_true_iff.
    left. left. right.
    destruct Hsev as [Hsev | Hsev]; [left | right];
      apply Nat.ltb_lt;
      (destruct (List.length (List.filter _ (Evaluator.errors e))) eqn:E; [| lia]);
      apply filter_length_zero with (x := x) in E; auto;
      rewrite Hsev, streq_refl in E; discriminate.
Qed.

(** A full score passes, and the same scores with one HIGH error fail. *)
Lemma meetsCriteria_iff_four_conditions_witness :
  Evaluator.meetsCriteria
    (Evaluator.calculateFinalScore (evaluationOf 25 25 25 25 [] true)) = true
  /\ Evaluator.meetsCriteria
       (Evaluator.calculateFinalScore (evaluationOf 25 25 25 25 [errorOf "HIGH"] true))
     = false.
Proof.
  split.
  - apply (proj2 (proj1 (proj2 (meetsCriteria_iff_four_conditions
                                  (evaluationOf 25 25 25 25 [] true))))).
    split; [simpl; lia |]. split; [intros x [] |]. split; [simpl; lia | reflexivity].
  - apply (proj2 (proj2 (meetsCriteria_iff_four_conditions
                           (evaluationOf 25 25 25 25 [errorOf "HIGH"] true)))
                 (errorOf "HIGH")).
    + left. reflexivity.
    + right. reflexivity.
Defined.

(** The example of the specification: 95 points and one CRITICAL error. *)
Example verdict_95_with_critical_error :
  let fs := Evaluator.calculateFinalScore
              (evaluationOf 25 25 25 20 [errorOf "CRITICAL"] true) in
  Evaluator.overallScore fs = 95%Z /\ Evaluator.meetsCriteria fs = false.
Proof. split; reflexivity. Qed.

(** The passing example of the specification: 82 points, no blocking
    error, 22 points for requirements coverage, ready for deployment. *)
Example verdict_82_passes :
  let fs := Evaluator.calculateFinalScore
              (evaluationOf 22 20 20 20 [errorOf "LOW"] true) in
  Evaluator.overallScore fs = 82%Z /\ Evaluator.meetsCriteria fs = true.
Proof. split; reflexivity. Qed.

(** C8, as stated, fails: category scores are summed as the adapter
    returned them, nothing caps them at 25, and the overall score leaves
    the range 0-100. *)
Lemma overallScore_exceeds_100 :
  Evaluator.overallScore (Evaluator.calculateFinalScore generousEvaluation) = 120%Z
  /\ ~ (0 <= Evaluator.overallScore (Evaluator.calculateFinalScore generousEvaluation)
        <= 100)%Z
  /\ Evaluator.overallScore (Evaluator.calculateFinalScore generousEvaluation)
     <> (Z.max 0 (Z.min 25 30) + Z.max 0 (Z.min 25 30)
         + Z.max 0 (Z.min 25 30) + Z.max 0 (Z.min 25 30))%Z.
Proof.
  repeat split.
  - cbn. lia.
  - cbn. lia.
Qed.

(** C8, amended.  The overall score is the plain sum of the four category
    scores as the adapter returned them, whatever they are: nothing is
    capped.  When every category score lies in 0-25, as the prompt asks
    of the adapter, the overall score lies in 0-100. *)
Theorem overallScore_sum_in_range (e : Evaluator.Evaluation) :
  Evaluator.overallScore (Evaluator.calculateFinalScore e)
  = (Evaluator.score (Evaluator.requirementsCoverage e)
     + Evaluator.score (Evaluator.qualityCraftsmanship e)
     + Evaluator.score (Evaluator.usabilityPracticality e)
     + Evaluator.score (Evaluator.completenessPolish e))%Z
  /\ ((0 <= Evaluator.score (Evaluator.requirementsCoverage e) <= 25)%Z ->
      (0 <= Evaluator.score (Evaluator.qualityCraftsmanship e) <= 25)%Z ->
      (0 <= Evaluator.score (Evaluator.usabilityPracticality e) <= 25)%Z ->
      (0 <= Evaluator.score (Evaluator.completenessPolish e) <= 25)%Z ->
      (0 <= Evaluator.overallScore (Evaluator.calculateFinalScore e) <= 100)%Z).
Proof.
  split; [apply overallScore_sum |].
  intros H1 H2 H3 H4. rewrite overallScore_sum. lia.
Qed.

Lemma overallScore_sum_in_range_witness :
  let e := evaluationOf 22 20 20 20 [] true in
  Evaluator.overallScore (Evaluator.calculateFinalScore e) = (22 + 20 + 20 + 20)%Z
  /\ (0 <= Evaluator.overallScore (Evaluator.calculateFinalScore e) <= 100)%Z.
Proof.
  destruct (overallScore_sum_in_range (evaluationOf 22 20 20 20 [] true)) as [E H].
  split; [exact E | apply H; simpl; lia].
Defined.

(** ** Classification *)

Lemma hasClaudeMarkers_criteria (summary description : jsstring) :
  includes summary criteriaMarker = true ->
  hasClaudeMarkers summary description = true.
Proof.
  intros H. unfold hasClaudeMarkers. apply existsb_exists.
  exists criteriaMarker. split.
  - unfold claudeMarkers. right. right. left. reflexivity.
  - now rewrite H.
Qed.

(** C4.  For an issue whose summary contains the criteria marker, the
    classification is [testing_criteria] when the status is
    [Testing Criteria] (whatever else holds), [deliverable_criteria] when
    the status is one of the three ready statuses, and [ignore] for every
    other status. *)
Theorem classify_criteria_issue (p : WebhookPayload) (i : Issue) :
  issue p = Some i ->
  includes (orEmpty (summary (fields i))) criteriaMarker = true ->
  (status (fields i) = lit "Testing Criteria" ->
   classifyIssueType p = Returned testing_criteria)
  /\ (In (status (fields i))
         [lit "Ready for Implementation"; lit "In Progress";
          lit "Ready for Development"] ->
      classifyIssueType p = Returned deliverable_criteria)
  /\ (status (fields i) <> lit "Testing Criteria" ->
      ~ In (status (fields i))
           [lit "Ready for Implementation"; lit "In Progress";
            lit "Ready for Development"] ->
      classifyIssueType p = Returned ignore).
Proof.
  intros Hi Hm. unfold classifyIssueType. rewrite Hi. unfold classifyIssue.
  rewrite (hasClaudeMarkers_criteria _ _ Hm), Hm.
  cbn [negb]. unfold isReadyForImplementation.
  repeat split.
  - intros Hs. rewrite Hs. reflexivity.
  - intros Hr.
    assert (Hn : streq (status (fields i)) (lit "Testing Criteria") = false).
    { apply streq_neq. intros E. rewrite E in Hr.
      simpl in Hr. intuition discriminate. }
    rewrite Hn. apply arrayIncludes_In in Hr. unfold readyStatuses. now rewrite Hr.
  - intros Hs Hr. apply streq_neq in Hs. rewrite Hs.
    destruct (arrayIncludes readyStatuses (status (fields i))) eqn:E;
      [| reflexivity].
    apply arrayIncludes_In in E. contradiction.
Qed.

Lemma classify_criteria_issue_witness :
  let i := criteriaIssue generatedDescription "Testing Criteria" [] in
  classifyIssueType (statusChanged i) = Returned testing_criteria.
Proof.
  apply (classify_criteria_issue
           (statusChanged (criteriaIssue generatedDescription "Testing Criteria" []))
           (i := criteriaIssue generatedDescription "Testing Criteria" [])
           eq_refl eq_refl).
  reflexivity.
Defined.

(** ** Events that are not actionable *)

Section WebhookProperties.

Variable generateImplementationSummary : jsstring -> ImplementationResult -> jsstring.
Variable generateConfigFile : jsstring -> Implementation -> jsstring.
Variable processInitialInquiry : WebhookPayload -> M Outcome.
Variable processTestingCriteria : WebhookPayload -> M Outcome.
Variable this : Instance.

(** C7.  An event whose type is neither [jira:issue_created] nor
    [jira:issue_updated], or that carries no issue or an issue without a
    key, is answered with the [ignored] outcome, and the world is left as
    it was: the log of external calls gains no entry (no tracker read or
    write, no adapter call, no file access) and the tracker is unchanged. *)
Theorem processWebhook_ignores_unsupported
        (p : WebhookPayload) (env : Env) (w : World) :
  includesEvent supportedEvents (webhookEvent p) = false
  \/ issue p = None
  \/ (exists i, issue p = Some i /\ truthy (key i) = false) ->
  processWebhook generateImplementationSummary generateConfigFile
                 processInitialInquiry processTestingCriteria this p env w
  = (Returned (Ignored (lit "Non-actionable event")), w)
  /\ action (Ignored (lit "Non-actionable event")) = lit "ignored".
Proof.
  intros H. split; [| reflexivity].
  assert (Hv : isValidWebhookEvent p = false).
  { unfold isValidWebhookEvent.
    destruct (includesEvent supportedEvents (webhookEvent p)) eqn:Ev;
      [| reflexivity].
    cbn [negb].
    destruct H as [H | [H | [i [Hi Hk]]]].
    - discriminate.
    - now rewrite H.
    - rewrite Hi, Hk. reflexivity. }
  unfold processWebhook, tryCatch. rewrite Hv. reflexivity.
Qed.

End WebhookProperties.

Lemma processWebhook_ignores_unsupported_witness :
  let p := deletedEvent (criteriaIssue generatedDescription "Testing Criteria" []) in
  processWebhook noSummary noConfig idleHandler idleHandler JiraWebhookProcessor
                 p calm (worldOf ∅)
  = (Returned (Ignored (lit "Non-actionable event")), worldOf ∅)
  /\ action (Ignored (lit "Non-actionable event")) = lit "ignored".
Proof.
  apply (processWebhook_ignores_unsupported
           noSummary noConfig idleHandler idleHandler JiraWebhookProcessor
           (deletedEvent (criteriaIssue generatedDescription "Testing Criteria" []))
           calm (worldOf ∅)).
  left. reflexivity.
Defined.

(** ** Stage labels *)

Lemma stageTag_is_stage_label (s : Stage) :
  s <> none -> isStageLabel (stageTag s) = true.
Proof. destruct s; [congruence | reflexivity ..]. Qed.

Lemma updatedLabels_shape (s : Stage) (ls : list Label) :
  updatedLabels s ls
  = List.map labelText
             (List.filter (fun l => negb (isStageLabel (labelText l))) ls)
    ++ [stageTag s].
Proof. reflexivity. Qed.

Lemma kept_labels_are_not_stage_labels (ls : list Label) :
  Forall (fun t => isStageLabel t = false)
         (List.map labelText
                   (List.filter (fun l => negb (isStageLabel (labelText l))) ls)).
Proof.
  induction ls as [|l ls IH]; simpl; [constructor |].
  destruct (isStageLabel (labelText l)) eqn:E; simpl; [assumption |].
  constructor; assumption.
Qed.

Lemma filter_keeps_non_stage (texts : list jsstring) :
  Forall (fun t => isStageLabel t = false) texts ->
  List.map labelText
           (List.filter (fun l => negb (isStageLabel (labelText l)))
                        (List.map LabelString texts))
  = texts.
Proof.
  induction 1 as [|t texts Ht _ IH]; simpl; [reflexivity |].
  rewrite Ht. simpl. now rewrite IH.
Qed.

(** Writing the labels back and updating again changes nothing. *)
Lemma updatedLabels_again (s : Stage) (ls : list Label) :
  s <> none ->
  updatedLabels s (List.map LabelString (updatedLabels s ls)) = updatedLabels s ls.
Proof.
  intros Hs. rewrite !updatedLabels_shape.
  rewrite List.map_app, List.filter_app, List.map_app.
  rewrite filter_keeps_non_stage by apply kept_labels_are_not_stage_labels.
  cbn [List.map List.filter labelText].
  rewrite (stageTag_is_stage_label Hs). cbn [negb List.app].
  now rewrite List.app_nil_r.
Qed.

(** The tracker calls, when the environment lets them through. *)
Lemma getIssue_ok (issueKey : jsstring) (i : Issue) (env : Env) (w : World) :
  fault env (List.length (log w)) (GetIssue issueKey) = None ->
  tracker w !! issueKey = Some i ->
  JiraApi.getIssue issueKey env w = (Returned i, logged (GetIssue issueKey) w).
Proof.
  intros Hf Hi. unfold JiraApi.getIssue, bind, external, readTracker.
  rewrite Hf. cbn [logged tracker]. rewrite Hi. reflexivity.
Qed.

Lemma updateIssue_ok (issueKey : jsstring) (u : FieldsUpdate) (i : Issue)
      (env : Env) (w : World) :
  fault env (List.length (log w)) (UpdateIssue issueKey u) = None ->
  tracker w !! issueKey = Some i ->
  JiraApi.updateIssue issueKey u env w
  = (Returned tt,
     {| tracker := <[issueKey := applyUpdate u i]> (tracker w);
        log := log w ++ [UpdateIssue issueKey u] |}).
Proof.
  intros Hf Hi. unfold JiraApi.updateIssue, bind, external, readTracker.
  rewrite Hf. cbn [logged tracker]. rewrite Hi. reflexivity.
Qed.

(** One run of [updateStageLabel] when no call fails and the tracker knows
    the issue. *)
Lemma updateStageLabel_run (issueKey : jsstring) (s : Stage) (i : Issue)
      (env : Env) (w : World) :
  (forall n c, fault env n c = None) ->
  tracker w !! issueKey = Some i ->
  let update :=
    {| setSummary := None; setDescription := None;
       setLabels :=
         Some (updatedLabels s (match labels (fields i) with
                                | Some ls => ls
                                | None => []
                                end)) |} in
  updateStageLabel issueKey s env w
  = (Returned tt,
     {| tracker := <[issueKey := applyUpdate update i]> (tracker w);
        log := log w ++ [GetIssue issueKey; UpdateIssue issueKey update] |}).
Proof.
  intros Hf Hi update.
  unfold updateStageLabel, tryCatch, bind.
  rewrite (getIssue_ok issueKey env w (Hf _ _) Hi).
  rewrite (updateIssue_ok issueKey _ env (logged (GetIssue issueKey) w) (Hf _ _) Hi).
  cbn [logged tracker log]. rewrite <- List.app_assoc. reflexivity.
Qed.

(** C6.  Advancing the stage is idempotent.  An application keeps the
    non-stage labels as they are, drops the three stage tags and appends
    the tag of the target stage; once written back, applying it again
    yields the same label array, and in a tracker whose calls succeed any
    number of runs of [updateStageLabel] with the same target leaves the
    tracker as one run does. *)
Theorem updateStageLabel_idempotent (newStage : Stage) (ls : list Label) (n : nat) :
  newStage <> none ->
  (exists kept,
      updatedLabels newStage ls = kept ++ [stageTag newStage]
      /\ kept = List.map labelText
                  (List.filter (fun l => negb (isStageLabel (labelText l))) ls)
      /\ Forall (fun t => ~ In t stageLabels) kept
      /\ In (stageTag newStage) stageLabels)
  /\ Nat.iter (S n) (fun l => List.map LabelString (updatedLabels newStage l)) ls
     = List.map LabelString (updatedLabels newStage ls)
  /\ (forall issueKey i env w,
         (forall k c, fault env k c = None) ->
         tracker w !! issueKey = Some i ->
         labels (fields i) = Some ls ->
         tracker (snd (times (S n) (updateStageLabel issueKey newStage) env w))
         = tracker (snd (updateStageLabel issueKey newStage env w))
         /\ (labels <$> (fields <$>
               (tracker (snd (times (S n) (updateStageLabel issueKey newStage) env w))
                  !! issueKey)))
            = Some (Some (List.map LabelString (updatedLabels newStage ls)))).
Proof.
  intros Hs. split; [| split].
  - eexists. split; [apply updatedLabels_shape |]. split; [reflexivity |].
    split.
    + eapply List.Forall_impl; [| apply kept_labels_are_not_stage_labels].
      intros t Ht Hin. apply arrayIncludes_In in Hin.
      unfold isStageLabel in Ht. congruence.
    + apply arrayIncludes_In. apply (stageTag_is_stage_label Hs).
  - induction n as [|n IH]; [reflexivity |].
    change (Nat.iter (S (S n)) ?f ls) with (f (Nat.iter (S n) f ls)).
    cbv beta. rewrite IH. now rewrite updatedLabels_again.
  - intros issueKey i env w Hf Hi Hl.
    assert (Hn : forall m w',
               tracker w' !! issueKey
               = Some (applyUpdate
                         {| setSummary := None; setDescription := None;
                            setLabels := Some (updatedLabels newStage ls) |} i) ->
               tracker (snd (times m (updateStageLabel issueKey newStage) env w'))
               = tracker w').
    { induction m as [|m IHm]; intros w' Hw'; [reflexivity |].
      cbn [times]. unfold bind at 1.
      rewrite (updateStageLabel_run issueKey newStage env w' Hf Hw').
      cbn [applyUpdate fields labels setLabels setSummary setDescription
           summary description status issuetype key].
      rewrite (updatedLabels_again ls Hs).
      rewrite IHm; cbn [tracker].
      - apply insert_id. rewrite Hw'. reflexivity.
      - rewrite lookup_insert_eq. reflexivity. }
    assert (Hrun :
              tracker (snd (times (S n) (updateStageLabel issueKey newStage) env w))
              = <[issueKey :=
                    applyUpdate
                      {| setSummary := None; setDescription := None;
                         setLabels := Some (updatedLabels newStage ls) |} i]>
                  (tracker w)).
    { cbn [times]. unfold bind.
      rewrite (updateStageLabel_run issueKey newStage env w Hf Hi), Hl.
      rewrite Hn; cbn [tracker]; [reflexivity |].
      rewrite lookup_insert_eq. reflexivity. }
    rewrite Hrun, (updateStageLabel_run issueKey newStage env w Hf Hi), Hl.
    split; [reflexivity |].
    rewrite lookup_insert_eq. reflexivity.
Qed.

Lemma updateStageLabel_idempotent_witness :
  let ls := [LabelString (lit "backend"); LabelObject (lit "claude-stage-implemented");
             LabelString (lit "claude-stage-analyzed")] in
  Nat.iter 3 (fun l => List.map LabelString (updatedLabels tested l)) ls
  = [LabelString (lit "backend"); LabelString (lit "claude-stage-tested")].
Proof.
  intros ls.
  assert (Hs : tested <> none) by discriminate.
  exact (proj1 (proj2 (updateStageLabel_idempotent ls 2 Hs))).
Defined.

(** ** Extraction of the original issue key *)

Lemma run_text_app (l s : jsstring) (c : option jsstring) (k : cont) :
  run (text l) (l ++ s) c k = k s c.
Proof.
  induction l as [|a l IH]; cbn [text run chr List.app]; [reflexivity |].
  rewrite N.eqb_refl. apply IH.
Qed.

Lemma descriptionPattern_skips (x : N) (s : jsstring) :
  x <> 42%N -> matchHere descriptionPattern (x :: s) = None.
Proof.
  intros Hx. unfold matchHere, descriptionPattern.
  change (text (lit "**Original Issue:** "))
    with (Seq (chr 42) (text (lit "*Original Issue:** "))).
  cbn [run chr]. destruct (N.eqb_spec 42 x); [congruence | reflexivity].
Qed.

Lemma descriptionPattern_here (post : jsstring) :
  match post with
  | [] => True
  | x :: _ => isDigit x = false
  end ->
  matchHere descriptionPattern (originalIssueLine ++ post)
  = Some (post, Some (lit "ABC-12")).
Proof.
  intros Hpost. unfold matchHere, descriptionPattern.
  change originalIssueLine with (lit "**Original Issue:** " ++ lit "ABC-12").
  rewrite <- List.app_assoc. cbn [run]. rewrite run_text_app.
  change (lit "ABC-12") with [65; 66; 67; 45; 49; 50]%N.
  assert (Hlen : forall n, (S (S (S (S (S (S n))))) - n)%nat = 6%nat) by (intros; lia).
  destruct post as [|x post].
  - reflexivity.
  - cbn -[isDigit Nat.sub firstn]. 
    change (isDigit 49) with true. change (isDigit 50) with true.
    cbn -[isDigit Nat.sub firstn]. rewrite Hpost, Hlen. reflexivity.
Qed.

Lemma match1_description_line (pre post : jsstring) :
  Forall (fun c => c <> 42%N) pre ->
  match post with
  | [] => True
  | x :: _ => isDigit x = false
  end ->
  match1 descriptionPattern (pre ++ originalIssueLine ++ post) = Some (lit "ABC-12").
Proof.
  intros Hpre Hpost. unfold match1.
  induction Hpre as [|x pre Hx _ IH].
  - cbn [List.app]. destruct (originalIssueLine ++ post) eqn:E; [discriminate E |].
    rewrite <- E. cbn [exec].
    rewrite E. cbn [exec]. rewrite <- E.
    now rewrite (descriptionPattern_here post Hpost).
  - cbn [List.app exec]. rewrite (descriptionPattern_skips _ Hx). exact IH.
Qed.

Lemma keyFromDescription_line (pre post : jsstring) :
  Forall (fun c => c <> 42%N) pre ->
  match post with
  | [] => True
  | x :: _ => isDigit x = false
  end ->
  keyFromDescription (Some (pre ++ originalIssueLine ++ post)) = Some (lit "ABC-12").
Proof.
  intros Hpre Hpost.
  assert (Ht : truthy (Some (pre ++ originalIssueLine ++ post)) = true).
  { destruct pre; reflexivity. }
  unfold keyFromDescription. rewrite Ht. cbn [orEmpty].
  now apply match1_description_line.
Qed.

(** What a quantifier over a class consumes. *)
Lemma star_sound (g : bool) (p : N -> bool) (s : jsstring)
      (k : jsstring -> option result) (r : result) :
  star g p s k = Some r ->
  exists u s', s = u ++ s' /\ List.Forall (fun c => p c = true) u /\ k s' = Some r.
Proof.
  induction s as [|x s IH]; cbn [star]; intros H.
  - exists [], []. auto.
  - destruct (p x) eqn:Hp; [| exists [], (x :: s); auto].
    assert (Hcases : star g p s k = Some r \/ k (x :: s) = Some r).
    { destruct g.
      - destruct (star true p s k); [left; exact H | right; exact H].
      - destruct (k (x :: s)); [right; exact H | left; exact H]. }
    destruct Hcases as [Hs | Hk].
    + destruct (IH Hs) as [u [s' [E [Hu Hk]]]].
      exists (x :: u), s'. subst s. repeat split; auto.
    + exists [], (x :: s). auto.
Qed.

Lemma rep_sound (g : bool) (n : nat) (p : N -> bool) (s : jsstring)
      (k : jsstring -> option result) (r : result) :
  rep g n p s k = Some r ->
  exists u s',
    s = u ++ s' /\ List.Forall (fun c => p c = true) u /\ n <= List.length u
    /\ k s' = Some r.
Proof.
  revert s. induction n as [|n IH]; intros s; cbn [rep]; intros H.
  - destruct (star_sound _ _ _ _ H) as [u [s' [E [Hu Hk]]]].
    exists u, s'. repeat split; auto. lia.
  - destruct s as [|x s]; [discriminate |].
    destruct (p x) eqn:Hp; [| discriminate].
    destruct (IH _ H) as [u [s' [E [Hu [Hn Hk]]]]].
    exists (x :: u), s'. subst s. repeat split; auto. cbn [List.length]. lia.
Qed.

Lemma run_text_sound (l s : jsstring) (c : option jsstring) (k : cont) (r : result) :
  run (text l) s c k = Some r -> exists s', s = l ++ s' /\ k s' c = Some r.
Proof.
  revert s. induction l as [|a l IH]; intros s; cbn [text run chr]; intros H.
  - exists s. auto.
  - destruct s as [|x s]; [discriminate |].
    destruct (N.eqb_spec a x) as [-> |]; [| discriminate].
    destruct (IH _ H) as [s' [E Hk]]. exists s'. subst s. auto.
Qed.

Lemma firstn_consumed (a rest : jsstring) :
  firstn (List.length (a ++ rest) - List.length rest) (a ++ rest) = a.
Proof.
  rewrite List.length_app, Nat.add_sub.
  rewrite List.firstn_app, Nat.sub_diag, List.firstn_all. cbn [firstn].
  apply List.app_nil_r.
Qed.

(** The tail [-\d+] of the patterns, closing capture 1 that started at
    [whole]. *)
Lemma dash_digits_sound (whole s : jsstring) (c : option jsstring) (r : result) :
  run (Seq (chr dash) (Rep true 1 isDigit)) s c
      (fun s1 _ => Some (s1, Some (firstn (List.length whole - List.length s1) whole)))
  = Some r ->
  exists d rest,
    s = dash :: d ++ rest /\ List.Forall (fun c => isDigit c = true) d
    /\ 1 <= List.length d
    /\ r = (rest, Some (firstn (List.length whole - List.length rest) whole)).
Proof.
  cbn [run chr]. destruct s as [|x s]; [discriminate |].
  destruct (N.eqb_spec dash x) as [<- |]; [| discriminate].
  intros H. destruct (rep_sound _ _ _ _ _ H) as [d [rest [E [Hd [Hn Hk]]]]].
  exists d, rest. subst s. cbv beta in Hk. repeat split; auto. now inversion Hk.
Qed.

Lemma exec_sound (r : regex) (s : jsstring) (res : result) :
  exec r s = Some res -> exists pre s', s = pre ++ s' /\ matchHere r s' = Some res.
Proof.
  induction s as [|x s IH]; cbn [exec]; intros H.
  - destruct (matchHere r []) eqn:E; [| discriminate].
    exists [], []. split; [reflexivity | congruence].
  - destruct (matchHere r (x :: s)) eqn:E.
    + exists [], (x :: s). split; [reflexivity | congruence].
    + destruct (IH H) as [pre [s' [Es Hm]]].
      exists (x :: pre), s'. subst s. auto.
Qed.

Lemma match1_sound (r : regex) (s k : jsstring) :
  match1 r s = Some k ->
  exists pre s' rest,
    s = pre ++ s'
    /\ (matchHere r s' = Some (rest, Some k)
        \/ (matchHere r s' = Some (rest, None) /\ k = [])).
Proof.
  unfold match1. intros H.
  destruct (exec r s) as [[rest [g |]] |] eqn:E; [| | discriminate];
    destruct (exec_sound _ _ E) as [pre [s' [Es Hm]]];
    exists pre, s', rest; split; auto.
  - left. injection H as <-. exact Hm.
  - right. injection H as <-. auto.
Qed.


Lemma match1_here (r : regex) (s k : jsstring) :
  match1 r s = Some k ->
  exists pre s' rest g,
    s = pre ++ s' /\ matchHere r s' = Some (rest, g)
    /\ (g = Some k \/ (g = None /\ k = [])).
Proof.
  intros H. destruct (match1_sound _ _ H) as [pre [s' [rest [Es Hm]]]].
  destruct Hm as [Hm | [Hm Hk]]; exists pre, s', rest; eauto 6.
Qed.

Lemma captured (whole a rest k : jsstring) (g : option jsstring) :
  whole = a ++ rest ->
  g = Some (firstn (List.length whole - List.length rest) whole) ->
  g = Some k \/ (g = None /\ k = []) ->
  k = a.
Proof.
  intros -> -> [H | [H _]]; [| discriminate].
  rewrite firstn_consumed in H. now injection H.
Qed.

Lemma genericPattern_sound (s k : jsstring) :
  match1 genericPattern s = Some k ->
  keyParts (upperHead 2) k /\ exists pre rest, s = pre ++ k ++ rest.
Proof.
  intros H. destruct (match1_here _ _ H) as [pre [s' [rest [g [Es [Hm Hg]]]]]].
  unfold matchHere, genericPattern in Hm. cbn [run] in Hm.
  destruct (rep_sound _ _ _ _ _ Hm) as [u [s1 [E1 [Hu [Hn Hk]]]]].
  destruct (@dash_digits_sound s' s1 None (rest, g) Hk)
    as [d [rest' [E2 [Hd [Hdn Hr]]]]].
  injection Hr as <- Hcap. subst s1.
  assert (Ek : k = u ++ dash :: d).
  { apply (@captured s' (u ++ dash :: d) rest k g); auto.
    now rewrite <- List.app_assoc. }
  subst k s s'. split.
  - exists u, d. unfold upperHead. auto.
  - exists pre, rest. now rewrite <- !List.app_assoc.
Qed.

Lemma permissivePattern_sound (s k : jsstring) :
  match1 permissivePattern s = Some k ->
  keyParts permissiveHead k /\ exists pre rest, s = pre ++ k ++ rest.
Proof.
  intros H. destruct (match1_here _ _ H) as [pre [s' [rest [g [Es [Hm Hg]]]]]].
  unfold matchHere, permissivePattern in Hm. cbn [run] in Hm.
  destruct (rep_sound _ _ _ _ _ Hm) as [a [s1 [E1 [Ha [Hn Hk1]]]]].
  destruct (rep_sound _ _ _ _ _ Hk1) as [b [s2 [E2 [Hb [_ Hk2]]]]].
  destruct (@dash_digits_sound s' s2 None (rest, g) Hk2)
    as [d [rest' [E3 [Hd [Hdn Hr]]]]].
  injection Hr as <- Hcap. subst s2 s1.
  assert (Ek : k = (a ++ b) ++ dash :: d).
  { apply (@captured s' ((a ++ b) ++ dash :: d) rest k g); auto.
    now rewrite <- !List.app_assoc. }
  subst k s s'. split.
  - exists (a ++ b), d. repeat split; auto. exists a, b. auto.
  - exists pre, rest. now rewrite <- !List.app_assoc.
Qed.

Lemma projectSpecificPattern_sound (s k : jsstring) :
  match1 projectSpecificPattern s = Some k ->
  keyParts (fun u => u = lit "PCP1") k /\ exists pre rest, s = pre ++ k ++ rest.
Proof.
  intros H. destruct (match1_here _ _ H) as [pre [s' [rest [g [Es [Hm Hg]]]]]].
  unfold matchHere, projectSpecificPattern in Hm. cbn [run] in Hm.
  destruct (run_text_sound _ _ _ _ Hm) as [s1 [E1 Hk]].
  destruct (rep_sound _ _ _ _ _ Hk) as [d [rest' [E2 [Hd [Hdn Hr]]]]].
  injection Hr as -> Hcap. symmetry in Hcap. subst s1.
  assert (Ek : k = lit "PCP1-" ++ d).
  { apply (@captured s' (lit "PCP1-" ++ d) rest k g); auto. }
  subst k s s'. split.
  - exists (lit "PCP1"), d. repeat split; auto.
  - exists pre, rest. now rewrite <- !List.app_assoc.
Qed.

Lemma descriptionPattern_sound (s k : jsstring) :
  match1 descriptionPattern s = Some k ->
  keyParts (upperHead 1) k
  /\ exists pre rest, s = pre ++ lit "**Original Issue:** " ++ k ++ rest.
Proof.
  intros H. destruct (match1_here _ _ H) as [pre [s' [rest [g [Es [Hm Hg]]]]]].
  unfold matchHere, descriptionPattern in Hm. cbn [run] in Hm.
  destruct (run_text_sound _ _ _ _ Hm) as [s0 [E0 Hk0]].
  destruct (rep_sound _ _ _ _ _ Hk0) as [u [s1 [E1 [Hu [Hn Hk]]]]].
  destruct (@dash_digits_sound s0 s1 None (rest, g) Hk)
    as [d [rest' [E2 [Hd [Hdn Hr]]]]].
  injection Hr as <- Hcap. subst s1.
  assert (Ek : k = u ++ dash :: d).
  { apply (@captured s0 (u ++ dash :: d) rest k g); auto.
    now rewrite <- List.app_assoc. }
  subst k s s' s0. split.
  - exists u, d. unfold upperHead. auto.
  - exists pre, rest. now rewrite <- !List.app_assoc.
Qed.

(** Every extracted key is a head, a dash and digits, and so not empty. *)
Lemma extracted_key_parts (summary description : option jsstring) (k : jsstring) :
  extractOriginalIssueKey summary description = Some k ->
  keyParts (fun u => u <> []) k.
Proof.
  assert (weaken : forall (P : jsstring -> Prop),
             (forall u, P u -> u <> []) ->
             keyParts P k -> keyParts (fun u => u <> []) k).
  { intros P HP [u [d [E [Hu Hd]]]]. exists u, d. auto. }
  assert (Hdesc : keyFromDescription description = Some k ->
                  keyParts (fun u => u <> []) k).
  { unfold keyFromDescription. destruct (truthy description); [| discriminate].
    intros H. apply descriptionPattern_sound in H as [H _].
    apply (weaken (upperHead 1)); [| exact H].
    intros u [_ Hn] ->. cbn in Hn. lia. }
  unfold extractOriginalIssueKey.
  destruct (truthy summary); [| exact Hdesc].
  destruct (match1 projectSpecificPattern (orEmpty summary)) eqn:E1.
  { intros H. injection H as ->. apply projectSpecificPattern_sound in E1 as [H _].
    apply (weaken (fun u => u = lit "PCP1")); [| exact H].
    intros u ->. discriminate. }
  destruct (match1 genericPattern (orEmpty summary)) eqn:E2.
  { intros H. injection H as ->. apply genericPattern_sound in E2 as [H _].
    apply (weaken (upperHead 2)); [| exact H].
    intros u [_ Hn] ->. cbn in Hn. lia. }
  destruct (match1 permissivePattern (orEmpty summary)) eqn:E3; [| exact Hdesc].
  intros H. injection H as ->. apply permissivePattern_sound in E3 as [H _].
  apply (weaken permissiveHead); [| exact H].
  intros u [a [b [-> [_ [Hn _]]]]] E. destruct a; [cbn in Hn; lia | discriminate].
Qed.

Lemma extracted_key_truthy (summary description : option jsstring) (k : jsstring) :
  extractOriginalIssueKey summary description = Some k ->
  truthy (extractOriginalIssueKey summary description) = true.
Proof.
  intros H. rewrite H.
  destruct (extracted_key_parts _ _ H) as [u [d [-> _]]].
  now destruct u.
Qed.

(** C5.  The key is looked for in the summary with the project-specific
    pattern, then the generic pattern, then the permissive pattern, and
    last on the [**Original Issue:**] line of the description; extraction
    fails exactly when none of the four finds a key.  The summary
    [Deliverable Criteria: PCP1-67 - Fix login bug] yields [PCP1-67]; a
    summary without a key and a description containing
    [**Original Issue:** ABC-12] yield [ABC-12]; without a key in either,
    extraction fails.  What each pattern cuts out is a head, a dash and
    digits: the head is [PCP1], two or more upper-case letters, letters
    followed by digits, and one or more upper-case letters after
    [**Original Issue:** ]. *)
Theorem extractOriginalIssueKey_order :
  (forall summary description k,
      truthy summary = true ->
      (match1 projectSpecificPattern (orEmpty summary) = Some k ->
       extractOriginalIssueKey summary description = Some k)
      /\ (match1 projectSpecificPattern (orEmpty summary) = None ->
          match1 genericPattern (orEmpty summary) = Some k ->
          extractOriginalIssueKey summary description = Some k)
      /\ (match1 projectSpecificPattern (orEmpty summary) = None ->
          match1 genericPattern (orEmpty summary) = None ->
          match1 permissivePattern (orEmpty summary) = Some k ->
          extractOriginalIssueKey summary description = Some k))
  /\ (forall summary description,
         noKeyInSummary summary ->
         extractOriginalIssueKey summary description = keyFromDescription description)
  /\ (forall summary description,
         extractOriginalIssueKey summary description = None
         <-> noKeyInSummary summary /\ keyFromDescription description = None)
  /\ (forall description,
         extractOriginalIssueKey
           (Some (lit "Deliverable Criteria: PCP1-67 - Fix login bug")) description
         = Some (lit "PCP1-67"))
  /\ (forall summary pre post,
         noKeyInSummary summary ->
         Forall (fun c => c <> 42%N) pre ->
         match post with
         | [] => True
         | x :: _ => isDigit x = false
         end ->
         extractOriginalIssueKey
           summary (Some (pre ++ lit "**Original Issue:** ABC-12" ++ post))
         = Some (lit "ABC-12"))
  /\ extractOriginalIssueKey
       (Some (lit "Deliverable Criteria for the login page"))
       (Some (lit "**Claude Generated Delivery Criteria**" ++ nl
                ++ lit "**Original Issue:** ABC-12 - Fix login bug" ++ nl))
     = Some (lit "ABC-12")
  /\ extractOriginalIssueKey
       (Some (lit "Fix the login page")) (Some (lit "Users cannot log in."))
     = None
  /\ extractOriginalIssueKey None None = None
  /\ (forall s k, match1 projectSpecificPattern s = Some k ->
                  keyParts (fun u => u = lit "PCP1") k)
  /\ (forall s k, match1 genericPattern s = Some k -> keyParts (upperHead 2) k)
  /\ (forall s k, match1 permissivePattern s = Some k -> keyParts permissiveHead k)
  /\ (forall s k, match1 descriptionPattern s = Some k ->
                  keyParts (upperHead 1) k
                  /\ exists pre rest, s = pre ++ lit "**Original Issue:** " ++ k ++ rest).
Proof.
  assert (Hfallback : forall summary description,
             noKeyInSummary summary ->
             extractOriginalIssueKey summary description
             = keyFromDescription description).
  { intros summary description [Hf | [H1 [H2 H3]]]; unfold extractOriginalIssueKey.
    - now rewrite Hf.
    - rewrite H1, H2, H3. now destruct (truthy summary). }
  repeat match goal with |- _ /\ _ => split end.
  - intros summary description k Ht. unfold extractOriginalIssueKey. rewrite Ht.
    split; [| split].
    + intros H1. now rewrite H1.
    + intros H1 H2. now rewrite H1, H2.
    + intros H1 H2 H3. now rewrite H1, H2, H3.
  - exact Hfallback.
  - intros summary description. split.
    + intros H. unfold extractOriginalIssueKey in H. unfold noKeyInSummary.
      destruct (truthy summary) eqn:Ht; [| now split; [left |]].
      destruct (match1 projectSpecificPattern (orEmpty summary)); [discriminate |].
      destruct (match1 genericPattern (orEmpty summary)); [discriminate |].
      destruct (match1 permissivePattern (orEmpty summary)); [discriminate |].
      split; [right; repeat split | assumption].
    + intros [Hn Hd]. now rewrite (Hfallback _ _ Hn).
  - intros description. reflexivity.
  - intros summary pre post Hn Hpre Hpost. rewrite (Hfallback _ _ Hn).
    now apply keyFromDescription_line.
  - vm_compute. reflexivity.
  - vm_compute. reflexivity.
  - reflexivity.
  - intros s k H. now apply projectSpecificPattern_sound in H.
  - intros s k H. now apply genericPattern_sound in H.
  - intros s k H. now apply permissivePattern_sound in H.
  - intros s k H. now apply descriptionPattern_sound in H.
Qed.

Lemma extractOriginalIssueKey_order_witness :
  extractOriginalIssueKey
    (Some (lit "Deliverable Criteria: ABC1-67 - Fix login bug")) None
  = Some (lit "ABC1-67")
  /\ extractOriginalIssueKey
       None (Some (lit "See " ++ lit "**Original Issue:** ABC-12" ++ lit " (login)"))
     = Some (lit "ABC-12").
Proof.
  split.
  - apply (proj1 extractOriginalIssueKey_order
             (Some (lit "Deliverable Criteria: ABC1-67 - Fix login bug")) None
             (lit "ABC1-67") eq_refl);
      vm_compute; reflexivity.
  - apply (proj1 (proj2 (proj2 (proj2 (proj2 extractOriginalIssueKey_order))))
             None (lit "See ") (lit " (login)")).
    + left. reflexivity.
    + repeat constructor; discriminate.
    + reflexivity.
Defined.

(** ** The deliverable-criteria phase *)

Lemma addComment_run (issueKey comment : jsstring) (env : Env) (w : World) :
  JiraApi.addComment issueKey comment env w
  = (match fault env (List.length (log w)) (AddComment issueKey comment) with
     | Some msg => Threw (Error msg)
     | None => Returned tt
     end,
     logged (AddComment issueKey comment) w).
Proof.
  unfold JiraApi.addComment, external.
  now destruct (fault env (List.length (log w)) (AddComment issueKey comment)).
Qed.

Section DeliverableCriteria.

Variable generateImplementationSummary : jsstring -> ImplementationResult -> jsstring.
Variable generateConfigFile : jsstring -> Implementation -> jsstring.
Variable this : Instance.

Lemma catch_block_run (i : Issue) (e : Exn) (env : Env) (w : World) :
  (JiraApi.addComment (keyText (key i)) (systemErrorComment (message e)) ;;
   ret (SystemError (key i) (message e) (lit "system_failure"))) env w
  = reportSystemError i (message e) env w.
Proof.
  unfold bind, ret, reportSystemError. rewrite addComment_run.
  now destruct (fault env _ _).
Qed.

(** The handler is its [try] body followed, on a throw, by the [catch]
    block: a run returns an outcome, or it ends in the [catch] block. *)
Lemma phase_returns_or_reports (p : WebhookPayload) (i : Issue) (env : Env) (w : World) :
  issue p = Some i ->
  (exists o w',
      processDeliverableCriteria generateImplementationSummary generateConfigFile
                                 this p env w = (Returned o, w'))
  \/ (exists msg w0,
         processDeliverableCriteria generateImplementationSummary generateConfigFile
                                    this p env w = reportSystemError i msg env w0).
Proof.
  intros Hi.
  assert (H : exists body : M Outcome,
             processDeliverableCriteria generateImplementationSummary
                                        generateConfigFile this p env w
             = match body env w with
               | (Returned o, w') => (Returned o, w')
               | (Threw e, w') => reportSystemError i (message e) env w'
               end).
  { unfold processDeliverableCriteria. rewrite Hi.
    eexists. unfold tryCatch at 1.
    match goal with
    | |- match ?b env w with _ => _ end = _ =>
        destruct (b env w) as [[o | e] w'] eqn:E
    end.
    - rewrite E. reflexivity.
    - rewrite E. apply catch_block_run. }
  destruct H as [body H]. rewrite H.
  destruct (body env w) as [[o | e] w']; [left | right]; eauto.
Qed.

(** A criteria issue that fails validation, or from which no key can be
    read, goes straight to the [catch] block. *)
Lemma early_failure_run (p : WebhookPayload) (i : Issue) (env : Env) (w : World) :
  issue p = Some i ->
  validateClaudeGeneratedCriteria i = false
  \/ truthy (extractOriginalIssueKey (summary (fields i)) (description (fields i)))
     = false ->
  exists msg,
    processDeliverableCriteria generateImplementationSummary generateConfigFile
                               this p env w
    = reportSystemError i msg env w.
Proof.
  intros Hi H. unfold processDeliverableCriteria. rewrite Hi.
  destruct (validateClaudeGeneratedCriteria i) eqn:Hv.
  - destruct H as [H | H]; [discriminate |].
    eexists. unfold tryCatch at 1, bind at 1. cbn [negb]. unfold ret at 1.
    unfold bind at 1. rewrite H. cbn [negb]. unfold throw at 1.
    apply (catch_block_run i (Error _)).
  - eexists. unfold tryCatch at 1, bind at 1. cbn [negb]. unfold throw at 1.
    apply (catch_block_run i (Error _)).
Qed.

Lemma skip_guard_run (p : WebhookPayload) (i : Issue) (env : Env) (w : World) :
  issue p = Some i ->
  validateClaudeGeneratedCriteria i = true ->
  truthy (extractOriginalIssueKey (summary (fields i)) (description (fields i))) = true ->
  getHighestStageCompleted i = implemented \/ getHighestStageCompleted i = tested ->
  overrideRequested this i = false ->
  processDeliverableCriteria generateImplementationSummary generateConfigFile this p env w
  = let c := AddComment (keyText (key i))
                        (skippedComment (getHighestStageCompleted i)) in
    match fault env (List.length (log w)) c with
    | None =>
        (Returned (Skipped (lit "Implementation already exists")
                           (getHighestStageCompleted i) (key i)
                           (orEmpty (extractOriginalIssueKey
                                       (summary (fields i)) (description (fields i))))),
         logged c w)
    | Some msg => reportSystemError i msg env (logged c w)
    end.
Proof.
  intros Hi Hv Hk Hs Ho. unfold processDeliverableCriteria. rewrite Hi, Hv, Hk.
  cbv zeta. fold (overrideRequested this i). rewrite Ho.
  unfold tryCatch, bind at 1 2, ret at 1 2, throw. cbn [negb].
  destruct Hs as [Hs | Hs]; rewrite Hs; unfold bind at 1; rewrite addComment_run;
    (destruct (fault env (List.length (log w)) _) as [msg |];
     [apply (catch_block_run i (Error msg)) | reflexivity]).
Qed.


(** When no comment on the criteria issue fails, the phase always returns
    an outcome, whatever else fails. *)
Lemma phase_returns_when_comments_succeed
      (p : WebhookPayload) (i : Issue) (env : Env) (w : World) :
  issue p = Some i ->
  (forall n comment, fault env n (AddComment (keyText (key i)) comment) = None) ->
  exists o w',
    processDeliverableCriteria generateImplementationSummary generateConfigFile
                               this p env w = (Returned o, w').
Proof.
  intros Hi Hf.
  destruct (phase_returns_or_reports p env w Hi) as [H | [msg [w0 H]]]; [exact H |].
  rewrite H. unfold reportSystemError. rewrite Hf. eauto.
Qed.

(** The failure of the comment in the [catch] block leaves the handler as
    an exception. *)
Lemma phase_throws_when_report_fails
      (p : WebhookPayload) (i : Issue) (env : Env) (w : World) (msg : jsstring) :
  issue p = Some i ->
  validateClaudeGeneratedCriteria i = false ->
  (forall comment,
      fault env (List.length (log w)) (AddComment (keyText (key i)) comment)
      = Some msg) ->
  fst (processDeliverableCriteria generateImplementationSummary generateConfigFile
                                  this p env w)
  = Threw (Error msg).
Proof.
  intros Hi Hv Hf.
  destruct (early_failure_run p env w Hi (or_introl Hv)) as [m E].
  rewrite E. unfold reportSystemError. now rewrite Hf.
Qed.

End DeliverableCriteria.



(** C3, on the class as the sources define it.  The handler asks
    [this.hasOverrideLabel] for the override, and the class declares no
    such method: an implemented criteria issue that carries
    [claude-force-reimplement] is skipped like any other, the adapter is
    not called and the label is not removed. *)
Theorem force_reimplement_label_is_ignored :
  overrideRequested JiraWebhookProcessor forcedIssue = false
  /\ namesInclude
       (List.map labelName [LabelObject (lit "claude-stage-implemented");
                            LabelObject (lit "claude-force-reimplement")])
       (lit "claude-force-reimplement") = true
  /\ forall summaryOf configOf,
      processDeliverableCriteria summaryOf configOf JiraWebhookProcessor
                                 (statusChanged forcedIssue) calm
                                 (worldOf (trackerWith forcedIssue))
      = (Returned (Skipped (lit "Implementation already exists") implemented
                           (Some (lit "PCP1-68")) (lit "PCP1-67")),
         {| tracker := trackerWith forcedIssue;
            log := [AddComment (lit "PCP1-68") (skippedComment implemented)] |}).
Proof.
  split; [reflexivity |]. split; [reflexivity |].
  intros summaryOf configOf.
  assert (Hstage : getHighestStageCompleted forcedIssue = implemented
                   \/ getHighestStageCompleted forcedIssue = tested)
    by (left; reflexivity).
  rewrite (skip_guard_run summaryOf configOf JiraWebhookProcessor
             (statusChanged forcedIssue) calm (worldOf (trackerWith forcedIssue))
             (i := forcedIssue) eq_refl eq_refl eq_refl Hstage eq_refl).
  reflexivity.
Qed.

(** C9, on the code.  With the tracker answering 503, the fetch of the
    original issue throws inside [try], the comment of the [catch] block
    throws as well, and that exception leaves [processDeliverableCriteria]:
    no outcome is returned. *)
Theorem tracker_outage_escapes :
  forall summaryOf configOf,
    processDeliverableCriteria summaryOf configOf JiraWebhookProcessor
                               (statusChanged freshIssue) trackerDown
                               (worldOf (trackerWith freshIssue))
    = (Threw (Error (lit "Failed to add comment to PCP1-68: 503 - ")),
       {| tracker := trackerWith freshIssue;
          log := [GetIssue (lit "PCP1-67");
                  AddComment
                    (lit "PCP1-68")
                    (systemErrorComment (lit "Failed to fetch issue PCP1-67: 503"))] |}).
Proof.
  intros summaryOf configOf. vm_compute. reflexivity.
Qed.

(** ** The two [extractSection] methods *)

(** C10, as stated, fails: on dashed items, on an indented bullet and on an
    empty bullet the two methods return different lists. *)
Lemma extractSection_methods_differ :
  Orchestrator.extractSection dashedSection (lit "Functional Requirements") = []
  /\ Evaluator.extractSection dashedSection (lit "Functional Requirements")
     = [lit "Users can log in"]
  /\ Orchestrator.extractSection indentedSection (lit "Functional Requirements")
     = [lit "Users can log in"]
  /\ Evaluator.extractSection indentedSection (lit "Functional Requirements")
     = [bullet :: lit " Users can log in"]
  /\ Orchestrator.extractSection emptyItemSection (lit "Functional Requirements") = [[]]
  /\ Evaluator.extractSection emptyItemSection (lit "Functional Requirements") = []
  /\ ~ (forall text sectionName,
           Orchestrator.extractSection text sectionName
           = Evaluator.extractSection text sectionName).
Proof.
  repeat (split; [vm_compute; reflexivity |]).
  intros H. specialize (H dashedSection (lit "Functional Requirements")).
  vm_compute in H. discriminate H.
Qed.

Lemma trimStart_idempotent (s : jsstring) : trimStart (trimStart s) = trimStart s.
Proof.
  induction s as [|x s IH]; [reflexivity |].
  cbn [trimStart]. destruct (isSpace x) eqn:E; [exact IH |].
  cbn [trimStart]. now rewrite E.
Qed.

Lemma trim_trimStart (s : jsstring) : trim (trimStart s) = trim s.
Proof. unfold trim. now rewrite trimStart_idempotent. Qed.

Lemma trim_starts_with (x : N) (s : jsstring) :
  isSpace x = false -> startsWith (trim (x :: s)) [x] = true.
Proof.
  intros Hx. unfold trim. cbn [trimStart]. rewrite Hx. cbn [trimEnd].
  destruct (trimEnd s); rewrite ?Hx; cbn [startsWith]; now rewrite N.eqb_refl.
Qed.

(** A greedy [\s*] at the end of a pattern takes the whole run of white
    space. *)
Lemma star_spaces (s : jsstring) (c : option jsstring) :
  star true isSpace s (fun s1 => Some (s1, c)) = Some (trimStart s, c).
Proof.
  induction s as [|x s IH]; [reflexivity |].
  cbn [star trimStart]. destruct (isSpace x); [now rewrite IH | reflexivity].
Qed.

Lemma removeAnchored_bullet (rest : jsstring) :
  removeAnchored Evaluator.bulletPrefix (bullet :: rest) = trimStart rest.
Proof.
  unfold removeAnchored, matchHere, Evaluator.bulletPrefix.
  cbn [run rep]. rewrite N.eqb_refl. cbn [orb].
  now rewrite star_spaces.
Qed.

Lemma plain_lines_agree (lines : list jsstring) :
  forallb plainBullet lines = true ->
  List.map (fun line => trim (removeFirst [bullet] line))
           (List.filter (fun line => startsWith (trim line) [bullet]) lines)
  = List.filter
      (fun line => negb (Nat.eqb (List.length line) 0))
      (List.map (fun line => trim (removeAnchored Evaluator.bulletPrefix line))
                (List.filter (fun line => startsWith (trim line) [bullet]
                                          || startsWith (trim line) [dash])
                             lines)).
Proof.
  induction lines as [|l lines IH]; [reflexivity |].
  cbn [forallb]. intros H. apply andb_prop in H as [Hl Hrest].
  specialize (IH Hrest). cbn [List.filter].
  unfold plainBullet in Hl.
  destruct (startsWith (trim l) [bullet] || startsWith (trim l) [dash]) eqn:Hany.
  - destruct l as [|c rest]; [discriminate |].
    apply andb_prop in Hl as [Hc Hne]. apply N.eqb_eq in Hc. subst c.
    rewrite (@trim_starts_with bullet rest eq_refl).
    cbn [List.map List.filter].
    rewrite removeAnchored_bullet, trim_trimStart, Hne.
    rewrite <- IH. reflexivity.
  - apply orb_false_elim in Hany as [Hb _]. rewrite Hb. exact IH.
Qed.

(** C10, amended.  The two methods locate the section with the same
    pattern and return the same list whenever every line of the located
    section that, once trimmed, starts with a bullet or a dash has the
    bullet as its first unit and text after it. *)
Theorem extractSection_methods_agree (text sectionName : jsstring) :
  (forall body,
      match1 (sectionRegex sectionName) text = Some body ->
      forallb plainBullet (split newline body) = true) ->
  Orchestrator.extractSection text sectionName
  = Evaluator.extractSection text sectionName.
Proof.
  intros H. unfold Orchestrator.extractSection, Evaluator.extractSection.
  destruct (match1 (sectionRegex sectionName) text) as [body |]; [| reflexivity].
  apply plain_lines_agree. now apply H.
Qed.

Lemma extractSection_methods_agree_witness :
  Orchestrator.extractSection generatedDescription (lit "Functional Requirements")
  = Evaluator.extractSection generatedDescription (lit "Functional Requirements")
  /\ Evaluator.extractSection generatedDescription (lit "Functional Requirements")
     = [lit "Users can log in"; lit "Failed logins are reported"].
Proof.
  split.
  - apply (extractSection_methods_agree
             generatedDescription (lit "Functional Requirements")).
    intros body Hbody. vm_compute in Hbody.
    injection Hbody as <-. vm_compute. reflexivity.
  - vm_compute. reflexivity.
Defined.

(** ** More on validation and classification *)

Section Dispatch.

Variable generateImplementationSummary : jsstring -> ImplementationResult -> jsstring.
Variable generateConfigFile : jsstring -> Implementation -> jsstring.
Variable processInitialInquiry : WebhookPayload -> M Outcome.
Variable processTestingCriteria : WebhookPayload -> M Outcome.
Variable this : Instance.

(** X1.  An event is answered with [ignored], without any external call,
    when its issue is neither a Story nor a Task, and when it is an update
    that carries no status change, or whose summary lacks the criteria
    marker, or whose status is none of the four actionable ones. *)
Theorem processWebhook_ignores_nonactionable
        (p : WebhookPayload) (i : Issue) (env : Env) (w : World) :
  issue p = Some i ->
  arrayIncludes [lit "Story"; lit "Task"] (issuetype (fields i)) = false
  \/ (webhookEvent p = Some (lit "jira:issue_updated")
      /\ (isStatusChange (changelog p) = false
          \/ includes (orEmpty (summary (fields i))) criteriaMarker = false
          \/ arrayIncludes actionableStatuses (status (fields i)) = false)) ->
  processWebhook generateImplementationSummary generateConfigFile
                 processInitialInquiry processTestingCriteria this p env w
  = (Returned (Ignored (lit "Non-actionable event")), w).
Proof.
  intros Hi H.
  assert (Hv : isValidWebhookEvent p = false).
  { unfold isValidWebhookEvent. rewrite Hi.
    destruct (includesEvent supportedEvents (webhookEvent p)); [| reflexivity].
    destruct (truthy (key i)); [| reflexivity]. cbn [negb]. cbv zeta.
    destruct H as [Ht | [He Hu]].
    - now rewrite Ht.
    - destruct (arrayIncludes [lit "Story"; lit "Task"] (issuetype (fields i)));
        [| reflexivity].
      rewrite He. cbn [negb eventIs]. rewrite streq_refl.
      destruct Hu as [Hc | [Hm | Hs]].
      + now rewrite Hc.
      + rewrite Hm. now destruct (isStatusChange (changelog p)).
      + rewrite Hs. destruct (isStatusChange (changelog p)); [| reflexivity].
        now destruct (includes (orEmpty (summary (fields i))) criteriaMarker). }
  unfold processWebhook, tryCatch. rewrite Hv. reflexivity.
Qed.

End Dispatch.

Lemma processWebhook_ignores_nonactionable_witness :
  let i := criteriaIssue generatedDescription "Done" [] in
  processWebhook noSummary noConfig idleHandler idleHandler JiraWebhookProcessor
                 (statusChanged i) calm (worldOf ∅)
  = (Returned (Ignored (lit "Non-actionable event")), worldOf ∅).
Proof.
  apply (processWebhook_ignores_nonactionable
           noSummary noConfig idleHandler idleHandler JiraWebhookProcessor
           (statusChanged (criteriaIssue generatedDescription "Done" []))
           calm (worldOf ∅)
           (i := criteriaIssue generatedDescription "Done" []) eq_refl).
  right. split; [reflexivity |]. right. right. reflexivity.
Defined.

(** What [isValidWebhookEvent] has checked when it answers [true] for an
    update. *)
Lemma valid_update_inversion (p : WebhookPayload) :
  isValidWebhookEvent p = true ->
  eventIs (webhookEvent p) (lit "jira:issue_updated") = true ->
  exists i,
    issue p = Some i
    /\ includes (orEmpty (summary (fields i))) criteriaMarker = true
    /\ arrayIncludes actionableStatuses (status (fields i)) = true
    /\ isStatusChange (changelog p) = true.
Proof.
  unfold isValidWebhookEvent. intros Hv He.
  destruct (includesEvent supportedEvents (webhookEvent p)); [| discriminate].
  destruct (issue p) as [i |]; [| discriminate].
  destruct (truthy (key i)); [| discriminate]. cbn [negb] in Hv. cbv zeta in Hv.
  destruct (arrayIncludes [lit "Story"; lit "Task"] (issuetype (fields i)));
    [| discriminate].
  rewrite He in Hv. cbn [negb] in Hv.
  destruct (isStatusChange (changelog p)); [| discriminate].
  destruct (includes (orEmpty (summary (fields i))) criteriaMarker) eqn:Hm;
    [| discriminate].
  destruct (arrayIncludes actionableStatuses (status (fields i))) eqn:Hs;
    [| discriminate].
  exists i. repeat split; assumption.
Qed.

(** X2.  A valid update event always goes to one of the two criteria
    phases: it is classified [testing_criteria] when the status is
    [Testing Criteria] and [deliverable_criteria] otherwise, never
    [initial_inquiry] or [ignore]. *)
Theorem valid_update_reaches_criteria_phase (p : WebhookPayload) :
  isValidWebhookEvent p = true ->
  eventIs (webhookEvent p) (lit "jira:issue_updated") = true ->
  exists i,
    issue p = Some i
    /\ classifyIssueType p
       = Returned (if streq (status (fields i)) (lit "Testing Criteria")
                   then testing_criteria else deliverable_criteria).
Proof.
  intros Hv He.
  destruct (valid_update_inversion p Hv He) as [i [Hi [Hm [Hs _]]]].
  exists i. split; [exact Hi |].
  unfold classifyIssueType. rewrite Hi. unfold classifyIssue.
  rewrite (hasClaudeMarkers_criteria _ _ Hm), Hm. cbn [negb].
  destruct (streq (status (fields i)) (lit "Testing Criteria")) eqn:Et;
    [reflexivity |].
  unfold isReadyForImplementation.
  apply arrayIncludes_In in Hs. unfold actionableStatuses in Hs.
  assert (Hr : In (status (fields i)) readyStatuses).
  { unfold readyStatuses. cbn [In] in *.
    destruct Hs as [Hs | [Hs | [Hs | [Hs | []]]]]; auto.
    rewrite <- Hs, streq_refl in Et. discriminate. }
  apply arrayIncludes_In in Hr. now rewrite Hr.
Qed.

Lemma valid_update_reaches_criteria_phase_witness :
  classifyIssueType (statusChanged freshIssue) = Returned deliverable_criteria.
Proof.
  destruct (valid_update_reaches_criteria_phase (statusChanged freshIssue)
              eq_refl eq_refl) as [i [Hi Hc]].
  injection Hi as <-. exact Hc.
Defined.

Lemma hasClaudeMarkers_false (summary description : jsstring) :
  hasClaudeMarkers summary description = false
  <-> forall m, In m claudeMarkers ->
                includes summary m = false /\ includes description m = false.
Proof.
  unfold hasClaudeMarkers. split.
  - intros H m Hm. apply orb_false_elim.
    destruct (includes summary m || includes description m) eqn:E; [| reflexivity].
    assert (Hex : existsb (fun marker => includes summary marker
                                         || includes description marker)
                          claudeMarkers = true).
    { apply existsb_exists. eauto. }
    congruence.
  - intros H.
    destruct (existsb _ claudeMarkers) eqn:E; [| reflexivity].
    apply existsb_exists in E as [m [Hm Hi]].
    destruct (H m Hm) as [Hs Hd]. rewrite Hs, Hd in Hi. discriminate.
Qed.

(** X3.  An issue is classified [initial_inquiry] exactly when neither its
    summary nor its description contains any of the five markers; an issue
    that carries a marker but whose summary lacks the criteria marker is
    classified [ignore], whatever its status. *)
Theorem initial_inquiry_iff_unmarked (i : Issue) :
  (classifyIssue i = initial_inquiry
   <-> forall m, In m claudeMarkers ->
                 includes (orEmpty (summary (fields i))) m = false
                 /\ includes (orEmpty (description (fields i))) m = false)
  /\ (hasClaudeMarkers (orEmpty (summary (fields i)))
                       (orEmpty (description (fields i))) = true ->
      includes (orEmpty (summary (fields i))) criteriaMarker = false ->
      classifyIssue i = ignore).
Proof.
  split.
  - rewrite <- hasClaudeMarkers_false. unfold classifyIssue.
    destruct (hasClaudeMarkers _ _); cbn [negb]; [| tauto].
    split; [| discriminate].
    destruct (includes _ criteriaMarker); [| discriminate].
    destruct (streq _ _); [discriminate |].
    destruct (isReadyForImplementation i); discriminate.
  - intros Hm Hc. unfold classifyIssue. now rewrite Hm, Hc.
Qed.

(** ** More on the stage tracker *)

Lemma namesInclude_In (ls : list Label) (x : jsstring) :
  namesInclude (List.map labelName ls) x = true <-> In (LabelObject x) ls.
Proof.
  unfold namesInclude. rewrite existsb_exists. split.
  - intros [n [Hn Hx]]. apply List.in_map_iff in Hn as [l [Hl Hin]].
    destruct l as [s | s]; cbn in Hl; subst n; [discriminate |].
    apply streq_eq in Hx. now subst.
  - intros H. exists (Some x). split; [| apply streq_refl].
    apply List.in_map_iff. exists (LabelObject x). auto.
Qed.

Lemma namesInclude_strings (texts : list jsstring) (x : jsstring) :
  namesInclude (List.map labelName (List.map LabelString texts)) x = false.
Proof.
  induction texts as [|t texts IH]; [reflexivity | exact IH].
Qed.

Lemma namesInclude_objects (texts : list jsstring) (x : jsstring) :
  namesInclude (List.map labelName (List.map LabelObject texts)) x
  = arrayIncludes texts x.
Proof.
  induction texts as [|t texts IH]; [reflexivity |].
  cbn [List.map namesInclude existsb labelName arrayIncludes].
  unfold namesInclude, arrayIncludes in IH. rewrite IH.
  f_equal. destruct (streq t x) eqn:E.
  - apply streq_eq in E. subst. now rewrite streq_refl.
  - destruct (streq x t) eqn:E'; [| reflexivity].
    apply streq_eq in E'. subst. now rewrite streq_refl in E.
Qed.

(** X4.  The derived stage is the highest stage whose tag is present as a
    label object: [tested] before [implemented] before [analyzed], and
    [none] when no label object carries a stage tag.  Labels that are
    plain strings are not seen. *)
Theorem getHighestStageCompleted_highest_wins (i : Issue) (ls : list Label) :
  labels (fields i) = Some ls ->
  let present := fun tag => In (LabelObject tag) ls in
  (present (lit "claude-stage-tested") -> getHighestStageCompleted i = tested)
  /\ (~ present (lit "claude-stage-tested") -> present (lit "claude-stage-implemented") ->
      getHighestStageCompleted i = implemented)
  /\ (~ present (lit "claude-stage-tested") -> ~ present (lit "claude-stage-implemented") ->
      present (lit "claude-stage-analyzed") -> getHighestStageCompleted i = analyzed)
  /\ (~ present (lit "claude-stage-tested") -> ~ present (lit "claude-stage-implemented") ->
      ~ present (lit "claude-stage-analyzed") -> getHighestStageCompleted i = none).
Proof.
  intros Hl present. unfold getHighestStageCompleted. rewrite Hl.
  assert (yes : forall tag, present tag ->
                            namesInclude (List.map labelName ls) tag = true).
  { intros tag H. now apply namesInclude_In. }
  assert (no : forall tag, ~ present tag ->
                           namesInclude (List.map labelName ls) tag = false).
  { intros tag H.
    destruct (namesInclude (List.map labelName ls) tag) eqn:E; [| reflexivity].
    apply namesInclude_In in E. contradiction. }
  repeat split.
  - intros H. now rewrite (yes _ H).
  - intros H1 H2. now rewrite (no _ H1), (yes _ H2).
  - intros H1 H2 H3. now rewrite (no _ H1), (no _ H2), (yes _ H3).
  - intros H1 H2 H3. now rewrite (no _ H1), (no _ H2), (no _ H3).
Qed.

Lemma getHighestStageCompleted_highest_wins_witness :
  getHighestStageCompleted
    (criteriaIssue generatedDescription "Testing Criteria"
                   [LabelObject (lit "claude-stage-analyzed");
                    LabelString (lit "claude-stage-tested");
                    LabelObject (lit "claude-stage-implemented")])
  = implemented.
Proof.
  refine (proj1 (proj2 (getHighestStageCompleted_highest_wins
                          (criteriaIssue generatedDescription "Testing Criteria" _)
                          eq_refl)) _ _).
  - cbn. intros [H | [H | [H | []]]]; discriminate.
  - cbn. right. right. left. reflexivity.
Defined.

Lemma updated_labels_contain_only_the_new_tag (s : Stage) (ls : list Label) (t : jsstring) :
  s <> none -> isStageLabel t = true ->
  arrayIncludes (updatedLabels s ls) t = streq (stageTag s) t.
Proof.
  intros Hs Ht. rewrite updatedLabels_shape. unfold arrayIncludes.
  rewrite List.existsb_app. cbn [existsb]. rewrite orb_false_r.
  assert (Hkept : existsb (streq t)
                    (List.map labelText
                       (List.filter (fun l => negb (isStageLabel (labelText l))) ls))
                  = false).
  { destruct (existsb _ _) eqn:E; [| reflexivity].
    apply existsb_exists in E as [x [Hx Ex]]. apply streq_eq in Ex. subst x.
    pose proof (kept_labels_are_not_stage_labels ls) as Hall.
    rewrite List.Forall_forall in Hall. specialize (Hall _ Hx). congruence. }
  rewrite Hkept. cbn [orb].
  destruct (streq t (stageTag s)) eqn:E.
  - apply streq_eq in E. subst. now rewrite streq_refl.
  - destruct (streq (stageTag s) t) eqn:E'; [| reflexivity].
    apply streq_eq in E'. subst. now rewrite streq_refl in E.
Qed.

(** X5.  What [updateStageLabel] writes and what [getHighestStageCompleted]
    reads do not meet: the label array written for a stage is an array of
    plain strings, and read back as written it gives the stage [none];
    only when the same labels arrive as objects with a [name] is the stage
    that was written read back.  So after a run of [updateStageLabel] that
    succeeds, the issue the tracker holds has derived stage [none]. *)
Theorem written_stage_is_not_read_back (newStage : Stage) (ls : list Label) :
  newStage <> none ->
  (forall i,
      labels (fields i) = Some (List.map LabelString (updatedLabels newStage ls)) ->
      getHighestStageCompleted i = none)
  /\ (forall i,
         labels (fields i) = Some (List.map LabelObject (updatedLabels newStage ls)) ->
         getHighestStageCompleted i = newStage)
  /\ (forall issueKey i env w,
         (forall n c, fault env n c = None) ->
         tracker w !! issueKey = Some i ->
         labels (fields i) = Some ls ->
         getHighestStageCompleted
           <$> (tracker (snd (updateStageLabel issueKey newStage env w)) !! issueKey)
         = Some none).
Proof.
  intros Hs.
  assert (Hstrings : forall i,
             labels (fields i) = Some (List.map LabelString (updatedLabels newStage ls)) ->
             getHighestStageCompleted i = none).
  { intros i Hl. unfold getHighestStageCompleted. rewrite Hl.
    now rewrite !namesInclude_strings. }
  split; [exact Hstrings |]. split.
  - intros i Hl. unfold getHighestStageCompleted. rewrite Hl.
    rewrite !namesInclude_objects.
    rewrite !(@updated_labels_contain_only_the_new_tag newStage ls _ Hs) by reflexivity.
    destruct newStage; [congruence | reflexivity ..].
  - intros issueKey i env w Hf Hi Hl.
    rewrite (updateStageLabel_run issueKey newStage env w Hf Hi), Hl.
    cbn [snd tracker]. rewrite lookup_insert_eq. cbn [fmap option_fmap option_map].
    f_equal. apply Hstrings. reflexivity.
Qed.

Lemma written_stage_is_not_read_back_witness :
  getHighestStageCompleted
    <$> (tracker (snd (updateStageLabel (lit "PCP1-68") implemented calm
                                        (worldOf (trackerWith freshIssue))))
           !! lit "PCP1-68")
  = Some none.
Proof.
  assert (Hs : implemented <> none) by discriminate.
  apply (proj2 (proj2 (@written_stage_is_not_read_back implemented [] Hs))
               (lit "PCP1-68") freshIssue calm (worldOf (trackerWith freshIssue))).
  - reflexivity.
  - reflexivity.
  - reflexivity.
Defined.

(** X6.  [updateStageLabel] is a best-effort step.  Whatever the tracker
    does, it returns normally; it asks for the issue once and sends at most
    one update, and none after a fetch that failed; no other issue of the
    tracker changes, and of the issue itself only the labels can change. *)
Theorem updateStageLabel_is_best_effort
        (issueKey : jsstring) (newStage : Stage) (env : Env) (w : World) :
  exists w',
    updateStageLabel issueKey newStage env w = (Returned tt, w')
    /\ (log w' = log w ++ [GetIssue issueKey]
        \/ exists i,
             tracker w !! issueKey = Some i
             /\ fault env (List.length (log w)) (GetIssue issueKey) = None
             /\ exists u, log w' = log w ++ [GetIssue issueKey; UpdateIssue issueKey u])
    /\ (forall k, k <> issueKey -> tracker w' !! k = tracker w !! k)
    /\ (forall i', tracker w' !! issueKey = Some i' ->
                   exists i, tracker w !! issueKey = Some i
                             /\ key i' = key i
                             /\ summary (fields i') = summary (fields i)
                             /\ description (fields i') = description (fields i)
                             /\ status (fields i') = status (fields i)
                             /\ issuetype (fields i') = issuetype (fields i)).
Proof.
  cbv beta delta [updateStageLabel tryCatch bind JiraApi.getIssue JiraApi.updateIssue
                    external readTracker writeTracker ret throw].
  destruct (fault env (List.length (log w)) (GetIssue issueKey)) as [msg|] eqn:Hget.
  { eexists. split; [reflexivity |]. cbn [logged tracker log].
    split; [now left |]. split; [reflexivity |].
    intros i' Hi'. exists i'. auto 10. }
  cbn [logged tracker log].
  destruct (tracker w !! issueKey) as [i|] eqn:Hi.
  2:{ eexists. split; [reflexivity |]. cbn [logged tracker log].
      split; [now left |]. split; [reflexivity |].
      intros i' Hi'. rewrite Hi in Hi'. discriminate. }
  match goal with
  | |- context [fault env ?n ?c] => destruct (fault env n c) as [msg|] eqn:Hput
  end.
  - eexists. split; [reflexivity |]. cbn [logged tracker log].
    split.
    { right. exists i. repeat split; try assumption.
      eexists. rewrite <- app_assoc. reflexivity. }
    split; [reflexivity |].
    intros i' Hi'. exists i'. rewrite Hi in Hi'. auto 10.
  - cbn [logged tracker log]. rewrite Hi.
    eexists. split; [reflexivity |]. cbn [logged tracker log].
    split.
    { right. exists i. repeat split; try assumption.
      eexists. rewrite <- app_assoc. reflexivity. }
    split.
    { intros k Hk. now rewrite lookup_insert_ne. }
    intros i' Hi'. rewrite lookup_insert_eq in Hi'.
    injection Hi' as <-. exists i. auto 10.
Qed.

(** ** Computations step by step *)

Lemma external_run (c : Call) (env : Env) (w : World) :
  external c env w
  = (match fault env (List.length (log w)) c with
     | Some msg => Threw (Error msg)
     | None => Returned tt
     end,
     logged c w).
Proof. unfold external. now destruct (fault env (List.length (log w)) c). Qed.

Lemma bind_returned {A B} (m : M A) (f : A -> M B) (env : Env) (w w' : World) (b : B) :
  bind m f env w = (Returned b, w') ->
  exists a w1, m env w = (Returned a, w1) /\ f a env w1 = (Returned b, w').
Proof.
  unfold bind. destruct (m env w) as [[a | e] w1]; [eauto | discriminate].
Qed.

Lemma external_returned (c : Call) (env : Env) (w w' : World) (u : unit) :
  external c env w = (Returned u, w') -> w' = logged c w.
Proof.
  rewrite external_run. destruct (fault env _ c); [discriminate |].
  now intros [= _ <-].
Qed.

(** A loop whose body is one call that must succeed: when the loop
    returns, it has issued the calls of its items, in order. *)
Lemma forEach_returned {A} (body : A -> M unit) (call : A -> Call) (xs : list A)
      (env : Env) (w w' : World) (u : unit) :
  forEach xs body env w = (Returned u, w') ->
  (forall x env w w' u, body x env w = (Returned u, w') -> w' = logged (call x) w) ->
  w' = {| tracker := tracker w; log := log w ++ List.map call xs |}.
Proof.
  intros H Hbody. revert w H. induction xs as [|x xs IH]; intros w H.
  - cbn in H. unfold ret in H. injection H as _ <-.
    destruct w. cbn. now rewrite app_nil_r.
  - cbn [forEach] in H. apply bind_returned in H as [a [w1 [H1 H2]]].
    apply Hbody in H1. subst w1. apply IH in H2. subst w'.
    cbn [logged tracker log List.map]. now rewrite <- app_assoc.
Qed.

Lemma keepsTracker_ret {A} (a : A) : keepsTracker (ret a).
Proof. now intros env w. Qed.

Lemma keepsTracker_throw {A} (e : Exn) : keepsTracker (@throw A e).
Proof. now intros env w. Qed.

Lemma keepsTracker_external (c : Call) : keepsTracker (external c).
Proof. intros env w. now rewrite external_run. Qed.

Lemma keepsTracker_bind {A B} (m : M A) (f : A -> M B) :
  keepsTracker m -> (forall a, keepsTracker (f a)) -> keepsTracker (bind m f).
Proof.
  intros Hm Hf env w. unfold bind. specialize (Hm env w).
  destruct (m env w) as [[a | e] w1]; cbn [snd] in *; [| exact Hm].
  now rewrite Hf.
Qed.

Lemma keepsTracker_tryCatch {A} (m : M A) (h : Exn -> M A) :
  keepsTracker m -> (forall e, keepsTracker (h e)) -> keepsTracker (tryCatch m h).
Proof.
  intros Hm Hh env w. unfold tryCatch. specialize (Hm env w).
  destruct (m env w) as [[a | e] w1]; cbn [snd] in *; [exact Hm |].
  now rewrite Hh.
Qed.

Lemma keepsTracker_attempt {A} (m : M A) : keepsTracker m -> keepsTracker (attempt m).
Proof.
  intros Hm env w. unfold attempt. specialize (Hm env w).
  now destruct (m env w) as [r w1].
Qed.

Lemma keepsTracker_forEach {A} (body : A -> M unit) (xs : list A) :
  (forall x, keepsTracker (body x)) -> keepsTracker (forEach xs body).
Proof.
  intros Hbody. induction xs as [|x xs IH]; cbn [forEach].
  - apply keepsTracker_ret.
  - apply keepsTracker_bind; [apply Hbody | intros _; exact IH].
Qed.

Create HintDb tracker.

#[local] Hint Resolve keepsTracker_ret keepsTracker_throw keepsTracker_external
  keepsTracker_bind keepsTracker_tryCatch keepsTracker_attempt keepsTracker_forEach
  : tracker.

(** ** Writing the artifacts *)

Section Artifacts.

Variable generateImplementationSummary : jsstring -> ImplementationResult -> jsstring.
Variable generateConfigFile : jsstring -> Implementation -> jsstring.

Lemma createImplementationArtifacts_keepsTracker
      (originalKey : jsstring) (r : ImplementationResult) :
  keepsTracker (createImplementationArtifacts generateImplementationSummary
                                              generateConfigFile originalKey r).
Proof.
  unfold createImplementationArtifacts, mkdir, writeFile, stat.
  destruct (truthy (tests r)), (truthy (documentation r)),
    (shouldCreateConfigFile (impl_type (implementation r)));
    auto 20 with tracker.
Qed.

Lemma createImplementationArtifacts_throws_prefixed
      (originalKey : jsstring) (r : ImplementationResult) (env : Env) (w w' : World)
      (e : Exn) :
  createImplementationArtifacts generateImplementationSummary generateConfigFile
                                originalKey r env w = (Threw e, w') ->
  exists cause,
    message e = lit "Failed to create implementation artifacts: " ++ cause.
Proof.
  unfold createImplementationArtifacts, tryCatch at 1.
  match goal with
  | |- match ?b env w with _ => _ end = _ -> _ =>
      destruct (b env w) as [[a | cause] w1]
  end; [discriminate |].
  unfold throw. intros [= <- _]. now exists (message cause).
Qed.

Lemma verified_returned (originalKey file : jsstring) (env : Env) (w w' : World) (u : unit) :
  tryCatch (stat (artifactPath originalKey file))
           (fun _ => throw (Error (lit "Failed to create " ++ file))) env w
  = (Returned u, w') ->
  w' = logged (Stat (artifactPath originalKey file)) w.
Proof.
  unfold tryCatch, stat. rewrite external_run.
  destruct (fault env _ _); [discriminate |]. now intros [= _ <-].
Qed.

Lemma supporting_files_written (originalKey : jsstring) (entries : list (jsstring * jsstring)) :
  Forall2 (writes originalKey)
          (List.map (fun entry => WriteFile (artifactPath originalKey (fst entry))
                                            (snd entry)) entries)
          (List.map fst entries).
Proof.
  induction entries as [|entry entries IH]; cbn [List.map]; constructor;
    [now exists (snd entry) | exact IH].
Qed.

Local Opaque lit.

Ltac flatten :=
  repeat first [rewrite <- List.app_assoc | rewrite List.app_nil_r
               | progress (cbn [List.app])].

(** What a run that returns has done: the result and the calls issued. *)
Lemma createImplementationArtifacts_returned
      (originalKey : jsstring) (r : ImplementationResult) (env : Env) (w w' : World)
      (a : ArtifactsResult) :
  createImplementationArtifacts generateImplementationSummary generateConfigFile
                                originalKey r env w = (Returned a, w') ->
  let type := impl_type (implementation r) in
  directory a = (lit "work-items/" ++ originalKey) ++ lit "/implementation"
  /\ implementationType a = type
  /\ files a
     = [getPrimaryFileName type]
         ++ List.map fst (supportingFiles (implementation r))
         ++ (if truthy (tests r) then [getValidationFileName type] else [])
         ++ (if truthy (documentation r) then [lit "README.md"] else [])
         ++ [lit "implementation-summary.md"]
         ++ (if shouldCreateConfigFile type then [getConfigFileName type] else [])
  /\ exists written,
      Forall2 (writes originalKey) written (files a)
      /\ log w'
         = log w
             ++ [Mkdir (lit "work-items/" ++ originalKey);
                 Mkdir ((lit "work-items/" ++ originalKey) ++ lit "/implementation")]
             ++ written
             ++ List.map (fun file => Stat (artifactPath originalKey file)) (files a).
Proof.
  unfold createImplementationArtifacts, tryCatch at 1.
  match goal with
  | |- match ?b env w with _ => _ end = _ -> _ =>
      destruct (b env w) as [[a0 | cause] w1] eqn:E
  end; [| discriminate].
  intros [= <- <-]. cbv zeta.
  set (type := impl_type (implementation r)) in *.
  set (written :=
         [WriteFile (artifactPath originalKey (getPrimaryFileName type))
                    (primaryDeliverable (implementation r))]
           ++ List.map (fun entry => WriteFile (artifactPath originalKey (fst entry))
                                               (snd entry))
                       (supportingFiles (implementation r))
           ++ (if truthy (tests r)
               then [WriteFile (artifactPath originalKey (getValidationFileName type))
                               (orEmpty (tests r))]
               else [])
           ++ (if truthy (documentation r)
               then [WriteFile (artifactPath originalKey (lit "README.md"))
                               (orEmpty (documentation r))]
               else [])
           ++ [WriteFile (artifactPath originalKey (lit "implementation-summary.md"))
                         (generateImplementationSummary originalKey r)]
           ++ (if shouldCreateConfigFile type
               then [WriteFile (artifactPath originalKey (getConfigFileName type))
                               (generateConfigFile originalKey (implementation r))]
               else [])).
  enough (H : directory a0 = (lit "work-items/" ++ originalKey) ++ lit "/implementation"
              /\ implementationType a0 = type
              /\ files a0
                 = [getPrimaryFileName type]
                     ++ List.map fst (supportingFiles (implementation r))
                     ++ (if truthy (tests r) then [getValidationFileName type] else [])
                     ++ (if truthy (documentation r) then [lit "README.md"] else [])
                     ++ [lit "implementation-summary.md"]
                     ++ (if shouldCreateConfigFile type
                         then [getConfigFileName type] else [])
              /\ log w1
                 = log w
                     ++ [Mkdir (lit "work-items/" ++ originalKey);
                         Mkdir ((lit "work-items/" ++ originalKey)
                                  ++ lit "/implementation")]
                     ++ written
                     ++ List.map (fun file => Stat (artifactPath originalKey file))
                                 (files a0)).
  { destruct H as (H1 & H2 & H3 & H4). repeat split; try assumption.
    exists written. split; [| exact H4]. rewrite H3. subst written.
    repeat apply Forall2_app; try apply supporting_files_written.
    - repeat constructor. eexists; reflexivity.
    - destruct (truthy (tests r)); repeat constructor. eexists; reflexivity.
    - destruct (truthy (documentation r)); repeat constructor. eexists; reflexivity.
    - repeat constructor. eexists; reflexivity.
    - destruct (shouldCreateConfigFile type); repeat constructor.
      eexists; reflexivity. }
  subst written. unfold mkdir, writeFile in E.
  destruct (truthy (tests r)), (truthy (documentation r)),
    (shouldCreateConfigFile type);
    repeat match goal with
    | H : bind _ _ _ _ = (Returned _, _) |- _ =>
        let H1 := fresh "Step" in
        apply bind_returned in H as [? [? [H1 H]]]
    | H : external _ _ _ = (Returned _, _) |- _ => apply external_returned in H; subst
    | H : ret _ _ _ = (Returned _, _) |- _ => unfold ret in H; injection H as <- <-
    | H : forEach (supportingFiles _) _ _ _ = (Returned _, _) |- _ =>
        apply (forEach_returned
                 _ (fun entry : jsstring * jsstring =>
                      WriteFile (artifactPath originalKey (fst entry)) (snd entry))) in H;
        [subst | intros ? ? ? ? ?; apply external_returned]
    | H : forEach _ _ _ _ = (Returned _, _) |- _ =>
        apply (forEach_returned
                 _ (fun file => Stat (artifactPath originalKey file))) in H;
        [subst | intros ? ? ? ? ?; apply verified_returned]
    end;
    cbn [directory files implementationType log logged tracker];
    (split; [reflexivity |]); (split; [reflexivity |]);
    (split; [now flatten |]);
    unfold artifactPath; now flatten.
Qed.

Local Transparent lit.

(** X7.  [createImplementationArtifacts] reports what it wrote.  It never
    changes the tracker.  When it returns, the directory is
    [work-items/<key>/implementation], the reported files are the primary
    file, the supporting files, the validation file when there are tests,
    [README.md] when there is documentation, the summary, and the
    configuration file for the types [code] and [process], in this order;
    and the calls it issued are the two [mkdir], then one write for each
    reported file, then one [stat] for each reported file, in the order of
    the report.  When it throws, the message starts with
    [Failed to create implementation artifacts: ]. *)
Theorem createImplementationArtifacts_reports_what_it_wrote
        (originalKey : jsstring) (r : ImplementationResult) (env : Env) (w : World) :
  let run :=
    createImplementationArtifacts generateImplementationSummary generateConfigFile
                                  originalKey r env w in
  let type := impl_type (implementation r) in
  tracker (snd run) = tracker w
  /\ match fst run with
     | Returned a =>
         directory a = (lit "work-items/" ++ originalKey) ++ lit "/implementation"
         /\ implementationType a = type
         /\ files a
            = [getPrimaryFileName type]
                ++ List.map fst (supportingFiles (implementation r))
                ++ (if truthy (tests r) then [getValidationFileName type] else [])
                ++ (if truthy (documentation r) then [lit "README.md"] else [])
                ++ [lit "implementation-summary.md"]
                ++ (if shouldCreateConfigFile type then [getConfigFileName type] else [])
         /\ exists written,
             Forall2 (writes originalKey) written (files a)
             /\ log (snd run)
                = log w
                    ++ [Mkdir (lit "work-items/" ++ originalKey);
                        Mkdir ((lit "work-items/" ++ originalKey)
                                 ++ lit "/implementation")]
                    ++ written
                    ++ List.map (fun file => Stat (artifactPath originalKey file))
                                (files a)
     | Threw e =>
         exists cause,
           message e = lit "Failed to create implementation artifacts: " ++ cause
     end.
Proof.
  intros run type. split; [apply createImplementationArtifacts_keepsTracker |].
  subst run.
  destruct (createImplementationArtifacts generateImplementationSummary
                                          generateConfigFile originalKey r env w)
    as [[a | e] w'] eqn:E; cbn [fst snd].
  - exact (createImplementationArtifacts_returned _ _ _ _ E).
  - exact (createImplementationArtifacts_throws_prefixed _ _ _ _ E).
Qed.

End Artifacts.

(** ** The deliverable-criteria phase, past the stage guard *)

Lemma generateImplementation_run (i : Issue) (k : jsstring) (reqs : Requirements)
      (env : Env) (w : World) :
  generateImplementation i k reqs env w
  = (match fault env (List.length (log w)) (GenerateImplementation i k reqs) with
     | Some msg => Threw (Error msg)
     | None => Returned (adapterReply env i k reqs)
     end,
     logged (GenerateImplementation i k reqs) w).
Proof.
  unfold generateImplementation, bind, askAdapter, ret. rewrite external_run.
  now destruct (fault env _ _).
Qed.

Lemma updateStageLabel_frame (issueKey : jsstring) (s : Stage) (env : Env) (w : World) :
  exists w',
    updateStageLabel issueKey s env w = (Returned tt, w')
    /\ forall k, k <> issueKey -> tracker w' !! k = tracker w !! k.
Proof.
  cbv beta delta [updateStageLabel tryCatch bind JiraApi.getIssue JiraApi.updateIssue
                    external readTracker writeTracker ret throw].
  destruct (fault env (List.length (log w)) (GetIssue issueKey)); [eauto |].
  cbn [logged tracker log].
  destruct (tracker w !! issueKey) as [i|] eqn:Hi; [| eauto].
  match goal with
  | |- context [fault env ?n ?c] => destruct (fault env n c)
  end; [eauto |].
  cbn [logged tracker log]. rewrite Hi.
  eexists. split; [reflexivity |]. cbn [tracker].
  intros k Hk. now rewrite lookup_insert_ne.
Qed.

Lemma ret_bind {A B} (a : A) (f : A -> M B) (env : Env) (w : World) :
  bind (ret a) f env w = f a env w.
Proof. reflexivity. Qed.

Section DeliverablePaths.

Variable generateImplementationSummary : jsstring -> ImplementationResult -> jsstring.
Variable generateConfigFile : jsstring -> Implementation -> jsstring.
Variable this : Instance.

Ltac past_the_guard i Hi Hv Hk Hs Ho Ht Hget :=
  unfold processDeliverableCriteria;
  rewrite Hi, Hv, (extracted_key_truthy _ _ Hk), Hk;
  cbv zeta; fold (overrideRequested this i); rewrite Ho;
  cbn [negb orEmpty];
  destruct Hs as [Hs | Hs]; rewrite Hs;
  unfold tryCatch at 1; rewrite !ret_bind;
  unfold bind at 1;
  rewrite (getIssue_ok _ _ _ (Hget _) Ht);
  unfold bind at 1, attempt at 1;
  rewrite generateImplementation_run.

(** X8.  When the implementation adapter fails, the phase reports it and
    stops: for a genuine criteria issue that is not yet implemented and
    whose original issue the tracker returns, the run fetches the original
    issue, calls the adapter once, posts the failure comment with the
    adapter's message and returns [implementation_failed] with that
    message.  No file is written and the tracker is unchanged. *)
Theorem adapter_failure_is_reported
        (p : WebhookPayload) (i original : Issue) (k msg : jsstring)
        (env : Env) (w : World) :
  issue p = Some i ->
  validateClaudeGeneratedCriteria i = true ->
  extractOriginalIssueKey (summary (fields i)) (description (fields i)) = Some k ->
  getHighestStageCompleted i = none \/ getHighestStageCompleted i = analyzed ->
  overrideRequested this i = false ->
  tracker w !! k = Some original ->
  (forall n, fault env n (GetIssue k) = None) ->
  (forall n, fault env n (GenerateImplementation i k (extractRequirementsFromCriteria i))
             = Some msg) ->
  (forall n, fault env n (AddComment (keyText (key i)) (generationFailedComment msg))
             = None) ->
  processDeliverableCriteria generateImplementationSummary generateConfigFile this p env w
  = (Returned (ImplementationFailed (key i) k msg (lit "claude_generation_failure")),
     {| tracker := tracker w;
        log := log w ++ [GetIssue k;
                         GenerateImplementation i k (extractRequirementsFromCriteria i);
                         AddComment (keyText (key i)) (generationFailedComment msg)] |}).
Proof.
  intros Hi Hv Hk Hs Ho Ht Hget Hgen Hcomment.
  past_the_guard i Hi Hv Hk Hs Ho Ht Hget;
    rewrite Hgen; unfold bind at 1; rewrite addComment_run, Hcomment;
    unfold ret, logged; cbn [message tracker log];
    now rewrite <- !List.app_assoc.
Qed.

(** X9.  When the adapter has answered and writing the artifacts fails, the
    phase posts the artifacts-failure comment and returns
    [artifacts_failed]; the outcome carries the implementation the adapter
    returned and the error, whose message starts with
    [Failed to create implementation artifacts: ].  The stage label is not
    written: the tracker is unchanged. *)
Theorem artifacts_failure_keeps_the_implementation
        (p : WebhookPayload) (i original : Issue) (k : jsstring)
        (env : Env) (w w3 : World) (e : Exn) :
  let requirements := extractRequirementsFromCriteria i in
  let generated := adapterReply env i k requirements in
  let w2 := logged (GenerateImplementation i k requirements) (logged (GetIssue k) w) in
  issue p = Some i ->
  validateClaudeGeneratedCriteria i = true ->
  extractOriginalIssueKey (summary (fields i)) (description (fields i)) = Some k ->
  getHighestStageCompleted i = none \/ getHighestStageCompleted i = analyzed ->
  overrideRequested this i = false ->
  tracker w !! k = Some original ->
  (forall n, fault env n (GetIssue k) = None) ->
  (forall n, fault env n (GenerateImplementation i k requirements) = None) ->
  createImplementationArtifacts generateImplementationSummary generateConfigFile
                                k generated env w2 = (Threw e, w3) ->
  (forall n, fault env n (AddComment (keyText (key i))
                                     (artifactsFailedComment (message e))) = None) ->
  processDeliverableCriteria generateImplementationSummary generateConfigFile this p env w
  = (Returned (ArtifactsFailed (key i) k generated (message e)
                               (lit "artifacts_creation_failure")),
     logged (AddComment (keyText (key i)) (artifactsFailedComment (message e))) w3)
  /\ tracker w3 = tracker w
  /\ exists cause,
      message e = lit "Failed to create implementation artifacts: " ++ cause.
Proof.
  intros requirements generated w2 Hi Hv Hk Hs Ho Ht Hget Hgen Hart Hcomment.
  split; [| split].
  - past_the_guard i Hi Hv Hk Hs Ho Ht Hget;
      rewrite Hgen; unfold bind at 1, attempt at 1;
      fold requirements; fold generated; fold w2; rewrite Hart;
      unfold bind at 1; rewrite addComment_run, Hcomment;
      reflexivity.
  - pose proof (createImplementationArtifacts_keepsTracker
                  generateImplementationSummary generateConfigFile
                  k generated env w2) as H.
    rewrite Hart in H. exact H.
  - exact (createImplementationArtifacts_throws_prefixed _ _ _ _ _ _ Hart).
Qed.

(** X10.  When the adapter has answered, the artifacts are written and the
    success comment is accepted, the phase returns
    [implementation_generated] with the adapter's implementation and the
    artifacts report, whether or not the stage label can be written: a
    failure of [updateStageLabel] does not change the outcome.  No issue
    other than the criteria issue changes; and when no call fails and the
    tracker holds the criteria issue, its labels become the non-stage
    labels of the tracker's copy followed by [claude-stage-implemented]. *)
Theorem success_does_not_depend_on_the_stage_label
        (p : WebhookPayload) (i original : Issue) (k : jsstring)
        (env : Env) (w w3 : World) (a : ArtifactsResult) :
  let requirements := extractRequirementsFromCriteria i in
  let generated := adapterReply env i k requirements in
  let w2 := logged (GenerateImplementation i k requirements) (logged (GetIssue k) w) in
  issue p = Some i ->
  validateClaudeGeneratedCriteria i = true ->
  extractOriginalIssueKey (summary (fields i)) (description (fields i)) = Some k ->
  getHighestStageCompleted i = none \/ getHighestStageCompleted i = analyzed ->
  overrideRequested this i = false ->
  tracker w !! k = Some original ->
  (forall n, fault env n (GetIssue k) = None) ->
  (forall n, fault env n (GenerateImplementation i k requirements) = None) ->
  createImplementationArtifacts generateImplementationSummary generateConfigFile
                                k generated env w2 = (Returned a, w3) ->
  (forall n, fault env n (AddComment (keyText (key i))
                                     (generatedComment k generated a)) = None) ->
  exists w',
    processDeliverableCriteria generateImplementationSummary generateConfigFile
                               this p env w
    = (Returned (ImplementationGenerated (key i) k generated a), w')
    /\ (forall k', k' <> keyText (key i) -> tracker w' !! k' = tracker w !! k')
    /\ (forall stored,
           (forall n c, fault env n c = None) ->
           tracker w !! keyText (key i) = Some stored ->
           tracker w' !! keyText (key i)
           = Some (applyUpdate
                     {| setSummary := None; setDescription := None;
                        setLabels :=
                          Some (updatedLabels implemented
                                              (match labels (fields stored) with
                                               | Some ls => ls
                                               | None => []
                                               end)) |}
                     stored)).
Proof.
  intros requirements generated w2 Hi Hv Hk Hs Ho Ht Hget Hgen Hart Hcomment.
  assert (Htracker : tracker w3 = tracker w).
  { pose proof (createImplementationArtifacts_keepsTracker
                  generateImplementationSummary generateConfigFile
                  k generated env w2) as H.
    rewrite Hart in H. exact H. }
  set (w4 := logged (AddComment (keyText (key i)) (generatedComment k generated a)) w3).
  destruct (updateStageLabel_frame (keyText (key i)) implemented env w4)
    as [w' [Hlabel Hframe]].
  exists w'. split; [| split].
  - past_the_guard i Hi Hv Hk Hs Ho Ht Hget;
      rewrite Hgen; unfold bind at 1, attempt at 1;
      fold requirements; fold generated; fold w2; rewrite Hart;
      unfold bind at 1; rewrite addComment_run, Hcomment;
      fold w4; unfold bind at 1, tryCatch at 1; rewrite Hlabel;
      reflexivity.
  - intros k' Hk'. rewrite (Hframe k' Hk'). subst w4. cbn [logged tracker].
    now rewrite Htracker.
  - intros stored Hcalm Hstored.
    assert (Hstored4 : tracker w4 !! keyText (key i) = Some stored).
    { subst w4. cbn [logged tracker]. now rewrite Htracker. }
    rewrite (updateStageLabel_run (keyText (key i)) implemented env w4 Hcalm Hstored4)
      in Hlabel.
    injection Hlabel as <-. cbn [tracker]. now rewrite lookup_insert_eq.
Qed.

End DeliverablePaths.

Lemma adapter_failure_is_reported_witness :
  processDeliverableCriteria noSummary noConfig JiraWebhookProcessor
                             (statusChanged freshIssue) adapterDown (worldOf bothIssues)
  = (Returned (ImplementationFailed (Some (lit "PCP1-68")) (lit "PCP1-67")
                                    (lit "Claude API error: 529")
                                    (lit "claude_generation_failure")),
     {| tracker := bothIssues;
        log := [GetIssue (lit "PCP1-67");
                GenerateImplementation freshIssue (lit "PCP1-67")
                                       (extractRequirementsFromCriteria freshIssue);
                AddComment (lit "PCP1-68")
                           (generationFailedComment (lit "Claude API error: 529"))] |}).
Proof.
  apply (@adapter_failure_is_reported
           noSummary noConfig JiraWebhookProcessor (statusChanged freshIssue)
           freshIssue originalIssue (lit "PCP1-67") (lit "Claude API error: 529")
           adapterDown (worldOf bothIssues)).
  - reflexivity.
  - reflexivity.
  - reflexivity.
  - left. reflexivity.
  - reflexivity.
  - reflexivity.
  - reflexivity.
  - reflexivity.
  - reflexivity.
Defined.

Lemma artifacts_failure_keeps_the_implementation_witness :
  fst (processDeliverableCriteria noSummary noConfig JiraWebhookProcessor
                                  (statusChanged freshIssue) diskFull
                                  (worldOf bothIssues))
  = Returned (ArtifactsFailed
                (Some (lit "PCP1-68")) (lit "PCP1-67") sampleImplementation
                (lit "Failed to create implementation artifacts: ENOSPC: no space left on device")
                (lit "artifacts_creation_failure")).
Proof.
  set (w2 := logged (GenerateImplementation
                       freshIssue (lit "PCP1-67")
                       (extractRequirementsFromCriteria freshIssue))
                    (logged (GetIssue (lit "PCP1-67")) (worldOf bothIssues))).
  destruct (@artifacts_failure_keeps_the_implementation
              noSummary noConfig JiraWebhookProcessor (statusChanged freshIssue)
              freshIssue originalIssue (lit "PCP1-67") diskFull (worldOf bothIssues)
              (logged (Mkdir (lit "work-items/PCP1-67")) w2)
              (Error (lit "Failed to create implementation artifacts: ENOSPC: no space left on device")))
    as [E _]; [.. | rewrite E; reflexivity].
  - reflexivity.
  - reflexivity.
  - reflexivity.
  - left. reflexivity.
  - reflexivity.
  - reflexivity.
  - reflexivity.
  - reflexivity.
  - reflexivity.
  - reflexivity.
Defined.

Lemma success_does_not_depend_on_the_stage_label_witness :
  fst (processDeliverableCriteria noSummary noConfig JiraWebhookProcessor
                                  (statusChanged freshIssue) readOnlyTracker
                                  (worldOf bothIssues))
  = Returned (ImplementationGenerated
                (Some (lit "PCP1-68")) (lit "PCP1-67") sampleImplementation
                {| directory := lit "work-items/PCP1-67/implementation";
                   files := [lit "solution.js"; lit "tests.js"; lit "README.md";
                             lit "implementation-summary.md"; lit "package.json"];
                   implementationType := lit "code" |}).
Proof.
  set (w2 := logged (GenerateImplementation
                       freshIssue (lit "PCP1-67")
                       (extractRequirementsFromCriteria freshIssue))
                    (logged (GetIssue (lit "PCP1-67")) (worldOf bothIssues))).
  destruct (@success_does_not_depend_on_the_stage_label
              noSummary noConfig JiraWebhookProcessor (statusChanged freshIssue)
              freshIssue originalIssue (lit "PCP1-67") readOnlyTracker
              (worldOf bothIssues)
              (snd (createImplementationArtifacts
                      noSummary noConfig (lit "PCP1-67") sampleImplementation
                      readOnlyTracker w2))
              {| directory := lit "work-items/PCP1-67/implementation";
                 files := [lit "solution.js"; lit "tests.js"; lit "README.md";
                           lit "implementation-summary.md"; lit "package.json"];
                 implementationType := lit "code" |})
    as [w' [E _]]; [.. | rewrite E; reflexivity].
  - reflexivity.
  - reflexivity.
  - reflexivity.
  - left. reflexivity.
  - reflexivity.
  - reflexivity.
  - reflexivity.
  - reflexivity.
  - reflexivity.
  - reflexivity.
Defined.

(** ** The evaluator's verdict and its wording *)

Lemma join_length (sep x : jsstring) (xs : list jsstring) :
  List.length x <= List.length (join sep (x :: xs)).
Proof. destruct xs; cbn [join]; rewrite ?List.length_app; lia. Qed.

Lemma filter_length_le {A} (f : A -> bool) (l : list A) :
  List.length (List.filter f l) <= List.length l.
Proof.
  induction l as [|x l IH]; cbn [List.filter]; [lia |].
  destruct (f x); cbn [List.length]; lia.
Qed.

Lemma disjoint_filters_length {A} (f g : A -> bool) (l : list A) :
  (forall x, f x = true -> g x = false) ->
  List.length (List.filter f l) + List.length (List.filter g l) <= List.length l.
Proof.
  intros Hfg. induction l as [|x l IH]; cbn [List.filter]; [cbn; lia |].
  destruct (f x) eqn:Ef.
  - rewrite (Hfg x Ef). cbn [List.length]. lia.
  - destruct (g x); cbn [List.length]; lia.
Qed.

Section Verdicts.

Variable numberText : Z -> jsstring.

(** X11.  A [NEEDS_WORK] recommendation can come without any reason: when
    the verdict is negative, the summary is the bare text
    [Implementation needs revision: ] exactly when the score reaches 80,
    no error at all was reported and the assessment says ready, that is,
    when the only failed check is the one on the requirements coverage
    (below 20), which [generateRecommendation] does not mention. *)
Theorem needs_work_without_a_reason (e : Evaluator.Evaluation) :
  let finalScore := Evaluator.calculateFinalScore e in
  let recommendation := generateRecommendation numberText finalScore e in
  Evaluator.meetsCriteria finalScore = false ->
  rec_status recommendation = lit "NEEDS_WORK"
  /\ (rec_summary recommendation = lit "Implementation needs revision: "
      <-> (80 <= Evaluator.overallScore finalScore)%Z
          /\ Evaluator.errors e = []
          /\ Evaluator.readyForDeployment (Evaluator.overallAssessment e) = true
          /\ (Evaluator.score (Evaluator.requirementsCoverage e) < 20)%Z).
Proof.
  intros finalScore recommendation Hm.
  subst recommendation. unfold generateRecommendation. rewrite Hm.
  cbn [rec_status rec_summary]. split; [reflexivity |].
  assert (Hbare : forall issues : list jsstring,
             lit "Implementation needs revision: " ++ join (lit ", ") issues
             = lit "Implementation needs revision: "
             <-> join (lit ", ") issues = []).
  { intros issues. split; intros H.
    - apply (List.app_inv_head (lit "Implementation needs revision: ")).
      now rewrite List.app_nil_r.
    - rewrite H. apply List.app_nil_r. }
  rewrite Hbare. clear Hbare.
  assert (Hnonempty : forall (x : jsstring) (xs : list jsstring),
             1 <= List.length x -> join (lit ", ") (x :: xs) <> []).
  { intros x xs Hx H. pose proof (join_length (lit ", ") x xs) as Hl.
    rewrite H in Hl. cbn in Hl. lia. }
  subst finalScore. unfold Evaluator.calculateFinalScore in *.
  cbn [Evaluator.meetsCriteria Evaluator.overallScore Evaluator.passingScore
         Evaluator.errorCount Evaluator.fs_readyForDeployment
         Evaluator.criticalErrors Evaluator.highErrors] in *.
  set (total := fold_left _ _ 0%Z) in *.
  set (ready := Evaluator.readyForDeployment (Evaluator.overallAssessment e)) in *.
  destruct (Evaluator.errors e) as [|x errs] eqn:Eerrs.
  2:{ cbn [List.length Nat.ltb Nat.leb List.app]. split.
      - intros H. exfalso. revert H.
        destruct (total <? 80)%Z, (negb ready); cbn [List.app]; apply Hnonempty;
          rewrite !List.length_app; cbn; lia.
      - intros (_ & H & _). discriminate H. }
  cbn [List.length Nat.ltb Nat.leb List.app List.filter orb negb andb] in *.
  rewrite andb_true_r in Hm.
  destruct (Z.ltb_spec total 80) as [Hlow | Hhigh].
  { split.
    - intros H. exfalso. revert H.
      destruct (negb ready); cbn [List.app]; apply Hnonempty;
        rewrite !List.length_app; cbn; lia.
    - intros [H _]. lia. }
  destruct ready.
  - cbn [negb join]. split; [intros _ | reflexivity].
    repeat split; lia.
  - cbn [negb List.app join]. split; [discriminate |].
    intros (_ & _ & H & _). discriminate H.
Qed.

(** X12.  Errors whose severity is neither [CRITICAL] nor [HIGH] count
    but do not weigh: reporting one more of them leaves the verdict and
    the number of blocking errors as they were and raises [errorCount] by
    one; and when the verdict is positive the recommendation is the same
    object as before, whose summary still ends with [and zero errors.]. *)
Theorem minor_errors_do_not_change_the_verdict
        (e : Evaluator.Evaluation) (x : Evaluator.EvalError) :
  streq (Evaluator.severity x) (lit "CRITICAL") = false ->
  streq (Evaluator.severity x) (lit "HIGH") = false ->
  let before := Evaluator.calculateFinalScore e in
  let after := Evaluator.calculateFinalScore (withError x e) in
  Evaluator.meetsCriteria after = Evaluator.meetsCriteria before
  /\ Evaluator.errorCount after = S (Evaluator.errorCount before)
  /\ Evaluator.blockingErrors after = Evaluator.blockingErrors before
  /\ (Evaluator.meetsCriteria before = true ->
      generateRecommendation numberText after (withError x e)
      = generateRecommendation numberText before e
      /\ rec_summary (generateRecommendation numberText after (withError x e))
         = lit "Implementation meets all criteria with score "
             ++ numberText (Evaluator.overallScore before)
             ++ lit "/100 and zero errors.").
Proof.
  intros Hc Hh before after.
  assert (Hm : Evaluator.meetsCriteria after = Evaluator.meetsCriteria before).
  { subst before after. unfold Evaluator.calculateFinalScore.
    cbn [Evaluator.meetsCriteria withError Evaluator.errors
           Evaluator.requirementsCoverage Evaluator.qualityCraftsmanship
           Evaluator.usabilityPracticality Evaluator.completenessPolish
           Evaluator.overallAssessment List.filter].
    now rewrite Hc, Hh. }
  split; [exact Hm |]. split; [reflexivity |]. split.
  - subst before after. unfold Evaluator.calculateFinalScore.
    cbn [Evaluator.blockingErrors withError Evaluator.errors List.filter].
    now rewrite Hc, Hh.
  - intros Hyes. unfold generateRecommendation. rewrite Hm, Hyes.
    split; reflexivity.
Qed.

(** X13.  The counters of [calculateFinalScore] are consistent: critical
    and high errors are different errors, so the blocking errors are never
    more than the errors counted, and the overall score is the sum of the
    four entries of the breakdown. *)
Theorem blocking_errors_are_counted (e : Evaluator.Evaluation) :
  let finalScore := Evaluator.calculateFinalScore e in
  Evaluator.blockingErrors finalScore
  = Evaluator.criticalErrors finalScore + Evaluator.highErrors finalScore
  /\ Evaluator.blockingErrors finalScore <= Evaluator.errorCount finalScore
  /\ Evaluator.overallScore finalScore
     = (Evaluator.bd_requirementsCoverage (Evaluator.breakdown finalScore)
        + Evaluator.bd_qualityCraftsmanship (Evaluator.breakdown finalScore)
        + Evaluator.bd_usabilityPracticality (Evaluator.breakdown finalScore)
        + Evaluator.bd_completenessPolish (Evaluator.breakdown finalScore))%Z.
Proof.
  intros finalScore. split; [reflexivity |]. split; [| reflexivity].
  subst finalScore. unfold Evaluator.calculateFinalScore.
  cbn [Evaluator.blockingErrors Evaluator.errorCount].
  apply disjoint_filters_length.
  intros x Hx. apply streq_eq in Hx. now rewrite Hx.
Qed.

End Verdicts.

Lemma needs_work_without_a_reason_witness :
  rec_summary (generateRecommendation
                 anyNumber
                 (Evaluator.calculateFinalScore (evaluationOf 19 25 25 25 [] true))
                 (evaluationOf 19 25 25 25 [] true))
  = lit "Implementation needs revision: ".
Proof.
  apply (proj2 (needs_work_without_a_reason
                  anyNumber (evaluationOf 19 25 25 25 [] true) eq_refl)).
  repeat split; cbn; lia.
Defined.

Lemma minor_errors_do_not_change_the_verdict_witness :
  Evaluator.meetsCriteria
    (Evaluator.calculateFinalScore
       (withError (errorOf "MEDIUM") (evaluationOf 25 25 25 25 [] true)))
  = true
  /\ Evaluator.errorCount
       (Evaluator.calculateFinalScore
          (withError (errorOf "MEDIUM") (evaluationOf 25 25 25 25 [] true)))
     = 1.
Proof.
  destruct (minor_errors_do_not_change_the_verdict
              anyNumber (evaluationOf 25 25 25 25 [] true) (errorOf "MEDIUM")
              eq_refl eq_refl)
    as (Hm & Hn & _).
  split; [rewrite Hm; reflexivity | rewrite Hn; reflexivity].
Defined.

(** ** Reading back the criteria issue *)

Lemma hashFree_app (a b : jsstring) : hashFree (a ++ b) = hashFree a && hashFree b.
Proof. apply forallb_app. Qed.

Lemma oneLine_app (a b : jsstring) : oneLine (a ++ b) = oneLine a && oneLine b.
Proof. apply forallb_app. Qed.

Lemma canonicalize_hash (x : N) :
  N.eqb (canonicalize x) (canonicalize hashSign) = N.eqb x hashSign.
Proof.
  change (canonicalize hashSign) with hashSign.
  unfold canonicalize, isLower, hashSign.
  destruct (N.leb_spec 97 x); destruct (N.leb_spec x 122); cbn [andb];
    try reflexivity.
  destruct (N.eqb_spec (x - 32) 35); destruct (N.eqb_spec x 35); try reflexivity; lia.
Qed.

Lemma run_textI_app (l s : jsstring) (c : option jsstring) (k : cont) :
  run (textI l) (l ++ s) c k = k s c.
Proof.
  induction l as [|a l IH]; cbn [textI run chrI List.app]; [reflexivity |].
  rewrite N.eqb_refl. apply IH.
Qed.

Lemma run_textI_mismatch (a p s : jsstring) (c : option jsstring) (k : cont) :
  mismatch a p = true -> run (textI p) (a ++ s) c k = None.
Proof.
  revert p. induction a as [|x a IH]; intros [|y p] H; try discriminate H.
  cbn [mismatch] in H. cbn [textI run chrI List.app].
  destruct (N.eqb (canonicalize x) (canonicalize y)); [| reflexivity].
  cbn [negb orb] in H. now apply IH.
Qed.

Lemma sectionRegex_needs_hash (name : jsstring) (x : N) (s : jsstring) :
  N.eqb x hashSign = false -> matchHere (sectionRegex name) (x :: s) = None.
Proof.
  intros Hx. unfold matchHere, sectionRegex.
  change (lit "## " ++ name) with (hashSign :: hashSign :: 32%N :: name).
  cbn [run textI chrI]. now rewrite canonicalize_hash, Hx.
Qed.

Lemma exec_skip (r : regex) (a s : jsstring) :
  Forall (fun x => forall t, matchHere r (x :: t) = None) a ->
  exec r (a ++ s) = exec r s.
Proof.
  induction 1 as [|x a Hx _ IH]; [reflexivity |].
  cbn [List.app exec]. rewrite Hx. exact IH.
Qed.

Lemma exec_skip_hashFree (name a s : jsstring) :
  hashFree a = true ->
  exec (sectionRegex name) (a ++ s) = exec (sectionRegex name) s.
Proof.
  intros Ha. apply exec_skip. apply List.Forall_forall. intros x Hx t.
  apply sectionRegex_needs_hash.
  unfold hashFree in Ha. rewrite forallb_forall in Ha.
  specialize (Ha x Hx). now destruct (N.eqb x hashSign).
Qed.

(** A heading with another name is passed over. *)
Lemma exec_skip_heading (name other s : jsstring) :
  mismatch other name = true -> hashFree other = true ->
  exec (sectionRegex name) ((lit "## " ++ other) ++ s)
  = exec (sectionRegex name) s.
Proof.
  intros Hm Hh.
  change (lit "## " ++ other) with (hashSign :: hashSign :: [32%N] ++ other).
  cbn [List.app].
  assert (H0 : matchHere (sectionRegex name)
                         (hashSign :: hashSign :: 32%N :: other ++ s) = None).
  { unfold matchHere, sectionRegex.
    change (lit "## " ++ name) with (hashSign :: hashSign :: 32%N :: name).
    cbn [run textI chrI]. rewrite !N.eqb_refl.
    now rewrite run_textI_mismatch. }
  assert (H1 : matchHere (sectionRegex name) (hashSign :: 32%N :: other ++ s) = None).
  { unfold matchHere, sectionRegex.
    change (lit "## " ++ name) with (hashSign :: hashSign :: 32%N :: name).
    cbn [run textI chrI]. rewrite !N.eqb_refl. reflexivity. }
  cbn [exec]. rewrite H0. cbn [exec]. rewrite H1.
  apply (exec_skip_hashFree name (32%N :: other) s).
  cbn [hashFree forallb]. exact Hh.
Qed.

(** The lazy body stops at the first [##]. *)
Lemma lazy_body_stops (whole body rest : jsstring) (c : option jsstring) :
  hashFree body = true ->
  star false any (body ++ lit "##" ++ rest)
       (fun s1 =>
          run (Ahead (Alt (text (lit "##")) EndInput)) s1
              (Some (firstn (List.length whole - List.length s1) whole))
              (fun s2 c2 => Some (s2, c2)))
  = Some (lit "##" ++ rest,
          Some (firstn (List.length whole - List.length (lit "##" ++ rest)) whole)).
Proof.
  intros Hb. induction body as [|x body IH].
  - change (lit "##" ++ rest) with (hashSign :: hashSign :: rest).
    cbn [List.app star any]. cbn [run]. 
    change (lit "##") with [hashSign; hashSign].
    cbn [text run chr]. rewrite !N.eqb_refl. reflexivity.
  - cbn [hashFree forallb] in Hb. apply andb_prop in Hb as [Hx Hb].
    cbn [List.app star any]. cbn [run].
    change (lit "##") with [hashSign; hashSign].
    cbn [text run chr].
    replace (N.eqb hashSign x) with false
      by (rewrite N.eqb_sym; now destruct (N.eqb x hashSign)).
    apply IH. exact Hb.
Qed.

Lemma exec_here (r : regex) (s : jsstring) (res : result) :
  matchHere r s = Some res -> exec r s = Some res.
Proof. intros H. destruct s; cbn [exec]; now rewrite H. Qed.

Lemma section_here (name body rest : jsstring) :
  hashFree body = true ->
  exec (sectionRegex name) ((lit "## " ++ name) ++ body ++ lit "##" ++ rest)
  = Some (lit "##" ++ rest, Some body).
Proof.
  intros Hb. apply exec_here. unfold matchHere, sectionRegex.
  cbn [run]. rewrite run_textI_app. cbn [rep].
  etransitivity;
    [exact (lazy_body_stops (body ++ lit "##" ++ rest) body rest None Hb) |].
  now rewrite firstn_consumed.
Qed.

(** In a text made of sections, the pattern of a section name finds the
    first section of that name and captures its body, when no [#] occurs
    outside the headings up to the end of that body. *)
Lemma section_found (name body pre : jsstring) (before after : list (jsstring * jsstring))
      (next : jsstring * jsstring) :
  hashFree pre = true ->
  Forall (fun s => mismatch (fst s) name = true
                   /\ hashFree (fst s) = true /\ hashFree (snd s) = true) before ->
  hashFree body = true ->
  match1 (sectionRegex name)
         (pre ++ sections (before ++ (name, body) :: next :: after))
  = Some body.
Proof.
  intros Hpre Hbefore Hbody. unfold match1.
  rewrite (exec_skip_hashFree name pre _ Hpre).
  induction Hbefore as [|[n b] before (Hm & Hn & Hb) _ IH].
  - destruct next as [nextName nextBody]. cbn [List.app sections].
    change (lit "## " ++ nextName) with (lit "##" ++ 32%N :: nextName).
    rewrite <- (List.app_assoc (lit "##")).
    now rewrite (section_here name body _ Hbody).
  - cbn [List.app sections fst snd] in *.
    rewrite (exec_skip_heading name n _ Hm Hn).
    rewrite (exec_skip_hashFree name b _ Hb).
    exact IH.
Qed.

(** *** The lines of a body *)

Lemma split_line (l t : jsstring) :
  oneLine l = true -> split newline (l ++ newline :: t) = l :: split newline t.
Proof.
  induction l as [|x l IH]; intros H.
  - cbn [List.app split]. now rewrite N.eqb_refl.
  - cbn [oneLine forallb] in H. apply andb_prop in H as [Hx Hl].
    cbn [List.app split]. destruct (N.eqb x newline); [discriminate Hx |].
    now rewrite (IH Hl).
Qed.

Lemma bulletItems_line (l t : jsstring) :
  oneLine l = true ->
  bulletItems (l ++ newline :: t)
  = (if startsWith (trim l) [bullet] then [trim (removeFirst [bullet] l)] else [])
      ++ bulletItems t.
Proof.
  intros H. unfold bulletItems. rewrite (split_line l t H).
  cbn [List.filter]. now destruct (startsWith (trim l) [bullet]).
Qed.

Lemma listItems_line (l t : jsstring) :
  oneLine l = true ->
  listItems (l ++ newline :: t)
  = (if startsWith (trim l) [bullet] || startsWith (trim l) [dash]
     then List.filter (fun line => negb (Nat.eqb (List.length line) 0))
                      [trim (removeAnchored Evaluator.bulletPrefix l)]
     else [])
      ++ listItems t.
Proof.
  intros H. unfold listItems. rewrite (split_line l t H).
  cbn [List.filter].
  destruct (startsWith (trim l) [bullet] || startsWith (trim l) [dash]);
    [| reflexivity].
  cbn [List.map List.filter].
  now destruct (negb (Nat.eqb (List.length _) 0)).
Qed.

Lemma trim_after_space (x : jsstring) : trim (32%N :: x) = trim x.
Proof. reflexivity. Qed.

Lemma bulleted_cons (x y : jsstring) (items : list jsstring) :
  bulleted (x :: y :: items) = (bullet :: 32%N :: x) ++ newline :: bulleted (y :: items).
Proof. reflexivity. Qed.

Lemma bulleted_one (x : jsstring) : bulleted [x] = bullet :: 32%N :: x.
Proof. reflexivity. Qed.

Lemma bulletItems_bulleted (items : list jsstring) (t : jsstring) :
  forallb oneLine items = true ->
  bulletItems (bulleted items ++ newline :: t) = List.map trim items ++ bulletItems t.
Proof.
  intros H. destruct items as [|x items].
  - exact (bulletItems_line [] t eq_refl).
  - revert x H. induction items as [|y items IH]; intros x H;
      cbn [forallb] in H; apply andb_prop in H as [Hx H].
    + rewrite bulleted_one.
      rewrite (bulletItems_line (bullet :: 32%N :: x) t) by exact Hx.
      rewrite (trim_starts_with bullet (32%N :: x) eq_refl).
      reflexivity.
    + rewrite bulleted_cons, <- List.app_assoc.
      change ((newline :: bulleted (y :: items)) ++ newline :: t)
        with (newline :: (bulleted (y :: items) ++ newline :: t)).
      rewrite (bulletItems_line (bullet :: 32%N :: x)) by exact Hx.
      rewrite (trim_starts_with bullet (32%N :: x) eq_refl).
      rewrite (IH y H). reflexivity.
Qed.

Lemma listItems_bulleted (items : list jsstring) (t : jsstring) :
  forallb oneLine items = true ->
  listItems (bulleted items ++ newline :: t)
  = List.filter (fun line => negb (Nat.eqb (List.length line) 0)) (List.map trim items)
      ++ listItems t.
Proof.
  assert (Hline : forall x t, oneLine x = true ->
                              listItems ((bullet :: 32%N :: x) ++ newline :: t)
                              = List.filter (fun line => negb (Nat.eqb (List.length line) 0))
                                            [trim x]
                                  ++ listItems t).
  { intros x t' Hx.
    rewrite (listItems_line (bullet :: 32%N :: x) t') by exact Hx.
    rewrite (trim_starts_with bullet (32%N :: x) eq_refl). cbn [orb].
    rewrite removeAnchored_bullet, trim_trimStart. reflexivity. }
  intros H. destruct items as [|x items].
  - exact (listItems_line [] t eq_refl).
  - revert x H. induction items as [|y items IH]; intros x H;
      cbn [forallb] in H; apply andb_prop in H as [Hx H].
    + rewrite bulleted_one. now rewrite Hline.
    + rewrite bulleted_cons, <- List.app_assoc.
      change ((newline :: bulleted (y :: items)) ++ newline :: t)
        with (newline :: (bulleted (y :: items) ++ newline :: t)).
      rewrite Hline by exact Hx. rewrite (IH y H).
      cbn [List.map List.filter].
      destruct (negb (Nat.eqb (List.length (trim x)) 0)); reflexivity.
Qed.

(** *** The description, section by section *)

Lemma criteriaDescription_sections (numberText : Z -> jsstring) (o : Issue)
      (a : Analyzer.Analysis) (ts : jsstring) :
  criteriaDescription numberText o a ts
  = criteriaOpening o ts ++ sections (criteriaSections numberText a).
Proof.
  unfold criteriaDescription, criteriaOpening, criteriaSections.
  cbn [sections]. cbv zeta.
  change (lit "## Functional Requirements")
    with (lit "## " ++ lit "Functional Requirements").
  change (lit "## Technical Requirements  ")
    with (lit "## " ++ lit "Technical Requirements" ++ lit "  ").
  change (lit "## Acceptance Criteria") with (lit "## " ++ lit "Acceptance Criteria").
  change (lit "## Validation Tests") with (lit "## " ++ lit "Validation Tests").
  change (lit "## Technical Approach") with (lit "## " ++ lit "Technical Approach").
  change (lit "## Definition of Done") with (lit "## " ++ lit "Definition of Done").
  change (lit "## Estimated Effort") with (lit "## " ++ lit "Estimated Effort").
  rewrite <- !List.app_assoc. rewrite List.app_nil_r. reflexivity.
Qed.

Lemma hashFree_join (sep : jsstring) (l : list jsstring) :
  hashFree sep = true -> forallb hashFree l = true -> hashFree (join sep l) = true.
Proof.
  intros Hsep. induction l as [|x l IH]; intros H; [reflexivity |].
  cbn [forallb] in H. apply andb_prop in H as [Hx Hl].
  destruct l as [|y l]; [exact Hx |].
  change (join sep (x :: y :: l)) with (x ++ sep ++ join sep (y :: l)).
  now rewrite !hashFree_app, Hx, Hsep, (IH Hl).
Qed.

Lemma hashFree_bulleted (items : list jsstring) :
  forallb hashFree items = true -> hashFree (bulleted items) = true.
Proof.
  intros H. unfold bulleted. apply hashFree_join; [reflexivity |].
  induction items as [|x items IH]; [reflexivity |].
  cbn [forallb] in H. apply andb_prop in H as [Hx Hl].
  cbn [List.map forallb]. rewrite (IH Hl), andb_true_r.
  change (lit " " ++ x) with (32%N :: x). exact Hx.
Qed.

Lemma forallb_app_true {A} (f : A -> bool) (l1 l2 : list A) :
  forallb f (l1 ++ l2) = true -> forallb f l1 = true /\ forallb f l2 = true.
Proof. rewrite forallb_app. apply andb_prop. Qed.

Ltac hash_free :=
  repeat first
    [ reflexivity
    | assumption
    | rewrite hashFree_app
    | apply andb_true_intro; split
    | apply hashFree_bulleted
    | apply hashFree_join ].

Section RoundTrip.

Variable numberText : Z -> jsstring.

(** What the five patterns capture in the description of a criteria
    issue. *)
Lemma criteria_bodies (o : Issue) (a : Analyzer.Analysis) (ts : jsstring) :
  forallb hashFree (plainTexts o a ts) = true ->
  let text := criteriaDescription numberText o a ts in
  let body := fun n => snd (nth n (criteriaSections numberText a) ([], [])) in
  match1 (sectionRegex (lit "Functional Requirements")) text = Some (body 0)
  /\ match1 (sectionRegex (lit "Technical Requirements")) text = Some (body 1)
  /\ match1 (sectionRegex (lit "Acceptance Criteria")) text = Some (body 2)
  /\ match1 (sectionRegex (lit "Validation Tests")) text = Some (body 3)
  /\ match1 (sectionRegex (lit "Definition of Done")) text = Some (body 5).
Proof.
  intros H text body. subst text body.
  rewrite criteriaDescription_sections.
  unfold plainTexts in H. cbv zeta in H.
  cbn [List.app forallb] in H.
  apply andb_prop in H as [Hkey H]. apply andb_prop in H as [Hsummary H].
  apply andb_prop in H as [Hts H]. apply andb_prop in H as [Harch H].
  apply forallb_app_true in H as [HF H]. apply forallb_app_true in H as [HT H].
  apply forallb_app_true in H as [HA H]. apply forallb_app_true in H as [HU H].
  apply forallb_app_true in H as [HI H]. apply forallb_app_true in H as [HC H].
  apply forallb_app_true in H as [HD HDoD].
  assert (Hopening : hashFree (criteriaOpening o ts) = true)
    by (unfold criteriaOpening; hash_free).
  unfold criteriaSections. cbv zeta. cbn [nth snd].
  repeat split.
  - apply (@section_found _ _ _ [] _ _ Hopening); [constructor | hash_free].
  - refine (@section_found _ _ _ [_] _ _ Hopening _ _); [| hash_free].
    repeat constructor; cbn [fst snd]; hash_free.
  - refine (@section_found _ _ _ [_; _] _ _ Hopening _ _); [| hash_free].
    repeat constructor; cbn [fst snd]; hash_free.
  - refine (@section_found _ _ _ [_; _; _] _ _ Hopening _ _); [| hash_free].
    repeat constructor; cbn [fst snd]; hash_free.
  - refine (@section_found _ _ _ [_; _; _; _; _] _ _ Hopening _ _); [| hash_free].
    repeat constructor; cbn [fst snd]; hash_free.
Qed.

Lemma extractSection_bulletItems (text name body : jsstring) :
  match1 (sectionRegex name) text = Some body ->
  extractSection text name = bulletItems body.
Proof. intros H. unfold extractSection. now rewrite H. Qed.

Lemma evaluator_extractSection_listItems (text name body : jsstring) :
  match1 (sectionRegex name) text = Some body ->
  Evaluator.extractSection text name = listItems body.
Proof. intros H. unfold Evaluator.extractSection. now rewrite H. Qed.

Lemma items_of_section (opening : jsstring) (items : list jsstring) :
  oneLine opening = true ->
  startsWith (trim opening) [bullet] = false ->
  forallb oneLine items = true ->
  bulletItems (opening ++ nl ++ bulleted items ++ nl ++ nl) = List.map trim items.
Proof.
  intros Ho Hb H.
  change (opening ++ nl ++ bulleted items ++ nl ++ nl)
    with (opening ++ newline :: (bulleted items ++ newline :: [newline])).
  rewrite (bulletItems_line _ _ Ho), Hb, (bulletItems_bulleted _ _ H).
  change (bulletItems [newline]) with (@nil jsstring).
  cbn [List.app]. apply List.app_nil_r.
Qed.

Lemma list_items_of_section (opening : jsstring) (items : list jsstring) :
  oneLine opening = true ->
  startsWith (trim opening) [bullet] || startsWith (trim opening) [dash] = false ->
  forallb oneLine items = true ->
  listItems (opening ++ nl ++ bulleted items ++ nl ++ nl)
  = List.filter (fun line => negb (Nat.eqb (List.length line) 0)) (List.map trim items).
Proof.
  intros Ho Hb H.
  change (opening ++ nl ++ bulleted items ++ nl ++ nl)
    with (opening ++ newline :: (bulleted items ++ newline :: [newline])).
  rewrite (listItems_line _ _ Ho), Hb, (listItems_bulleted _ _ H).
  change (listItems [newline]) with (@nil jsstring).
  cbn [List.app]. apply List.app_nil_r.
Qed.

(** X14.  The requirements written into a criteria issue are read back
    from it.  For a criteria issue whose description is the text that
    [createDeliverableCriteriaIssue] builds, [extractRequirementsFromCriteria]
    returns the lists of the analysis, each item trimmed, with the unit
    tests followed by the integration tests as validation tests, provided
    that no text spliced in before the end of the section
    [Definition of Done] contains [#] and that every listed item is one
    line. *)
Theorem criteria_issue_round_trip
        (o c : Issue) (a : Analyzer.Analysis) (ts : jsstring) :
  description (fields c) = Some (criteriaDescription numberText o a ts) ->
  forallb hashFree (plainTexts o a ts) = true ->
  forallb oneLine (listedItems a) = true ->
  let criteria := Analyzer.deliveryCriteria a in
  let validation := Analyzer.validationTests a in
  extractRequirementsFromCriteria c
  = {| functionalRequirements :=
         List.map trim (Analyzer.functionalRequirements criteria);
       technicalRequirements :=
         List.map trim (Analyzer.technicalRequirements criteria);
       acceptanceCriteria := List.map trim (Analyzer.acceptanceCriteria criteria);
       validationTests :=
         List.map trim (Analyzer.unitTests validation
                          ++ Analyzer.integrationTests validation);
       definitionOfDone := List.map trim (Analyzer.definitionOfDone criteria) |}.
Proof.
  intros Hc Hhash Hlines criteria validation.
  destruct (criteria_bodies o a ts Hhash) as (HF & HT & HA & HV & HD).
  unfold listedItems in Hlines. cbv zeta in Hlines.
  apply forallb_app_true in Hlines as [LF Hlines].
  apply forallb_app_true in Hlines as [LT Hlines].
  apply forallb_app_true in Hlines as [LA Hlines].
  apply forallb_app_true in Hlines as [LU Hlines].
  apply forallb_app_true in Hlines as [LI LD].
  unfold extractRequirementsFromCriteria. rewrite Hc. cbn [orEmpty].
  rewrite (extractSection_bulletItems _ _ HF), (extractSection_bulletItems _ _ HT),
    (extractSection_bulletItems _ _ HA), (extractSection_bulletItems _ _ HV),
    (extractSection_bulletItems _ _ HD).
  unfold criteriaSections. cbv zeta. cbn [nth snd].
  f_equal.
  - exact (items_of_section [] _ eq_refl eq_refl LF).
  - exact (items_of_section (lit "  ") _ eq_refl eq_refl LT).
  - exact (items_of_section [] _ eq_refl eq_refl LA).
  - change (nl ++ lit "**Unit Tests:**" ++ nl
               ++ bulleted (Analyzer.unitTests (Analyzer.validationTests a)) ++ nl ++ nl
               ++ lit "**Integration Tests:**" ++ nl
               ++ bulleted (Analyzer.integrationTests (Analyzer.validationTests a))
               ++ nl ++ nl)
      with ([] ++ newline
               :: (lit "**Unit Tests:**" ++ newline
                     :: (bulleted (Analyzer.unitTests (Analyzer.validationTests a))
                           ++ newline
                           :: ([] ++ newline
                                 :: (lit "**Integration Tests:**" ++ nl
                                       ++ bulleted (Analyzer.integrationTests
                                                      (Analyzer.validationTests a))
                                       ++ nl ++ nl))))).
    rewrite (bulletItems_line [] _ eq_refl).
    rewrite (bulletItems_line (lit "**Unit Tests:**") _ eq_refl).
    rewrite (bulletItems_bulleted _ _ LU).
    rewrite (bulletItems_line [] _ eq_refl).
    rewrite (items_of_section (lit "**Integration Tests:**") _ eq_refl eq_refl LI).
    subst validation. now rewrite List.map_app.
  - exact (items_of_section [] _ eq_refl eq_refl LD).
Qed.

(** X15.  The evaluator reads the same criteria issue with its own
    [extractSection]: for each of the five section names it returns the
    items of the analysis, trimmed, without those that are empty once
    trimmed. *)
Theorem evaluator_reads_the_criteria_issue
        (o : Issue) (a : Analyzer.Analysis) (ts : jsstring) :
  forallb hashFree (plainTexts o a ts) = true ->
  forallb oneLine (listedItems a) = true ->
  let text := criteriaDescription numberText o a ts in
  let criteria := Analyzer.deliveryCriteria a in
  let validation := Analyzer.validationTests a in
  let kept := fun items : list jsstring =>
                List.filter (fun line => negb (Nat.eqb (List.length line) 0))
                            (List.map trim items) in
  Evaluator.extractSection text (lit "Functional Requirements")
  = kept (Analyzer.functionalRequirements criteria)
  /\ Evaluator.extractSection text (lit "Technical Requirements")
     = kept (Analyzer.technicalRequirements criteria)
  /\ Evaluator.extractSection text (lit "Acceptance Criteria")
     = kept (Analyzer.acceptanceCriteria criteria)
  /\ Evaluator.extractSection text (lit "Validation Tests")
     = kept (Analyzer.unitTests validation ++ Analyzer.integrationTests validation)
  /\ Evaluator.extractSection text (lit "Definition of Done")
     = kept (Analyzer.definitionOfDone criteria).
Proof.
  intros Hhash Hlines text criteria validation kept.
  destruct (criteria_bodies o a ts Hhash) as (HF & HT & HA & HV & HD).
  unfold listedItems in Hlines. cbv zeta in Hlines.
  apply forallb_app_true in Hlines as [LF Hlines].
  apply forallb_app_true in Hlines as [LT Hlines].
  apply forallb_app_true in Hlines as [LA Hlines].
  apply forallb_app_true in Hlines as [LU Hlines].
  apply forallb_app_true in Hlines as [LI LD].
  subst text.
  rewrite (evaluator_extractSection_listItems _ _ HF),
    (evaluator_extractSection_listItems _ _ HT),
    (evaluator_extractSection_listItems _ _ HA),
    (evaluator_extractSection_listItems _ _ HV),
    (evaluator_extractSection_listItems _ _ HD).
  unfold criteriaSections. cbv zeta. cbn [nth snd].
  split; [exact (list_items_of_section [] _ eq_refl eq_refl LF) |].
  split; [exact (list_items_of_section (lit "  ") _ eq_refl eq_refl LT) |].
  split; [exact (list_items_of_section [] _ eq_refl eq_refl LA) |].
  split; [| exact (list_items_of_section [] _ eq_refl eq_refl LD)].
  change (nl ++ lit "**Unit Tests:**" ++ nl
             ++ bulleted (Analyzer.unitTests (Analyzer.validationTests a)) ++ nl ++ nl
             ++ lit "**Integration Tests:**" ++ nl
             ++ bulleted (Analyzer.integrationTests (Analyzer.validationTests a))
             ++ nl ++ nl)
    with ([] ++ newline
             :: (lit "**Unit Tests:**" ++ newline
                   :: (bulleted (Analyzer.unitTests (Analyzer.validationTests a))
                         ++ newline
                         :: ([] ++ newline
                               :: (lit "**Integration Tests:**" ++ nl
                                     ++ bulleted (Analyzer.integrationTests
                                                    (Analyzer.validationTests a))
                                     ++ nl ++ nl))))).
  rewrite (listItems_line [] _ eq_refl).
  rewrite (listItems_line (lit "**Unit Tests:**") _ eq_refl).
  rewrite (listItems_bulleted _ _ LU).
  rewrite (listItems_line [] _ eq_refl).
  rewrite (list_items_of_section (lit "**Integration Tests:**") _ eq_refl eq_refl LI).
  subst kept validation. cbn beta.
  now rewrite List.map_app, List.filter_app.
Qed.

End RoundTrip.

Lemma criteria_issue_round_trip_witness :
  extractRequirementsFromCriteria
    (createdIssue (lit "PCP1-68") (criteriaSummary originalIssue)
                  (criteriaDescription anyNumber originalIssue
                                       Analyzer.getFallbackAnalysis
                                       (lit "2025-01-01T00:00:00.000Z")))
  = {| functionalRequirements := [lit "Core functionality implemented as described"];
       technicalRequirements := [lit "Code follows project standards"];
       acceptanceCriteria := [lit "All functional requirements met"];
       validationTests := [lit "Test core functionality"; lit "Test system integration"];
       definitionOfDone := [lit "Code reviewed and deployed"] |}.
Proof.
  rewrite (@criteria_issue_round_trip
             anyNumber originalIssue
             (createdIssue (lit "PCP1-68") (criteriaSummary originalIssue)
                           (criteriaDescription anyNumber originalIssue
                                                Analyzer.getFallbackAnalysis
                                                (lit "2025-01-01T00:00:00.000Z")))
             Analyzer.getFallbackAnalysis
             (lit "2025-01-01T00:00:00.000Z") eq_refl eq_refl eq_refl).
  reflexivity.
Defined.

Lemma evaluator_reads_the_criteria_issue_witness :
  Evaluator.extractSection
    (criteriaDescription anyNumber originalIssue Analyzer.getFallbackAnalysis
                         (lit "2025-01-01T00:00:00.000Z"))
    (lit "Validation Tests")
  = [lit "Test core functionality"; lit "Test system integration"].
Proof.
  destruct (@evaluator_reads_the_criteria_issue
              anyNumber originalIssue Analyzer.getFallbackAnalysis
              (lit "2025-01-01T00:00:00.000Z") eq_refl eq_refl)
    as (_ & _ & _ & H & _).
  rewrite H. reflexivity.
Defined.

(** ** The processor and the issues it has written *)

Lemma startsWith_app (m b : jsstring) : startsWith (m ++ b) m = true.
Proof.
  induction m as [|x m IH]; [reflexivity |].
  cbn [List.app startsWith]. now rewrite N.eqb_refl.
Qed.

Lemma includes_here (a m b : jsstring) : includes (a ++ m ++ b) m = true.
Proof.
  induction a as [|x a IH].
  - cbn [List.app]. destruct (m ++ b) eqn:E; cbn [includes]; rewrite <- E;
      now rewrite startsWith_app.
  - cbn [List.app includes]. rewrite IH. apply orb_true_r.
Qed.

Lemma includes_skip (a t m : jsstring) :
  includes t m = true -> includes (a ++ t) m = true.
Proof.
  intros H. induction a as [|x a IH]; [exact H |].
  cbn [List.app includes]. rewrite IH. apply orb_true_r.
Qed.

Section OwnIssues.

Variable numberText : Z -> jsstring.
Variable generateImplementationSummary : jsstring -> ImplementationResult -> jsstring.
Variable generateConfigFile : jsstring -> Implementation -> jsstring.
Variable processInitialInquiry : WebhookPayload -> M Outcome.
Variable processTestingCriteria : WebhookPayload -> M Outcome.
Variable this : Instance.

(** X16.  The processor does not analyse the criteria issues it creates.
    An issue that carries the summary and the description written by
    [createDeliverableCriteriaIssue] passes [validateClaudeGeneratedCriteria]
    and is never classified as an initial inquiry; and as long as its
    status is none of the four actionable ones, as when the tracker
    announces its creation, [processWebhook] ignores the event without any
    external call. *)
Theorem own_criteria_issue_is_not_analysed
        (p : WebhookPayload) (o c : Issue) (a : Analyzer.Analysis) (ts : jsstring)
        (env : Env) (w : World) :
  issue p = Some c ->
  summary (fields c) = Some (criteriaSummary o) ->
  description (fields c) = Some (criteriaDescription numberText o a ts) ->
  validateClaudeGeneratedCriteria c = true
  /\ classifyIssue c <> initial_inquiry
  /\ (arrayIncludes actionableStatuses (status (fields c)) = false ->
      exists reason,
        processWebhook generateImplementationSummary generateConfigFile
                       processInitialInquiry processTestingCriteria this p env w
        = (Returned (Ignored reason), w)).
Proof.
  intros Hp Hs Hd.
  assert (Hmarker : includes (orEmpty (summary (fields c))) criteriaMarker = true).
  { rewrite Hs. cbn [orEmpty]. unfold criteriaSummary.
    change (lit "Deliverable Criteria: ") with ([] ++ criteriaMarker ++ lit " ").
    rewrite <- !List.app_assoc. apply includes_here. }
  assert (Hgenerated : includes (orEmpty (description (fields c))) generatedMarker = true).
  { rewrite Hd. cbn [orEmpty]. unfold criteriaDescription. cbv zeta.
    change (lit "*Generated by Claude Automation System*") with generatedMarker.
    repeat match goal with
           | |- includes (generatedMarker ++ ?b) _ = true =>
               exact (includes_here [] generatedMarker b)
           | |- includes (?x ++ ?t) ?m = true => apply (includes_skip x t m)
           end. }
  split; [| split].
  - unfold validateClaudeGeneratedCriteria. now rewrite Hmarker, Hgenerated.
  - unfold classifyIssue.
    rewrite (hasClaudeMarkers_criteria _ _ Hmarker), Hmarker. cbn [negb].
    destruct (streq _ _); [discriminate |].
    destruct (isReadyForImplementation c); discriminate.
  - intros Hstatus. unfold processWebhook, tryCatch.
    destruct (isValidWebhookEvent p); cbn [negb]; [| eexists; reflexivity].
    unfold classifyIssueType. rewrite Hp. unfold classifyIssue.
    rewrite (hasClaudeMarkers_criteria _ _ Hmarker), Hmarker. cbn [negb].
    unfold actionableStatuses, arrayIncludes in Hstatus.
    cbn [existsb] in Hstatus.
    repeat (apply orb_false_elim in Hstatus as [? Hstatus]).
    unfold isReadyForImplementation, readyStatuses, arrayIncludes.
    cbn [existsb].
    repeat match goal with
           | H : streq _ _ = false |- _ => rewrite H; clear H
           end.
    cbn [orb]. eexists; reflexivity.
Qed.

End OwnIssues.

Lemma own_criteria_issue_is_not_analysed_witness :
  exists reason,
    processWebhook
      noSummary noConfig idleHandler idleHandler JiraWebhookProcessor
      (createdEvent fallbackCriteriaIssue) calm (worldOf bothIssues)
    = (Returned (Ignored reason), worldOf bothIssues).
Proof.
  refine (proj2 (proj2 (@own_criteria_issue_is_not_analysed
                          anyNumber noSummary noConfig idleHandler idleHandler
                          JiraWebhookProcessor (createdEvent fallbackCriteriaIssue)
                          originalIssue fallbackCriteriaIssue
                          Analyzer.getFallbackAnalysis
                          (lit "2025-01-01T00:00:00.000Z")
                          calm (worldOf bothIssues) eq_refl eq_refl eq_refl))
                _).
  reflexivity.
Defined.

(** ** The key of the original issue, written and read back *)

Lemma exec_fail_step (r : regex) (x : N) (s : jsstring) :
  matchHere r (x :: s) = None -> exec r (x :: s) = exec r s.
Proof. intros H. cbn [exec]. now rewrite H. Qed.

(** A greedy run over a class takes the whole run when what follows can
    be matched from its end. *)
Lemma star_greedy (p : N -> bool) (d : jsstring) (x : N) (t : jsstring)
      (k : jsstring -> option result) (r : result) :
  forallb p d = true -> p x = false -> k (x :: t) = Some r ->
  star true p (d ++ x :: t) k = Some r.
Proof.
  intros Hd Hx Hk. induction d as [|y d IH].
  - cbn [List.app star]. now rewrite Hx.
  - cbn [forallb] in Hd. apply andb_prop in Hd as [Hy Hd].
    cbn [List.app star]. now rewrite Hy, (IH Hd).
Qed.

Lemma rep_greedy (p : N -> bool) (n : nat) (d : jsstring) (x : N) (t : jsstring)
      (k : jsstring -> option result) (r : result) :
  forallb p d = true -> n <= List.length d -> p x = false -> k (x :: t) = Some r ->
  rep true n p (d ++ x :: t) k = Some r.
Proof.
  revert d. induction n as [|n IH]; intros d Hd Hn Hx Hk.
  - now apply star_greedy.
  - destruct d as [|y d]; [cbn in Hn; lia |].
    cbn [forallb] in Hd. apply andb_prop in Hd as [Hy Hd].
    cbn [List.app rep]. rewrite Hy. apply IH; [exact Hd | cbn in Hn; lia | exact Hx | exact Hk].
Qed.

Lemma project_key_here (d rest : jsstring) (x : N) :
  forallb isDigit d = true -> 1 <= List.length d -> isDigit x = false ->
  matchHere projectSpecificPattern (lit "PCP1-" ++ d ++ x :: rest)
  = Some (x :: rest, Some (lit "PCP1-" ++ d)).
Proof.
  intros Hd Hn Hx. unfold matchHere, projectSpecificPattern.
  cbn [run]. rewrite run_text_app.
  rewrite (@rep_greedy isDigit 1 d x rest _
                      (x :: rest,
                       Some (firstn (List.length (lit "PCP1-" ++ d ++ x :: rest)
                                     - List.length (x :: rest))
                                    (lit "PCP1-" ++ d ++ x :: rest)))
                      Hd Hn Hx eq_refl).
  rewrite (List.app_assoc (lit "PCP1-") d (x :: rest)).
  now rewrite firstn_consumed.
Qed.

Lemma generic_key_here (u d rest : jsstring) (x : N) :
  forallb isUpper u = true -> 2 <= List.length u ->
  forallb isDigit d = true -> 1 <= List.length d -> isDigit x = false ->
  matchHere genericPattern (u ++ dash :: d ++ x :: rest)
  = Some (x :: rest, Some (u ++ dash :: d)).
Proof.
  intros Hu Hnu Hd Hnd Hx. unfold matchHere, genericPattern.
  cbn [run].
  rewrite (@rep_greedy isUpper 2 u dash (d ++ x :: rest) _
                      (x :: rest,
                       Some (firstn (List.length (u ++ dash :: d ++ x :: rest)
                                     - List.length (x :: rest))
                                    (u ++ dash :: d ++ x :: rest)))
                      Hu Hnu eq_refl).
  - change (u ++ dash :: d ++ x :: rest) with (u ++ (dash :: d) ++ x :: rest).
    rewrite (List.app_assoc u (dash :: d) (x :: rest)).
    now rewrite firstn_consumed.
  - cbn [chr run]. rewrite N.eqb_refl.
    exact (@rep_greedy isDigit 1 d x rest _ _ Hd Hnd Hx eq_refl).
Qed.

Lemma criteriaSummary_project_prefix (rest : jsstring) :
  exec projectSpecificPattern (lit "Deliverable Criteria: " ++ rest)
  = exec projectSpecificPattern rest.
Proof. apply exec_skip. repeat constructor. Qed.

Lemma criteriaSummary_generic_prefix (x : N) (rest : jsstring) :
  exec genericPattern (lit "Deliverable Criteria: " ++ x :: rest)
  = exec genericPattern (x :: rest).
Proof.
  change (lit "Deliverable Criteria: ")
    with (List.map N_of_ascii (list_ascii_of_string "Deliverable Criteria: ")).
  cbn [list_ascii_of_string List.map List.app].
  repeat (rewrite exec_fail_step by reflexivity).
  reflexivity.
Qed.

(** X17.  The key of the original issue is read back from the summary of
    the criteria issue.  For an original issue whose key is a head, a dash
    and digits, [extractOriginalIssueKey] applied to the summary written
    by [createDeliverableCriteriaIssue] returns that key, whatever the
    description, when the head is [PCP1]; and when the head is two or
    more upper-case letters, provided that the project-specific pattern
    finds no [PCP1-] key in that summary (it is tried first, and the
    summary quotes the summary of the original issue). *)
Theorem original_key_round_trip
        (o : Issue) (u d : jsstring) (description : option jsstring) :
  key o = Some (u ++ dash :: d) ->
  forallb isDigit d = true ->
  1 <= List.length d ->
  u = lit "PCP1"
  \/ (forallb isUpper u = true /\ 2 <= List.length u
      /\ match1 projectSpecificPattern (criteriaSummary o) = None) ->
  extractOriginalIssueKey (Some (criteriaSummary o)) description
  = Some (u ++ dash :: d).
Proof.
  intros Hkey Hd Hn Hu.
  unfold extractOriginalIssueKey.
  change (truthy (Some (criteriaSummary o))) with true. cbn [orEmpty].
  destruct Hu as [-> | (Hu & Hnu & Hnone)].
  - unfold match1, criteriaSummary. rewrite Hkey. cbn [keyText].
    rewrite criteriaSummary_project_prefix.
    change (lit "PCP1" ++ dash :: d) with (lit "PCP1-" ++ d).
    rewrite <- List.app_assoc.
    change (lit " - " ++ keyText (summary (fields o)))
      with (32%N :: lit "- " ++ keyText (summary (fields o))).
    rewrite (exec_here _ _ (project_key_here d _ 32%N Hd Hn eq_refl)).
    reflexivity.
  - rewrite Hnone.
    unfold match1, criteriaSummary. rewrite Hkey. cbn [keyText].
    destruct u as [|c u]; [cbn in Hnu; lia |].
    rewrite <- List.app_assoc. cbn [List.app].
    rewrite criteriaSummary_generic_prefix.
    change (c :: u ++ dash :: d ++ lit " - " ++ keyText (summary (fields o)))
      with ((c :: u) ++ dash :: d ++ 32%N :: lit "- " ++ keyText (summary (fields o))).
    rewrite (exec_here _ _ (generic_key_here (c :: u) d _ 32%N Hu Hnu Hd Hn eq_refl)).
    reflexivity.
Qed.

Lemma original_key_round_trip_witness :
  extractOriginalIssueKey (Some (criteriaSummary originalIssue)) None
  = Some (lit "PCP1-67").
Proof.
  apply (@original_key_round_trip originalIssue (lit "PCP1") (lit "67") None).
  - reflexivity.
  - reflexivity.
  - cbn. lia.
  - left. reflexivity.
Defined.

(** ** The initial inquiry *)

Lemma hasClaudeMarkers_touched (summary description : jsstring) :
  includes description (lit "*Touched by Claude*") = true ->
  hasClaudeMarkers summary description = true.
Proof.
  intros H. unfold hasClaudeMarkers. apply existsb_exists.
  exists (lit "*Touched by Claude*"). split.
  - unfold claudeMarkers. right. left. reflexivity.
  - rewrite H. apply orb_true_r.
Qed.

Section Inquiry.

Variable numberText : Z -> jsstring.
Variable analyzeRequirements : Issue -> M Analyzer.Analysis.
Variable createIssue : jsstring -> jsstring -> jsstring -> jsstring -> M Issue.
Variable linkIssues : option jsstring -> option jsstring -> jsstring -> M unit.

Lemma claudeMarker_is_a_marker (old : jsstring) (a : Analyzer.Analysis) (ts : jsstring) :
  includes (old ++ claudeMarker numberText a ts) (lit "*Touched by Claude*") = true.
Proof.
  unfold claudeMarker.
  change (lit "*Touched by Claude* - Requirements analyzed on ")
    with (lit "*Touched by Claude*" ++ lit " - Requirements analyzed on ").
  rewrite <- (List.app_assoc (lit "*Touched by Claude*")).
  repeat match goal with
         | |- includes (lit "*Touched by Claude*" ++ ?b) _ = true =>
             exact (includes_here [] (lit "*Touched by Claude*") b)
         | |- includes (?x ++ ?t) ?m = true => apply (includes_skip x t m)
         end.
Qed.

(** The issue as the tracker holds it after the marking. *)
Lemma marked_is_not_an_inquiry (i : Issue) (a : Analyzer.Analysis) (ts : jsstring) :
  classifyIssue
    (applyUpdate {| setSummary := None;
                    setDescription :=
                      Some (orEmpty (description (fields i))
                              ++ claudeMarker numberText a ts);
                    setLabels := None |} i)
  <> initial_inquiry.
Proof.
  unfold classifyIssue, applyUpdate.
  cbn [fields summary description status setSummary setDescription orEmpty].
  rewrite (hasClaudeMarkers_touched _ _ (claudeMarker_is_a_marker _ a ts)).
  cbn [negb]. destruct (includes _ criteriaMarker); [| discriminate].
  destruct (streq _ _); [discriminate |].
  destruct (isReadyForImplementation _); discriminate.
Qed.

(** X18.  [markIssueAsTouchedByClaude] either marks the issue or changes
    nothing.  When it returns, the tracker held the issue, and now holds
    it with the marker text appended to its description and every other
    field as before, all other issues being untouched; the issue so
    marked is no longer classified as an initial inquiry.  When it
    throws, the tracker is as it was. *)
Theorem markIssueAsTouchedByClaude_marks_or_changes_nothing
        (issueKey : jsstring) (a : Analyzer.Analysis) (ts : jsstring)
        (env : Env) (w : World) :
  let run := markIssueAsTouchedByClaude numberText issueKey a ts env w in
  match fst run with
  | Returned _ =>
      exists i,
        tracker w !! issueKey = Some i
        /\ let marked :=
             applyUpdate {| setSummary := None;
                            setDescription :=
                              Some (orEmpty (description (fields i))
                                      ++ claudeMarker numberText a ts);
                            setLabels := None |} i in
           tracker (snd run) = <[issueKey := marked]> (tracker w)
           /\ summary (fields marked) = summary (fields i)
           /\ labels (fields marked) = labels (fields i)
           /\ status (fields marked) = status (fields i)
           /\ classifyIssue marked <> initial_inquiry
  | Threw _ => tracker (snd run) = tracker w
  end.
Proof.
  cbv zeta.
  cbv beta delta [markIssueAsTouchedByClaude tryCatch bind JiraApi.getIssue
                    JiraApi.updateIssue external readTracker writeTracker ret throw].
  destruct (fault env (List.length (log w)) (GetIssue issueKey)); [reflexivity |].
  cbn [logged tracker log].
  destruct (tracker w !! issueKey) as [i|] eqn:Hi; [| reflexivity].
  match goal with
  | |- context [fault env ?n ?c] => destruct (fault env n c)
  end; [reflexivity |].
  cbn [logged tracker log fst snd]. rewrite Hi. cbn [fst snd tracker].
  exists i. split; [reflexivity |]. cbv zeta.
  repeat split. apply marked_is_not_an_inquiry.
Qed.

Lemma markIssueAsTouchedByClaude_run
      (issueKey : jsstring) (a : Analyzer.Analysis) (ts : jsstring) (i : Issue)
      (env : Env) (w : World) :
  (forall n c, fault env n c = None) ->
  tracker w !! issueKey = Some i ->
  let update :=
    {| setSummary := None;
       setDescription :=
         Some (orEmpty (description (fields i)) ++ claudeMarker numberText a ts);
       setLabels := None |} in
  markIssueAsTouchedByClaude numberText issueKey a ts env w
  = (Returned tt,
     {| tracker := <[issueKey := applyUpdate update i]> (tracker w);
        log := log w ++ [GetIssue issueKey; UpdateIssue issueKey update] |}).
Proof.
  intros Hf Hi update.
  unfold markIssueAsTouchedByClaude, tryCatch, bind.
  rewrite (getIssue_ok issueKey env w (Hf _ _) Hi).
  fold update.
  rewrite (updateIssue_ok issueKey update env (logged (GetIssue issueKey) w)
                          (Hf _ _) Hi).
  cbn [logged tracker log]. now rewrite <- List.app_assoc.
Qed.

Lemma tryCatch_run {A} (m : M A) (h : Exn -> M A) (env : Env) (w : World) :
  tryCatch m h env w
  = match m env w with
    | (Returned a, w') => (Returned a, w')
    | (Threw e, w') => h e env w'
    end.
Proof. reflexivity. Qed.

(** The [catch] block of [processInitialInquiry]. *)
Lemma inquiry_catch_run {A} (i : Issue) (e : Exn) (env : Env) (w : World) :
  (tryCatch
     (JiraApi.addComment (keyText (key i)) (analysisFailedComment (message e)))
     (fun _ => ret tt) ;;
   @throw A e) env w
  = (Threw e,
     logged (AddComment (keyText (key i)) (analysisFailedComment (message e))) w).
Proof.
  unfold bind, tryCatch. rewrite addComment_run.
  now destruct (fault env _ _).
Qed.

(** X19.  [processInitialInquiry] reports a failure and passes it on.  A
    run either returns the result for the issue of the payload, or throws
    the very error that stopped it; in that case its last call is the one
    comment on the issue that quotes this error, and a failure of that
    comment changes nothing: it is not the comment's error that is
    thrown. *)
Theorem inquiry_errors_are_passed_on
        (p : WebhookPayload) (i : Issue) (markedAt createdAt : jsstring)
        (env : Env) (w : World) :
  issue p = Some i ->
  let run :=
    processInitialInquiry numberText analyzeRequirements createIssue linkIssues
                          p markedAt createdAt env w in
  match fst run with
  | Returned r => inquiry_originalIssue r = key i
  | Threw e =>
      exists w0,
        snd run
        = logged (AddComment (keyText (key i)) (analysisFailedComment (message e))) w0
  end.
Proof.
  intros Hi run. subst run. unfold processInitialInquiry. rewrite Hi.
  match goal with
  | |- context [tryCatch ?b ?h env w] =>
      rewrite (tryCatch_run b h env w);
      destruct (b env w) as [[r | e] w1] eqn:E
  end.
  - cbn [fst].
    repeat match goal with
           | H : bind _ _ _ _ = (Returned _, _) |- _ =>
               let H1 := fresh "Step" in
               apply bind_returned in H as [? [? [H1 H]]]
           end.
    unfold ret in E. now injection E as <- _.
  - rewrite inquiry_catch_run. cbn [fst snd]. eauto.
Qed.

(** X20.  A failure after the marking leaves the issue marked.  When the
    analysis has succeeded, the tracker accepts the marking, and the
    creation of the criteria issue then fails without touching the
    tracker, [processInitialInquiry] throws the creation error after
    commenting on the issue; the tracker keeps the issue with the marker
    in its description, so the issue is no longer classified as an
    initial inquiry: the analysis will not be tried again for it. *)
Theorem failed_creation_leaves_the_mark
        (p : WebhookPayload) (i stored : Issue) (k markedAt createdAt : jsstring)
        (a : Analyzer.Analysis) (e : Exn) (env : Env) (w w1 w3 : World) :
  let update :=
    {| setSummary := None;
       setDescription :=
         Some (orEmpty (description (fields stored))
                 ++ claudeMarker numberText a markedAt);
       setLabels := None |} in
  let marked := applyUpdate update stored in
  let w2 := {| tracker := <[k := marked]> (tracker w1);
               log := log w1 ++ [GetIssue k; UpdateIssue k update] |} in
  issue p = Some i ->
  key i = Some k ->
  (forall n c, fault env n c = None) ->
  analyzeRequirements i env w = (Returned a, w1) ->
  tracker w1 !! k = Some stored ->
  createIssue (hd [] (split dash k)) (lit "Task") (criteriaSummary i)
              (criteriaDescription numberText i a createdAt) env w2
  = (Threw e, w3) ->
  tracker w3 = tracker w2 ->
  let run :=
    processInitialInquiry numberText analyzeRequirements createIssue linkIssues
                          p markedAt createdAt env w in
  run = (Threw e, logged (AddComment k (analysisFailedComment (message e))) w3)
  /\ tracker (snd run) !! k = Some marked
  /\ classifyIssueType {| webhookEvent := Some (lit "jira:issue_updated");
                          issue := tracker (snd run) !! k;
                          changelog := None |}
     <> Returned initial_inquiry.
Proof.
  intros update marked w2 Hi Hk Hf Ha Hstored Hcreate Htracker run.
  assert (Hrun : run = (Threw e,
                        logged (AddComment k (analysisFailedComment (message e))) w3)).
  { subst run. unfold processInitialInquiry. rewrite Hi.
    unfold tryCatch at 1, bind at 1. rewrite Ha. rewrite Hk. cbn [keyText].
    unfold bind at 1.
    rewrite (markIssueAsTouchedByClaude_run k a markedAt env w1 Hf Hstored).
    fold update. fold marked. fold w2.
    rewrite ret_bind. unfold bind at 1.
    unfold createDeliverableCriteriaIssue. rewrite Hk.
    unfold tryCatch at 1. rewrite Hcreate. unfold throw at 1.
    pose proof (@inquiry_catch_run InquiryResult i e env w3) as Hcatch.
    rewrite Hk in Hcatch. cbn [keyText] in Hcatch. exact Hcatch. }
  assert (Hkept : tracker (snd run) !! k = Some marked).
  { rewrite Hrun. cbn [snd logged tracker]. rewrite Htracker. subst w2.
    cbn [tracker]. apply lookup_insert_eq. }
  split; [exact Hrun |]. split; [exact Hkept |].
  unfold classifyIssueType. cbn [issue]. rewrite Hkept.
  intros H. injection H as H. revert H. apply marked_is_not_an_inquiry.
Qed.

End Inquiry.

Lemma inquiry_errors_are_passed_on_witness :
  exists w0,
    snd (processInitialInquiry anyNumber fallbackAnalyzer noCreateIssue anyLink
                               (createdEvent originalIssue)
                               (lit "2025-01-01T00:00:00.000Z")
                               (lit "2025-01-01T00:00:01.000Z")
                               trackerDown (worldOf bothIssues))
    = logged (AddComment
                (lit "PCP1-67")
                (analysisFailedComment (lit "Failed to fetch issue PCP1-67: 503")))
             w0.
Proof.
  exact (@inquiry_errors_are_passed_on
           anyNumber fallbackAnalyzer noCreateIssue anyLink
           (createdEvent originalIssue) originalIssue
           (lit "2025-01-01T00:00:00.000Z") (lit "2025-01-01T00:00:01.000Z")
           trackerDown (worldOf bothIssues) eq_refl).
Defined.

Lemma failed_creation_leaves_the_mark_witness :
  fst (processInitialInquiry anyNumber fallbackAnalyzer noCreateIssue anyLink
                             (createdEvent originalIssue)
                             (lit "2025-01-01T00:00:00.000Z")
                             (lit "2025-01-01T00:00:01.000Z")
                             calm (worldOf bothIssues))
  = Threw (Error (lit "Failed to create issue: 400 - ")).
Proof.
  set (update :=
         {| setSummary := None;
            setDescription :=
              Some (orEmpty (description (fields originalIssue))
                      ++ claudeMarker anyNumber Analyzer.getFallbackAnalysis
                                      (lit "2025-01-01T00:00:00.000Z"));
            setLabels := None |}).
  set (w2 := {| tracker := <[lit "PCP1-67" := applyUpdate update originalIssue]>
                             bothIssues;
                log := [GetIssue (lit "PCP1-67");
                        UpdateIssue (lit "PCP1-67") update] |}).
  destruct (@failed_creation_leaves_the_mark
              anyNumber fallbackAnalyzer noCreateIssue anyLink
              (createdEvent originalIssue) originalIssue originalIssue
              (lit "PCP1-67")
              (lit "2025-01-01T00:00:00.000Z") (lit "2025-01-01T00:00:01.000Z")
              Analyzer.getFallbackAnalysis
              (Error (lit "Failed to create issue: 400 - "))
              calm (worldOf bothIssues) (worldOf bothIssues) w2)
    as [E _]; [.. | rewrite E; reflexivity].
  - reflexivity.
  - reflexivity.
  - reflexivity.
  - reflexivity.
  - reflexivity.
  - reflexivity.
  - reflexivity.
Defined.

(** ** Written by one phase, loaded by the next *)

Lemma arrayIncludes_app (l1 l2 : list jsstring) (x : jsstring) :
  arrayIncludes (l1 ++ l2) x = arrayIncludes l1 x || arrayIncludes l2 x.
Proof. apply List.existsb_app. Qed.

Lemma arrayIncludes_true_In (l : list jsstring) (x : jsstring) :
  arrayIncludes l x = true <-> In x l.
Proof.
  unfold arrayIncludes. rewrite existsb_exists. split.
  - intros [y [Hy E]]. apply streq_eq in E. now subst.
  - intros H. exists x. split; [exact H | apply streq_refl].
Qed.

(** Whatever the listing, the loader reads one of its five names. *)
Lemma loadedPrimaryFile_is_a_loader_name (listing : list jsstring) :
  In (loadedPrimaryFile listing) loaderNames.
Proof.
  unfold loadedPrimaryFile, loadedImplementationType.
  repeat match goal with
         | |- context [if ?b then _ else _] => destruct b
         end; vm_compute; tauto.
Qed.

Section Loading.

Variable generateImplementationSummary : jsstring -> ImplementationResult -> jsstring.
Variable generateConfigFile : jsstring -> Implementation -> jsstring.

(** The loader's detection applied to the files that one run reports,
    for an implementation none of whose supporting files bears a name the
    loader looks for. *)
Lemma loader_on_the_written_files
        (originalKey : jsstring) (r : ImplementationResult) (env : Env) (w w' : World)
        (a : ArtifactsResult) :
  createImplementationArtifacts generateImplementationSummary generateConfigFile
                                originalKey r env w = (Returned a, w') ->
  plainSupportingFiles r = true ->
  let type := impl_type (implementation r) in
  (arrayIncludes knownTypes type = true ->
   loadedImplementationType (files a) = type
   /\ loadedPrimaryFile (files a) = getPrimaryFileName type
   /\ In (loadedPrimaryFile (files a)) (files a))
  /\ (type = lit "other" ->
      loadedImplementationType (files a) = lit "other"
      /\ loadedPrimaryFile (files a) = lit "implementation.txt"
      /\ getPrimaryFileName type = lit "deliverable.txt"
      /\ ~ In (loadedPrimaryFile (files a)) (files a))
  /\ (arrayIncludes (lit "other" :: knownTypes) type = false ->
      loadedImplementationType (files a) = lit "other"
      /\ loadedPrimaryFile (files a) = getPrimaryFileName type
      /\ In (loadedPrimaryFile (files a)) (files a)).
Proof.
  intros Hrun Hplain type.
  destruct (@createImplementationArtifacts_returned _ _ _ _ _ _ _ _ Hrun)
    as (_ & _ & Hfiles & _).
  fold type in Hfiles.
  unfold plainSupportingFiles, loaderNames in Hplain. cbn [forallb] in Hplain.
  repeat (apply andb_prop in Hplain as [? Hplain]).
  repeat match goal with
         | H : negb _ = true |- _ => apply negb_true_iff in H
         end.
  assert (Hin : forall name,
             arrayIncludes (files a) name
             = streq name (getPrimaryFileName type)
               || arrayIncludes (List.map fst (supportingFiles (implementation r))) name
               || arrayIncludes
                    ((if truthy (tests r) then [getValidationFileName type] else [])
                       ++ (if truthy (documentation r) then [lit "README.md"] else [])
                       ++ [lit "implementation-summary.md"]
                       ++ (if shouldCreateConfigFile type
                           then [getConfigFileName type] else []))
                    name).
  { intros name. rewrite Hfiles. unfold arrayIncludes.
    cbn [List.app existsb]. rewrite List.existsb_app.
    now rewrite orb_assoc. }
  assert (Hthere : In (getPrimaryFileName type) (files a)).
  { rewrite Hfiles. left. reflexivity. }
  split; [| split].
  - intros Hknown. unfold knownTypes, arrayIncludes in Hknown. cbn [existsb] in Hknown.
    rewrite orb_false_r in Hknown.
    assert (Hcases : type = lit "code" \/ type = lit "documentation"
                     \/ type = lit "analysis" \/ type = lit "process").
    { repeat (apply orb_prop in Hknown as [Hknown | Hknown]);
        apply streq_eq in Hknown; auto. }
    unfold loadedPrimaryFile, loadedImplementationType. rewrite !Hin.
    destruct Hcases as [E | [E | [E | E]]]; rewrite E in *;
      repeat match goal with
             | H : arrayIncludes _ _ = false |- _ => rewrite H; clear H
             end;
      destruct (truthy (tests r)), (truthy (documentation r));
      (split; [reflexivity | split; [reflexivity | exact Hthere]]).
  - intros E.
    assert (Hnone : forall name, In name loaderNames ->
                                 arrayIncludes (files a) name = false).
    { intros name Hname. rewrite Hin, E.
      destruct (truthy (tests r)), (truthy (documentation r));
        (destruct Hname as [<- | [<- | [<- | [<- | [<- | []]]]]];
         match goal with
         | H : arrayIncludes _ ?n = false |- context [arrayIncludes _ ?n] =>
             rewrite H
         end; reflexivity). }
    assert (Htype : loadedImplementationType (files a) = lit "other").
    { unfold loadedImplementationType.
      rewrite !Hnone by (unfold loaderNames; cbn; tauto). reflexivity. }
    unfold loadedPrimaryFile. rewrite Htype, E.
    split; [reflexivity |]. split; [reflexivity |]. split; [reflexivity |].
    intros Hin'. apply arrayIncludes_true_In in Hin'.
    rewrite Hnone in Hin'; [discriminate |].
    unfold loaderNames. cbn. tauto.
  - intros Hunknown. unfold knownTypes, arrayIncludes in Hunknown.
    cbn [existsb] in Hunknown.
    repeat (apply orb_false_elim in Hunknown as [? Hunknown]).
    assert (Hprimary : getPrimaryFileName type = lit "implementation.txt").
    { unfold getPrimaryFileName. cbn [lookupOr].
      repeat match goal with
             | H : streq type _ = false |- _ => rewrite H; clear H
             end.
      reflexivity. }
    assert (Hrest : forall name,
               In name [lit "solution.js"; lit "document.md"; lit "analysis.md";
                        lit "process.md"] ->
               arrayIncludes (files a) name = false).
    { intros name Hname. rewrite Hin, Hprimary.
      unfold getValidationFileName, shouldCreateConfigFile, arrayIncludes.
      cbn [lookupOr existsb].
      repeat match goal with
             | H : streq type _ = false |- _ => rewrite H; clear H
             end.
      cbn [orb].
      destruct (truthy (tests r)), (truthy (documentation r));
        (destruct Hname as [<- | [<- | [<- | [<- | []]]]];
         match goal with
         | H : arrayIncludes _ ?n = false |- context [existsb _ _] =>
             unfold arrayIncludes in H; rewrite H
         end; reflexivity). }
    assert (Htype : loadedImplementationType (files a) = lit "other").
    { unfold loadedImplementationType.
      rewrite !Hrest by (cbn; tauto). reflexivity. }
    unfold loadedPrimaryFile. rewrite Htype.
    change (getPrimaryFileForType (lit "other")) with (lit "implementation.txt").
    rewrite <- Hprimary.
    split; [reflexivity |]. split; [reflexivity | exact Hthere].
Qed.

(** [solution.js] is written for an implementation of type [code] only. *)
Lemma solution_is_written_for_code_only
      (originalKey : jsstring) (r : ImplementationResult) (env : Env) (w w' : World)
      (a : ArtifactsResult) :
  createImplementationArtifacts generateImplementationSummary generateConfigFile
                                originalKey r env w = (Returned a, w') ->
  plainSupportingFiles r = true ->
  impl_type (implementation r) <> lit "code" ->
  getPrimaryFileName (impl_type (implementation r)) <> lit "solution.js"
  /\ ~ In (lit "solution.js") (files a).
Proof.
  intros Hrun Hplain Htype.
  destruct (@createImplementationArtifacts_returned _ _ _ _ _ _ _ _ Hrun)
    as (_ & _ & Hfiles & _).
  apply streq_neq in Htype.
  assert (Hprimary : getPrimaryFileName (impl_type (implementation r))
                     <> lit "solution.js").
  { unfold getPrimaryFileName. cbn [lookupOr]. rewrite Htype.
    repeat match goal with
           | |- context [streq ?x ?y] => destruct (streq x y)
           end; intros E; vm_compute in E; discriminate E. }
  split; [exact Hprimary |].
  unfold plainSupportingFiles, loaderNames in Hplain. cbn [forallb] in Hplain.
  apply andb_prop in Hplain as [Hsupporting _].
  apply negb_true_iff in Hsupporting.
  rewrite Hfiles. intros Hin.
  apply List.in_app_or in Hin as [[E | []] | Hin]; [now apply Hprimary |].
  apply List.in_app_or in Hin as [Hin | Hin].
  { apply arrayIncludes_true_In in Hin. congruence. }
  unfold getValidationFileName, shouldCreateConfigFile, getConfigFileName,
    arrayIncludes in Hin.
  cbn [lookupOr existsb] in Hin. rewrite Htype in Hin. cbn [orb] in Hin.
  repeat match type of Hin with
         | context [streq ?x ?y] => destruct (streq x y)
         end;
    destruct (truthy (tests r)), (truthy (documentation r));
    cbn [List.app In orb] in Hin;
    repeat match type of Hin with
           | _ \/ _ => destruct Hin as [Hin | Hin]
           end;
    solve [contradiction | vm_compute in Hin; discriminate Hin].
Qed.

(** X21.  What [loadImplementationResult] reads depends on everything
    the directory holds, not only on what the last run of
    [createImplementationArtifacts] wrote there.  Take a run that
    returned, for an implementation none of whose supporting files bears
    a name the loader looks for, and a listing of the directory in
    which a name the loader looks for occurs exactly when the run reports
    a file of that name or one was there before.

    When none of those earlier files bears a name the loader looks for
    (a new directory, for one): for the types [code], [documentation],
    [analysis] and [process] the loader derives that type and reads the
    primary file that was written; for type [other] it derives [other]
    and reads [implementation.txt], which is not in the directory, the
    primary deliverable having gone to [deliverable.txt]; for any further
    type it derives [other], not the type, and reads
    [implementation.txt], which is where the primary deliverable went.

    When a [solution.js] was there before, the loader derives [code] and
    reads [solution.js] whatever the type; for a type other than [code]
    that is a file this run did not write. *)
Theorem written_and_loaded_primary_file
        (originalKey : jsstring) (r : ImplementationResult) (env : Env) (w w' : World)
        (a : ArtifactsResult) (before listing : list jsstring) :
  createImplementationArtifacts generateImplementationSummary generateConfigFile
                                originalKey r env w = (Returned a, w') ->
  (forall name, In name loaderNames ->
                (In name listing <-> In name before \/ In name (files a))) ->
  plainSupportingFiles r = true ->
  let type := impl_type (implementation r) in
  let nothingOfNote := forall name, In name loaderNames -> ~ In name before in
  (nothingOfNote ->
   arrayIncludes knownTypes type = true ->
   loadedImplementationType listing = type
   /\ loadedPrimaryFile listing = getPrimaryFileName type
   /\ In (loadedPrimaryFile listing) listing)
  /\ (nothingOfNote ->
      type = lit "other" ->
      loadedImplementationType listing = lit "other"
      /\ loadedPrimaryFile listing = lit "implementation.txt"
      /\ getPrimaryFileName type = lit "deliverable.txt"
      /\ ~ In (loadedPrimaryFile listing) listing)
  /\ (nothingOfNote ->
      arrayIncludes (lit "other" :: knownTypes) type = false ->
      loadedImplementationType listing = lit "other"
      /\ loadedPrimaryFile listing = getPrimaryFileName type
      /\ In (loadedPrimaryFile listing) listing)
  /\ (In (lit "solution.js") before ->
      loadedImplementationType listing = lit "code"
      /\ loadedPrimaryFile listing = lit "solution.js"
      /\ (type <> lit "code" ->
          getPrimaryFileName type <> lit "solution.js"
          /\ ~ In (lit "solution.js") (files a))).
Proof.
  intros Hrun Hlisting Hplain type nothingOfNote.
  destruct (@loader_on_the_written_files _ _ _ _ _ _ Hrun Hplain)
    as (Hknown & Hother & Hfurther).
  fold type in Hknown, Hother, Hfurther.
  assert (Hsame : nothingOfNote ->
                  forall name, In name loaderNames ->
                               arrayIncludes listing name
                               = arrayIncludes (files a) name).
  { intros Hfresh name Hname.
    destruct (arrayIncludes (files a) name) eqn:E.
    - apply arrayIncludes_true_In. apply (Hlisting name Hname). right.
      now apply arrayIncludes_true_In.
    - destruct (arrayIncludes listing name) eqn:E'; [| reflexivity].
      apply arrayIncludes_true_In, (Hlisting name Hname) in E' as [E' | E'].
      + now apply Hfresh in E'.
      + apply arrayIncludes_true_In in E'. congruence. }
  assert (Htype : nothingOfNote ->
                  loadedImplementationType listing
                  = loadedImplementationType (files a)).
  { intros Hfresh. unfold loadedImplementationType.
    rewrite !(Hsame Hfresh) by (unfold loaderNames; cbn [In]; tauto).
    reflexivity. }
  assert (Hfile : nothingOfNote ->
                  loadedPrimaryFile listing = loadedPrimaryFile (files a)).
  { intros Hfresh. unfold loadedPrimaryFile. now rewrite (Htype Hfresh). }
  assert (Hthere : nothingOfNote ->
                   In (loadedPrimaryFile (files a)) (files a) ->
                   In (loadedPrimaryFile listing) listing).
  { intros Hfresh Hin. rewrite (Hfile Hfresh).
    apply (Hlisting _ (loadedPrimaryFile_is_a_loader_name (files a))).
    now right. }
  split; [| split; [| split]].
  - intros Hfresh Ht. destruct (Hknown Ht) as (E1 & E2 & E3).
    split; [now rewrite (Htype Hfresh) |].
    split; [now rewrite (Hfile Hfresh) | now apply Hthere].
  - intros Hfresh Ht. destruct (Hother Ht) as (E1 & E2 & E3 & E4).
    rewrite (Htype Hfresh), (Hfile Hfresh).
    split; [exact E1 |]. split; [exact E2 |]. split; [exact E3 |].
    intros Hin.
    apply (Hlisting _ (loadedPrimaryFile_is_a_loader_name (files a)))
      in Hin as [Hin | Hin]; [| now apply E4].
    revert Hin. apply Hfresh. apply loadedPrimaryFile_is_a_loader_name.
  - intros Hfresh Ht. destruct (Hfurther Ht) as (E1 & E2 & E3).
    split; [now rewrite (Htype Hfresh) |].
    split; [now rewrite (Hfile Hfresh) | now apply Hthere].
  - intros Hstale.
    assert (E : arrayIncludes listing (lit "solution.js") = true).
    { apply arrayIncludes_true_In, Hlisting; [| now left].
      unfold loaderNames. cbn [In]. tauto. }
    unfold loadedPrimaryFile, loadedImplementationType. rewrite E.
    split; [reflexivity |]. split; [reflexivity |].
    intros Ht. exact (@solution_is_written_for_code_only _ _ _ _ _ _ Hrun Hplain Ht).
Qed.

End Loading.

Lemma written_and_loaded_primary_file_witness :
  loadedPrimaryFile [lit "solution.js"; lit "tests.js"; lit "README.md";
                     lit "implementation-summary.md"; lit "package.json"]
  = lit "solution.js"
  /\ loadedImplementationType
       [lit "solution.js"; lit "document.md"; lit "validation-checklist.md";
        lit "README.md"; lit "implementation-summary.md"]
     = lit "code".
Proof.
  split.
  - destruct (@written_and_loaded_primary_file
                noSummary noConfig (lit "PCP1-67") sampleImplementation calm
                (worldOf bothIssues)
                (snd (createImplementationArtifacts
                        noSummary noConfig (lit "PCP1-67") sampleImplementation
                        calm (worldOf bothIssues)))
                {| directory := lit "work-items/PCP1-67/implementation";
                   files := [lit "solution.js"; lit "tests.js"; lit "README.md";
                             lit "implementation-summary.md"; lit "package.json"];
                   implementationType := lit "code" |}
                []
                [lit "solution.js"; lit "tests.js"; lit "README.md";
                 lit "implementation-summary.md"; lit "package.json"]
                eq_refl)
      as [H _].
    + intros name _. cbn [In files]. tauto.
    + reflexivity.
    + destruct H as (_ & E & _); [intros name _ [] | reflexivity | exact E].
  - destruct (@written_and_loaded_primary_file
                noSummary noConfig (lit "PCP1-67") documentationImplementation calm
                (worldOf bothIssues)
                (snd (createImplementationArtifacts
                        noSummary noConfig (lit "PCP1-67") documentationImplementation
                        calm (worldOf bothIssues)))
                {| directory := lit "work-items/PCP1-67/implementation";
                   files := [lit "document.md"; lit "validation-checklist.md";
                             lit "README.md"; lit "implementation-summary.md"];
                   implementationType := lit "documentation" |}
                [lit "solution.js"]
                [lit "solution.js"; lit "document.md"; lit "validation-checklist.md";
                 lit "README.md"; lit "implementation-summary.md"]
                eq_refl)
      as (_ & _ & _ & H).
    + intros name _. cbn [In files]. tauto.
    + reflexivity.
    + destruct H as (E & _); [left; reflexivity | exact E].
Defined.

(** ** The testing phase *)

Lemma updateStageLabel_tracker_run (issueKey : jsstring) (s : Stage) (i : Issue)
      (env : Env) (w : World) :
  (forall n k, fault env n (GetIssue k) = None) ->
  (forall n k u, fault env n (UpdateIssue k u) = None) ->
  tracker w !! issueKey = Some i ->
  let update :=
    {| setSummary := None; setDescription := None;
       setLabels :=
         Some (updatedLabels s (match labels (fields i) with
                                | Some ls => ls
                                | None => []
                                end)) |} in
  updateStageLabel issueKey s env w
  = (Returned tt,
     {| tracker := <[issueKey := applyUpdate update i]> (tracker w);
        log := log w ++ [GetIssue issueKey; UpdateIssue issueKey update] |}).
Proof.
  intros Hget Hput Hi update.
  unfold updateStageLabel, tryCatch, bind.
  rewrite (getIssue_ok issueKey env w (Hget _ _) Hi).
  fold update.
  rewrite (updateIssue_ok issueKey update env (logged (GetIssue issueKey) w)
                          (Hput _ _ _) Hi).
  cbn [logged tracker log]. now rewrite <- List.app_assoc.
Qed.

Section Testing.

Variable loadImplementationResult : jsstring -> M ImplementationResult.
Variable evaluateImplementation :
  Issue -> jsstring -> ImplementationResult -> M EvaluationResult.
Variable saveEvaluationResults : jsstring -> EvaluationResult -> M unit.
Variable updateToCompletionStatus : jsstring -> jsstring -> EvaluationResult -> M unit.
Variable passedComment : jsstring -> EvaluationResult -> jsstring.
Variable failedComment : jsstring -> EvaluationResult -> jsstring.
Variable this : Instance.

Ltac past_the_retest_guard i Hi Hv Hk Hs Ho :=
  unfold processTestingCriteria;
  rewrite Hi, Hv, (extracted_key_truthy _ _ Hk), Hk;
  cbv zeta; fold (retestRequested this i); rewrite Ho;
  cbn [negb orEmpty];
  rewrite tryCatch_run, !ret_bind;
  destruct (getHighestStageCompleted i); [| | | congruence];
  rewrite ret_bind; unfold bind at 1, attempt at 1.

(** X22.  The testing phase stops at the first step that fails and says
    which.  For a genuine criteria issue that is not yet tested: when the
    implementation cannot be loaded, the phase posts the load-error
    comment and returns [evaluation_failed] with the error type
    [implementation_not_found], the evaluator is not asked; when the
    evaluator fails, the phase posts the evaluation-error comment and
    returns [evaluation_failed] with the error type
    [claude_evaluation_failure], nothing is saved and no stage label is
    written.  In both cases the outcome carries the message of the
    error. *)
Theorem testing_stops_at_the_first_failure
        (p : WebhookPayload) (i : Issue) (k : jsstring) (e : Exn)
        (env : Env) (w w1 : World) :
  issue p = Some i ->
  validateClaudeGeneratedCriteria i = true ->
  extractOriginalIssueKey (summary (fields i)) (description (fields i)) = Some k ->
  getHighestStageCompleted i <> tested ->
  retestRequested this i = false ->
  (forall n comment, fault env n (AddComment (keyText (key i)) comment) = None) ->
  (loadImplementationResult k env w = (Threw e, w1) ->
   processTestingCriteria loadImplementationResult evaluateImplementation
                         saveEvaluationResults updateToCompletionStatus
                         passedComment failedComment this p env w
   = (Returned (EvaluationNotDone (key i) k (message e)
                                  (lit "implementation_not_found")),
      logged (AddComment (keyText (key i)) (loadFailedComment k (message e))) w1))
  /\ (forall implementationResult w2,
         loadImplementationResult k env w = (Returned implementationResult, w1) ->
         evaluateImplementation i k implementationResult env w1 = (Threw e, w2) ->
         processTestingCriteria loadImplementationResult evaluateImplementation
                         saveEvaluationResults updateToCompletionStatus
                         passedComment failedComment this p env w
         = (Returned (EvaluationNotDone (key i) k (message e)
                                        (lit "claude_evaluation_failure")),
            logged (AddComment (keyText (key i))
                               (evaluationErrorComment k (message e))) w2)).
Proof.
  intros Hi Hv Hk Hs Ho Hcomment. split.
  - intros Hload.
    past_the_retest_guard i Hi Hv Hk Hs Ho;
      rewrite Hload; unfold bind at 1; rewrite addComment_run, Hcomment;
      reflexivity.
  - intros implementationResult w2 Hload Heval.
    past_the_retest_guard i Hi Hv Hk Hs Ho;
      rewrite Hload; unfold bind at 1, attempt at 1; rewrite Heval;
      unfold bind at 1; rewrite addComment_run, Hcomment;
      reflexivity.
Qed.



End Testing.

Lemma testing_stops_at_the_first_failure_witness :
  processTestingCriteria nothingToLoad (evaluatesTo generousEvaluation) savesNothing
                         cannotMoveOn noVerdictText noVerdictText
                         JiraWebhookProcessor (statusChanged implementedIssue)
                         calm (worldOf bothIssues)
  = (Returned (EvaluationNotDone
                 (Some (lit "PCP1-68")) (lit "PCP1-67")
                 (lit "Implementation summary not found for PCP1-67")
                 (lit "implementation_not_found")),
     logged (AddComment
               (lit "PCP1-68")
               (loadFailedComment
                  (lit "PCP1-67")
                  (lit "Implementation summary not found for PCP1-67")))
            (worldOf bothIssues)).
Proof.
  refine (proj1 (@testing_stops_at_the_first_failure
                   nothingToLoad (evaluatesTo generousEvaluation) savesNothing
                   cannotMoveOn noVerdictText noVerdictText JiraWebhookProcessor
                   (statusChanged implementedIssue) implementedIssue (lit "PCP1-67")
                   (Error (lit "Implementation summary not found for PCP1-67"))
                   calm (worldOf bothIssues) (worldOf bothIssues)
                   eq_refl eq_refl eq_refl _ eq_refl (fun _ _ => eq_refl))
                eq_refl).
  discriminate.
Defined.



(** ** The validation scores of the implementation agent *)

Lemma atLeast_mean (s n : Z) :
  Agent.atLeast (QArith_base.Qdiv (QArith_base.inject_Z s) (QArith_base.inject_Z 4)) n
  = (4 * n <=? s)%Z.
Proof.
  unfold Agent.atLeast, QArith_base.Qle_bool, QArith_base.Qdiv, QArith_base.Qmult,
    QArith_base.Qinv, QArith_base.inject_Z.
  cbn [QArith_base.Qnum QArith_base.Qden].
  change (Z.pos (1 * 4)) with 4%Z.
  destruct (Z.leb_spec (n * 4) (s * 1 * 1)), (Z.leb_spec (4 * n) s);
    try reflexivity; lia.
Qed.

Lemma analyzeContentQuality_range (i : Agent.Implementation) :
  (5 <= Agent.analyzeContentQuality i <= 10)%Z.
Proof.
  unfold Agent.analyzeContentQuality. cbv zeta.
  destruct (Nat.ltb 100 _), (Nat.ltb 1000 _), (Agent.longerThan (Agent.description i) 10),
    (Agent.longerThan (Agent.usageInstructions i) 10),
    (Agent.longerThan (Agent.validationCriteria i) 0); cbn; lia.
Qed.

Lemma analyzeCompleteness_range (i : Agent.Implementation) :
  (0 <= Agent.analyzeCompleteness i <= 10)%Z.
Proof.
  unfold Agent.analyzeCompleteness. cbv zeta.
  pose proof (filter_length_le
                (fun field : bool => field)
                [truthy (Some (Agent.type i)); truthy (Some (Agent.title i));
                 truthy (Agent.description i);
                 truthy (Some (Agent.primaryDeliverable i));
                 truthy (Agent.usageInstructions i)]) as H.
  cbn [List.length] in H. lia.
Qed.

Lemma analyzeUsability_range (i : Agent.Implementation) :
  (5 <= Agent.analyzeUsability i <= 10)%Z.
Proof.
  unfold Agent.analyzeUsability. cbv zeta.
  destruct (Agent.longerThan (Agent.usageInstructions i) 20),
    (Agent.longerThan (Agent.dependencies i) 0),
    (Agent.longerThan (Agent.configurationOptions i) 0); cbn; lia.
Qed.

Lemma analyzeTestQuality_range (t : option Agent.Tests) :
  (0 <= Agent.analyzeTestQuality t <= 10)%Z.
Proof.
  unfold Agent.analyzeTestQuality. destruct t as [t |]; [| lia].
  destruct (negb (truthy (Agent.content t))); [lia |]. cbv zeta.
  generalize (List.length
                (List.filter
                   (fun pattern => includes (orEmpty (Agent.content t)) pattern)
                   (if streq (Agent.tests_type t) (lit "code")
                    then [lit "test("; lit "it("; lit "describe("; lit "expect(";
                          lit "assert"]
                    else [lit "validation"; lit "check"; lit "verify"; lit "review";
                          lit "criteria"]))).
  intros n. lia.
Qed.

(** X25.  The verdict of [validateImplementation].  The four scores lie
    between 5 and 10, 0 and 10, 5 and 10, and 0 and 10; the
    implementation passes exactly when they add up to 28 or more, which
    is exactly when the rating is [Good], [Very Good] or [Excellent]; and
    an implementation without tests passes only if each of the three
    other scores is at least 8. *)
Theorem validation_verdict (i : Agent.Implementation) (t : option Agent.Tests) :
  let v := Agent.validateImplementation i t in
  let total := (Agent.contentQuality v + Agent.completeness v + Agent.usability v
                + Agent.testQuality v)%Z in
  (5 <= Agent.contentQuality v <= 10)%Z
  /\ (0 <= Agent.completeness v <= 10)%Z
  /\ (5 <= Agent.usability v <= 10)%Z
  /\ (0 <= Agent.testQuality v <= 10)%Z
  /\ (Agent.passed v = true <-> (28 <= total)%Z)
  /\ (Agent.passed v = true
      <-> In (Agent.overall v) [lit "Excellent"; lit "Very Good"; lit "Good"])
  /\ (t = None -> Agent.passed v = true ->
      (8 <= Agent.contentQuality v)%Z /\ (8 <= Agent.completeness v)%Z
      /\ (8 <= Agent.usability v)%Z).
Proof.
  intros v total. subst v total. unfold Agent.validateImplementation. cbv zeta.
  cbn [Agent.contentQuality Agent.completeness Agent.usability Agent.testQuality
         Agent.passed Agent.overall].
  pose proof (analyzeContentQuality_range i) as Hc.
  pose proof (analyzeCompleteness_range i) as Hp.
  pose proof (analyzeUsability_range i) as Hu.
  pose proof (analyzeTestQuality_range t) as Ht.
  unfold Agent.calculateOverallScore, Agent.getQualityRating.
  cbn [fold_left]. rewrite !atLeast_mean.
  set (cq := Agent.analyzeContentQuality i) in *.
  set (comp := Agent.analyzeCompleteness i) in *.
  set (us := Agent.analyzeUsability i) in *.
  set (tq := Agent.analyzeTestQuality t) in *.
  assert (Hnotests : t = None -> tq = 0%Z) by (intros ->; reflexivity).
  clearbody cq comp us tq.
  repeat split; try lia;
    try (match goal with
         | H : t = None |- _ => specialize (Hnotests H)
         end; lia).
  - intros H.
    destruct (Z.leb_spec (4 * 9) (0 + cq + comp + us + tq)); [left; reflexivity |].
    destruct (Z.leb_spec (4 * 8) (0 + cq + comp + us + tq));
      [right; left; reflexivity |].
    destruct (Z.leb_spec (4 * 7) (0 + cq + comp + us + tq)); [| discriminate].
    right; right; left; reflexivity.
  - intros H.
    destruct (Z.leb_spec (4 * 7) (0 + cq + comp + us + tq)) as [_ | Hlow];
      [reflexivity | exfalso].
    destruct (Z.leb_spec (4 * 9) (0 + cq + comp + us + tq)); [lia |].
    destruct (Z.leb_spec (4 * 8) (0 + cq + comp + us + tq)); [lia |].
    destruct (Z.leb_spec (4 * 6) (0 + cq + comp + us + tq));
      [| destruct (Z.leb_spec (4 * 5) (0 + cq + comp + us + tq))];
      cbn in H; intuition discriminate.
Qed.

Lemma validation_verdict_witness :
  (8 <= Agent.contentQuality (Agent.validateImplementation thoroughImplementation None))%Z.
Proof.
  destruct (validation_verdict thoroughImplementation None)
    as (_ & _ & _ & _ & _ & _ & H).
  destruct (H eq_refl eq_refl) as [E _]. exact E.
Defined.

(** ** The helpers of the tracker gateway and the processor's own issues *)

Lemma includes_step (x : N) (s m : jsstring) :
  startsWith (x :: s) m = false -> includes (x :: s) m = includes s m.
Proof. intros H. cbn [includes]. now rewrite H. Qed.

Lemma criteria_prefix_has_no_marker (rest marker : jsstring) :
  In marker automationMarkers ->
  includes (lit "Deliverable Criteria: " ++ rest) marker = includes rest marker.
Proof.
  intros H.
  change (lit "Deliverable Criteria: ")
    with (List.map N_of_ascii (list_ascii_of_string "Deliverable Criteria: ")).
  cbn [list_ascii_of_string List.map List.app].
  destruct H as [<- | [<- | [<- | [<- | []]]]];
    repeat (rewrite includes_step by reflexivity); reflexivity.
Qed.

(** X26.  The helper [isAutomationIssue] does not recognise the criteria
    issues of the processor by what the processor writes.  On an issue
    whose summary was written by [createDeliverableCriteriaIssue], its
    answer is decided by the key and the summary of the original issue
    alone: the prefix [Deliverable Criteria: ] matches none of its
    markers, the first of which carries a pictograph that the processor
    does not write.  The processor's own test [hasClaudeMarkers] holds on
    every such summary. *)
Theorem helper_does_not_know_the_criteria_issue (o c : Issue) :
  summary (fields c) = Some (criteriaSummary o) ->
  isAutomationIssue c
  = Returned (existsb (fun marker =>
                         includes (keyText (key o) ++ lit " - "
                                     ++ keyText (summary (fields o)))
                                  marker)
                      automationMarkers)
  /\ forall description, hasClaudeMarkers (criteriaSummary o) description = true.
Proof.
  intros Hs. split.
  - unfold isAutomationIssue. rewrite Hs. unfold criteriaSummary.
    unfold automationMarkers at 1. cbn [existsb].
    rewrite !criteria_prefix_has_no_marker by (unfold automationMarkers; cbn; tauto).
    reflexivity.
  - intros description. apply hasClaudeMarkers_criteria. unfold criteriaSummary.
    change (lit "Deliverable Criteria: ") with ([] ++ criteriaMarker ++ lit " ").
    rewrite <- !List.app_assoc. apply includes_here.
Qed.

Lemma helper_does_not_know_the_criteria_issue_witness :
  isAutomationIssue fallbackCriteriaIssue = Returned false.
Proof.
  destruct (@helper_does_not_know_the_criteria_issue
              originalIssue fallbackCriteriaIssue eq_refl) as [E _].
  rewrite E. reflexivity.
Defined.

Lemma issueKeyPattern_needs_upper (x : N) (t : jsstring) :
  isUpper x = false -> matchHere issueKeyPattern (x :: t) = None.
Proof.
  intros Hx. unfold matchHere, issueKeyPattern. cbn [run rep]. now rewrite Hx.
Qed.

(** A greedy run that can be continued from none of its ends fails. *)
Lemma star_run_fails (p : N -> bool) (u : jsstring) (y : N) (t : jsstring)
      (k : jsstring -> option result) :
  forallb p u = true -> p y = false ->
  (forall a b, u = a ++ b -> k (b ++ y :: t) = None) ->
  star true p (u ++ y :: t) k = None.
Proof.
  intros Hu Hy Hk. induction u as [|x u IH].
  - cbn [List.app star]. rewrite Hy. exact (Hk [] [] eq_refl).
  - cbn [forallb] in Hu. apply andb_prop in Hu as [Hx Hu].
    cbn [List.app star]. rewrite Hx. rewrite IH.
    + exact (Hk [] (x :: u) eq_refl).
    + exact Hu.
    + intros a b E. apply (Hk (x :: a) b). now rewrite E.
Qed.

Lemma upper_is_not_dash (c : N) : isUpper c = true -> N.eqb dash c = false.
Proof.
  unfold isUpper, dash. intros H. apply andb_prop in H as [H _].
  apply N.leb_le in H. apply N.eqb_neq. lia.
Qed.

Lemma digit_is_not_dash (c : N) : isDigit c = true -> N.eqb dash c = false.
Proof.
  unfold isDigit, dash. intros H. apply andb_prop in H as [H _].
  apply N.leb_le in H. apply N.eqb_neq. lia.
Qed.

Lemma digit_is_not_upper (c : N) : isDigit c = true -> isUpper c = false.
Proof.
  unfold isDigit, isUpper. intros H. apply andb_prop in H as [_ H].
  apply N.leb_le in H. apply andb_false_iff. left. apply N.leb_gt. lia.
Qed.

(** Upper-case letters followed by a digit are no key for the helper's
    pattern, wherever the match starts among the letters. *)
Lemma issueKeyPattern_letters_then_digit (u : jsstring) (y : N) (t : jsstring) :
  forallb isUpper u = true -> isDigit y = true ->
  matchHere issueKeyPattern (u ++ y :: t) = None.
Proof.
  intros Hu Hy. destruct u as [|x u].
  - apply issueKeyPattern_needs_upper. now apply digit_is_not_upper.
  - cbn [forallb] in Hu. apply andb_prop in Hu as [Hx Hu].
    unfold matchHere, issueKeyPattern. cbn [List.app run rep]. rewrite Hx.
    apply star_run_fails; [exact Hu | now apply digit_is_not_upper |].
    intros a b E. cbn [chr run].
    destruct b as [|c b]; cbn [List.app].
    + now rewrite (digit_is_not_dash y Hy).
    + rewrite upper_is_not_dash; [reflexivity |].
      rewrite E, forallb_app in Hu. apply andb_prop in Hu as [_ Hb].
      cbn [forallb] in Hb. now apply andb_prop in Hb as [Hc _].
Qed.

Lemma exec_skip_letters_then_digit (u : jsstring) (y : N) (t : jsstring) :
  forallb isUpper u = true -> isDigit y = true ->
  exec issueKeyPattern (u ++ y :: t) = exec issueKeyPattern (y :: t).
Proof.
  intros Hu Hy. induction u as [|x u IH]; [reflexivity |].
  cbn [List.app]. rewrite exec_fail_step.
  - apply IH. cbn [forallb] in Hu. now apply andb_prop in Hu as [_ Hu].
  - exact (issueKeyPattern_letters_then_digit (x :: u) y t Hu Hy).
Qed.

Lemma exec_skip_non_letters (a t : jsstring) :
  forallb (fun c => negb (isUpper c)) a = true ->
  exec issueKeyPattern (a ++ t) = exec issueKeyPattern t.
Proof.
  intros Ha. apply exec_skip. apply List.Forall_forall. intros x Hx s.
  apply issueKeyPattern_needs_upper.
  rewrite forallb_forall in Ha. specialize (Ha x Hx). now destruct (isUpper x).
Qed.

Lemma criteriaSummary_helper_prefix (rest : jsstring) :
  exec issueKeyPattern (lit "Deliverable Criteria: " ++ rest)
  = exec issueKeyPattern rest.
Proof.
  change (lit "Deliverable Criteria: ")
    with (List.map N_of_ascii (list_ascii_of_string "Deliverable Criteria: ")).
  cbn [list_ascii_of_string List.map List.app].
  repeat (rewrite exec_fail_step by reflexivity).
  reflexivity.
Qed.

(** X27.  The helper [extractIssueKeyFromSummary] cannot read a key whose
    project part ends in a digit, such as the keys of project [PCP1]: on
    the summary written by [createDeliverableCriteriaIssue] for an
    original issue with such a key, it returns what it finds in the text
    after the key, the summary of the original issue, and nothing when
    there is nothing to find there. *)
Theorem helper_cannot_read_keys_with_digits (o : Issue) (u n d : jsstring) :
  key o = Some (u ++ n ++ dash :: d) ->
  forallb isUpper u = true ->
  forallb isDigit n = true ->
  1 <= List.length n ->
  forallb isDigit d = true ->
  extractIssueKeyFromSummary (criteriaSummary o)
  = extractIssueKeyFromSummary (lit " - " ++ keyText (summary (fields o))).
Proof.
  intros Hkey Hu Hn Hlen Hd.
  unfold extractIssueKeyFromSummary, match1, criteriaSummary.
  rewrite Hkey. cbn [keyText].
  rewrite criteriaSummary_helper_prefix.
  destruct n as [|y n]; [cbn in Hlen; lia |].
  cbn [forallb] in Hn. apply andb_prop in Hn as [Hy Hn].
  rewrite <- !List.app_assoc. cbn [List.app].
  rewrite (exec_skip_letters_then_digit u y _ Hu Hy).
  replace (y :: n ++ dash :: d ++ lit " - " ++ keyText (summary (fields o)))
    with ((y :: n ++ dash :: d) ++ lit " - " ++ keyText (summary (fields o)))
    by (cbn [List.app]; now rewrite <- List.app_assoc).
  rewrite exec_skip_non_letters; [reflexivity |].
  cbn [forallb]. rewrite (digit_is_not_upper y Hy). cbn [negb andb].
  rewrite forallb_app. cbn [forallb].
  apply andb_true_intro. split; [| apply andb_true_intro; split; [reflexivity |]].
  - rewrite forallb_forall in *. intros c Hc.
    now rewrite (digit_is_not_upper c (Hn c Hc)).
  - rewrite forallb_forall in *. intros c Hc.
    now rewrite (digit_is_not_upper c (Hd c Hc)).
Qed.

Lemma helper_cannot_read_keys_with_digits_witness :
  extractIssueKeyFromSummary (criteriaSummary originalIssue) = None.
Proof.
  rewrite (@helper_cannot_read_keys_with_digits
             originalIssue (lit "PCP") (lit "1") (lit "67")).
  - reflexivity.
  - reflexivity.
  - reflexivity.
  - reflexivity.
  - cbn. lia.
  - reflexivity.
Defined.

(** ** What leaves [processWebhook] *)

(** On a payload with every property present, validation and
    classification are those of the typed payload. *)
Lemma received_isValidWebhookEvent (p : WebhookPayload) :
  Wire.isValidWebhookEvent (Wire.received p) = Returned (isValidWebhookEvent p).
Proof.
  unfold Wire.isValidWebhookEvent, isValidWebhookEvent, Wire.received.
  cbn [Wire.webhookEvent Wire.issue Wire.changelog].
  destruct (includesEvent supportedEvents (webhookEvent p)); cbn [negb];
    [| reflexivity].
  destruct (issue p) as [i |]; cbn [option_map]; [| reflexivity].
  cbn [Wire.key Wire.fields Wire.issuetype Wire.status Wire.name Wire.summary
       Wire.includesName].
  destruct (truthy (key i)); cbn [negb]; [| reflexivity].
  destruct (arrayIncludes [lit "Story"; lit "Task"] (issuetype (fields i)));
    cbn [negb]; [| reflexivity].
  destruct (eventIs (webhookEvent p) (lit "jira:issue_updated")); [| reflexivity].
  destruct (isStatusChange (changelog p)); cbn [negb]; [| reflexivity].
  destruct (includes (orEmpty (summary (fields i))) criteriaMarker); [| reflexivity].
  now destruct (arrayIncludes actionableStatuses (status (fields i))).
Qed.

Lemma received_classifyIssueType (p : WebhookPayload) :
  Wire.classifyIssueType (Wire.received p) = classifyIssueType p.
Proof.
  unfold Wire.classifyIssueType, classifyIssueType, Wire.received.
  cbn [Wire.issue].
  destruct (issue p) as [i |]; cbn [option_map]; [| reflexivity].
  cbn [Wire.key Wire.fields Wire.issuetype Wire.status Wire.name Wire.summary
       Wire.description Wire.includesName Wire.nameIs].
  unfold classifyIssue, isReadyForImplementation.
  destruct (hasClaudeMarkers _ _); cbn [negb]; [| reflexivity].
  destruct (includes _ criteriaMarker); [| reflexivity].
  destruct (streq _ _); [reflexivity |].
  now destruct (arrayIncludes readyStatuses _).
Qed.

(** So, on such a payload, [processWebhook] runs as on the typed
    payload, given handlers that do. *)
Lemma received_processWebhook
      (summaryOf : jsstring -> ImplementationResult -> jsstring)
      (configOf : jsstring -> Implementation -> jsstring)
      (inquiry testing : WebhookPayload -> M Outcome) (this : Instance)
      (inquiry' criteria' testing' : Wire.WebhookPayload -> M Outcome)
      (p : WebhookPayload) :
  inquiry' (Wire.received p) = inquiry p ->
  criteria' (Wire.received p) = processDeliverableCriteria summaryOf configOf this p ->
  testing' (Wire.received p) = testing p ->
  Wire.processWebhook inquiry' criteria' testing' (Wire.received p)
  = processWebhook summaryOf configOf inquiry testing this p.
Proof.
  intros Hi Hc Ht. unfold Wire.processWebhook, processWebhook.
  rewrite received_isValidWebhookEvent, received_classifyIssueType, Hi, Hc, Ht.
  reflexivity.
Qed.

(** Once validation has passed, classification does not throw. *)
Lemma valid_event_is_classified (p : Wire.WebhookPayload) :
  Wire.isValidWebhookEvent p = Returned true ->
  exists c, Wire.classifyIssueType p = Returned c.
Proof.
  unfold Wire.isValidWebhookEvent, Wire.classifyIssueType.
  destruct (includesEvent supportedEvents (Wire.webhookEvent p)); cbn [negb];
    [| discriminate].
  destruct (Wire.issue p) as [i |]; [| discriminate].
  destruct (truthy (Wire.key i)); cbn [negb]; [| discriminate].
  destruct (Wire.fields i) as [f |]; [| discriminate].
  destruct (Wire.issuetype f) as [t |]; [| discriminate].
  destruct (Wire.status f) as [st |]; [| discriminate].
  intros _.
  repeat match goal with
         | |- context [if ?b then _ else _] => destruct b
         end; eauto.
Qed.

Section Escapes.

Variable processInitialInquiry : Wire.WebhookPayload -> M Outcome.
Variable processDeliverableCriteria : Wire.WebhookPayload -> M Outcome.
Variable processTestingCriteria : Wire.WebhookPayload -> M Outcome.

(** X28.  What makes [processWebhook] throw, on the payload as it
    arrives.  Take an event of a supported type whose issue has a key.
    If the issue has no [fields], or its fields lack [issuetype] or
    [status], validation raises a [TypeError]; [processWebhook] throws it
    with [Webhook processing failed: ] before its message, and no handler
    has run: the world is unchanged.  Conversely, whenever
    [processWebhook] throws, either the payload is of that kind, or the
    event was valid, the issue was classified, and the handler of its
    class has thrown in the same world; the error of [processWebhook] is
    then the handler's with the same prefix.  An event of an unsupported
    type, a missing issue, a missing key and the class [ignore] never
    make it throw. *)
Theorem processWebhook_throws_on_broken_payload_or_failed_handler
        (p : Wire.WebhookPayload) (env : Env) (w : World) :
  let run :=
    Wire.processWebhook processInitialInquiry processDeliverableCriteria
                        processTestingCriteria p env w in
  let wrapped := fun cause : Exn =>
    Error (lit "Webhook processing failed: " ++ message cause) in
  let reachesTheReads := fun i : Wire.Issue =>
    includesEvent supportedEvents (Wire.webhookEvent p) = true
    /\ Wire.issue p = Some i
    /\ truthy (Wire.key i) = true in
  let lacksNames := fun i : Wire.Issue =>
    exists f, Wire.fields i = Some f
              /\ (Wire.issuetype f = None \/ Wire.status f = None) in
  (forall i, reachesTheReads i ->
             (Wire.fields i = None ->
              run = (Threw (wrapped (typeError "issuetype")), w))
             /\ (lacksNames i ->
                 run = (Threw (wrapped (typeError "name")), w)))
  /\ (forall e w',
         run = (Threw e, w') ->
         (exists i, reachesTheReads i
                    /\ (Wire.fields i = None \/ lacksNames i)
                    /\ w' = w)
         \/ (exists cause,
                e = wrapped cause
                /\ Wire.isValidWebhookEvent p = Returned true
                /\ ((Wire.classifyIssueType p = Returned initial_inquiry
                     /\ processInitialInquiry p env w = (Threw cause, w'))
                    \/ (Wire.classifyIssueType p = Returned deliverable_criteria
                        /\ processDeliverableCriteria p env w = (Threw cause, w'))
                    \/ (Wire.classifyIssueType p = Returned testing_criteria
                        /\ processTestingCriteria p env w = (Threw cause, w'))))).
Proof.
  intros run wrapped reachesTheReads lacksNames.
  subst run wrapped reachesTheReads lacksNames. cbv beta. split.
  - intros i (He & Hi & Hk).
    unfold Wire.processWebhook. rewrite tryCatch_run.
    unfold Wire.isValidWebhookEvent. rewrite He, Hi, Hk. cbn [negb].
    split.
    + intros ->. reflexivity.
    + intros (f & -> & [Ht | Hs]).
      * rewrite Ht. reflexivity.
      * rewrite Hs. now destruct (Wire.issuetype f).
  - intros e w'. unfold Wire.processWebhook. rewrite tryCatch_run.
    destruct (Wire.isValidWebhookEvent p) as [[|] | cause] eqn:Hv; cbn [negb].
    + destruct (valid_event_is_classified p Hv) as [c Hc]. rewrite Hc.
      destruct c.
      * destruct (processInitialInquiry p env w) as [[o | cause] w1] eqn:E;
          [discriminate |].
        unfold throw. intros [= <- <-]. right. exists cause. auto 10.
      * destruct (processDeliverableCriteria p env w) as [[o | cause] w1] eqn:E;
          [discriminate |].
        unfold throw. intros [= <- <-]. right. exists cause. auto 10.
      * destruct (processTestingCriteria p env w) as [[o | cause] w1] eqn:E;
          [discriminate |].
        unfold throw. intros [= <- <-]. right. exists cause. auto 10.
      * discriminate.
    + discriminate.
    + unfold throw. intros [= _ <-]. left.
      unfold Wire.isValidWebhookEvent in Hv.
      destruct (includesEvent supportedEvents (Wire.webhookEvent p)) eqn:He;
        cbn [negb] in Hv; [| discriminate].
      destruct (Wire.issue p) as [i |] eqn:Hi; [| discriminate].
      destruct (truthy (Wire.key i)) eqn:Hk; cbn [negb] in Hv; [| discriminate].
      exists i. split; [now repeat split |]. split; [| reflexivity].
      destruct (Wire.fields i) as [f |] eqn:Hf; [right | now left].
      exists f. split; [reflexivity |].
      destruct (Wire.issuetype f) as [t |]; [right | now left].
      destruct (Wire.status f) as [st |]; [| reflexivity].
      repeat match type of Hv with
             | context [if ?b then _ else _] => destruct b
             end; discriminate.
Qed.

End Escapes.

Lemma processWebhook_throws_on_broken_payload_or_failed_handler_witness :
  Wire.processWebhook quietHandler quietHandler quietHandler keyOnlyEvent calm
                      (worldOf (trackerWith freshIssue))
  = (Threw (Error (lit "Webhook processing failed: "
                     ++ message (typeError "issuetype"))),
     worldOf (trackerWith freshIssue)).
Proof.
  apply (proj1 (@processWebhook_throws_on_broken_payload_or_failed_handler
                  quietHandler quietHandler quietHandler keyOnlyEvent calm
                  (worldOf (trackerWith freshIssue)))
               {| Wire.key := Some (lit "PCP1-70"); Wire.fields := None |}).
  - repeat split.
  - reflexivity.
Defined.

(** ** Calls are only ever added to the log *)

Lemma extendsLog_ret {A} (a : A) : extendsLog (ret a).
Proof. intros env w. exists []. cbn. now rewrite List.app_nil_r. Qed.

Lemma extendsLog_throw {A} (e : Exn) : extendsLog (@throw A e).
Proof. intros env w. exists []. cbn. now rewrite List.app_nil_r. Qed.

Lemma extendsLog_external (c : Call) : extendsLog (external c).
Proof. intros env w. exists [c]. now rewrite external_run. Qed.

Lemma extendsLog_bind {A B} (m : M A) (f : A -> M B) :
  extendsLog m -> (forall a, extendsLog (f a)) -> extendsLog (bind m f).
Proof.
  intros Hm Hf env w. unfold bind. destruct (Hm env w) as [cs Hcs].
  destruct (m env w) as [[a | e] w1]; cbn [snd] in *; [| eauto].
  destruct (Hf a env w1) as [cs' Hcs']. exists (cs ++ cs').
  now rewrite Hcs', Hcs, List.app_assoc.
Qed.

Lemma extendsLog_tryCatch {A} (m : M A) (h : Exn -> M A) :
  extendsLog m -> (forall e, extendsLog (h e)) -> extendsLog (tryCatch m h).
Proof.
  intros Hm Hh env w. unfold tryCatch. destruct (Hm env w) as [cs Hcs].
  destruct (m env w) as [[a | e] w1]; cbn [snd] in *; [eauto |].
  destruct (Hh e env w1) as [cs' Hcs']. exists (cs ++ cs').
  now rewrite Hcs', Hcs, List.app_assoc.
Qed.

Lemma extendsLog_forEach {A} (body : A -> M unit) (xs : list A) :
  (forall x, extendsLog (body x)) -> extendsLog (forEach xs body).
Proof.
  intros Hbody. induction xs as [|x xs IH]; cbn [forEach].
  - apply extendsLog_ret.
  - apply extendsLog_bind; [apply Hbody | intros _; exact IH].
Qed.

Create HintDb calls.

#[local] Hint Resolve extendsLog_ret extendsLog_throw extendsLog_external
  extendsLog_bind extendsLog_tryCatch extendsLog_forEach : calls.

Lemma createImplementationArtifacts_extends_log
      (summaryOf : jsstring -> ImplementationResult -> jsstring)
      (configOf : jsstring -> Implementation -> jsstring)
      (originalKey : jsstring) (r : ImplementationResult) :
  extendsLog (createImplementationArtifacts summaryOf configOf originalKey r).
Proof.
  unfold createImplementationArtifacts, mkdir, writeFile, stat.
  destruct (truthy (tests r)), (truthy (documentation r)),
    (shouldCreateConfigFile (impl_type (implementation r)));
    auto 20 with calls.
Qed.

Lemma updateStageLabel_is_a_frame (issueKey : jsstring) (s : Stage)
      (env : Env) (w : World) :
  exists w',
    updateStageLabel issueKey s env w = (Returned tt, w')
    /\ exists cs, log w' = log w ++ cs.
Proof.
  cbv beta delta [updateStageLabel tryCatch bind JiraApi.getIssue JiraApi.updateIssue
                    external readTracker writeTracker ret throw].
  destruct (fault env (List.length (log w)) (GetIssue issueKey)); [eauto |].
  cbn [logged tracker log].
  destruct (tracker w !! issueKey) as [i|] eqn:Hi; [| eauto].
  match goal with
  | |- context [fault env ?n ?c] => destruct (fault env n c)
  end.
  - eexists. split; [reflexivity |]. cbn [logged tracker log].
    eexists. symmetry. apply List.app_assoc.
  - cbn [logged tracker log]. rewrite Hi.
    eexists. split; [reflexivity |]. cbn [log].
    eexists. symmetry. apply List.app_assoc.
Qed.

(** ** Stage labels as the tracker returns them *)

Lemma string_labels_hide_the_stage (i : Issue) (texts : list jsstring) :
  labels (fields i) = Some (List.map LabelString texts) ->
  getHighestStageCompleted i = none.
Proof.
  intros H. unfold getHighestStageCompleted. rewrite H.
  now rewrite !namesInclude_strings.
Qed.

Section StringLabels.

Variable generateImplementationSummary : jsstring -> ImplementationResult -> jsstring.
Variable generateConfigFile : jsstring -> Implementation -> jsstring.
Variable this : Instance.

(** X29.  The stage guard does not see labels that are plain strings.
    For a criteria issue whose labels are plain strings, which is how
    [updateStageLabel] sends them, the derived stage is [none] whatever
    the labels say; so the deliverable-criteria phase does not skip: when
    the original issue is fetched, the adapter answers, the artifacts are
    written and the comment is accepted, it generates the implementation
    and returns [implementation_generated], also for an issue that
    already carries [claude-stage-implemented]. *)
Theorem string_labels_are_never_skipped
        (p : WebhookPayload) (i original : Issue) (k : jsstring)
        (texts : list jsstring) (env : Env) (w w3 : World) (a : ArtifactsResult) :
  let requirements := extractRequirementsFromCriteria i in
  let generated := adapterReply env i k requirements in
  let w2 := logged (GenerateImplementation i k requirements) (logged (GetIssue k) w) in
  issue p = Some i ->
  labels (fields i) = Some (List.map LabelString texts) ->
  validateClaudeGeneratedCriteria i = true ->
  extractOriginalIssueKey (summary (fields i)) (description (fields i)) = Some k ->
  overrideRequested this i = false ->
  tracker w !! k = Some original ->
  (forall n, fault env n (GetIssue k) = None) ->
  (forall n, fault env n (GenerateImplementation i k requirements) = None) ->
  createImplementationArtifacts generateImplementationSummary generateConfigFile
                                k generated env w2 = (Returned a, w3) ->
  (forall n, fault env n (AddComment (keyText (key i))
                                     (generatedComment k generated a)) = None) ->
  getHighestStageCompleted i = none
  /\ In (GenerateImplementation i k requirements)
        (log (snd (processDeliverableCriteria
                     generateImplementationSummary generateConfigFile this p env w)))
  /\ fst (processDeliverableCriteria
            generateImplementationSummary generateConfigFile this p env w)
     = Returned (ImplementationGenerated (key i) k generated a).
Proof.
  intros requirements generated w2 Hi Hlabels Hv Hk Ho Ht Hget Hgen Hart Hcomment.
  pose proof (string_labels_hide_the_stage i texts Hlabels) as Hstage.
  split; [exact Hstage |].
  set (w4 := logged (AddComment (keyText (key i)) (generatedComment k generated a)) w3).
  destruct (updateStageLabel_is_a_frame (keyText (key i)) implemented env w4)
    as [w' [Hlabel [cs Hlog]]].
  assert (Hrun : processDeliverableCriteria
                   generateImplementationSummary generateConfigFile this p env w
                 = (Returned (ImplementationGenerated (key i) k generated a), w')).
  { unfold processDeliverableCriteria.
    rewrite Hi, Hv, (extracted_key_truthy _ _ Hk), Hk.
    cbv zeta. fold (overrideRequested this i). rewrite Ho, Hstage.
    cbn [negb orEmpty].
    rewrite tryCatch_run, !ret_bind. unfold bind at 1.
    rewrite (getIssue_ok _ _ _ (Hget _) Ht).
    unfold bind at 1, attempt at 1. rewrite generateImplementation_run, Hgen.
    unfold bind at 1, attempt at 1.
    fold requirements. fold generated. fold w2. rewrite Hart.
    unfold bind at 1. rewrite addComment_run, Hcomment. fold w4.
    unfold bind at 1. rewrite tryCatch_run, Hlabel. reflexivity. }
  rewrite Hrun. cbn [fst snd]. split; [| reflexivity].
  rewrite Hlog. apply List.in_or_app. left.
  pose proof (createImplementationArtifacts_extends_log
                generateImplementationSummary generateConfigFile k generated env w2)
    as [cs' Hlog'].
  rewrite Hart in Hlog'. cbn [snd] in Hlog'.
  subst w4. cbn [logged log]. rewrite Hlog'.
  apply List.in_or_app. left. apply List.in_or_app. left.
  subst w2. cbn [logged log]. apply List.in_or_app. right. left. reflexivity.
Qed.

End StringLabels.

Lemma string_labels_are_never_skipped_witness :
  getHighestStageCompleted storedImplementedIssue = none
  /\ In (GenerateImplementation storedImplementedIssue (lit "PCP1-67")
           (extractRequirementsFromCriteria storedImplementedIssue))
        (log (snd (processDeliverableCriteria
                     noSummary noConfig JiraWebhookProcessor
                     (statusChanged storedImplementedIssue) readOnlyTracker
                     (worldOf bothIssues))))
  /\ fst (processDeliverableCriteria
            noSummary noConfig JiraWebhookProcessor
            (statusChanged storedImplementedIssue) readOnlyTracker
            (worldOf bothIssues))
     = Returned (ImplementationGenerated
                   (Some (lit "PCP1-68")) (lit "PCP1-67") sampleImplementation
                   {| directory := lit "work-items/PCP1-67/implementation";
                      files := [lit "solution.js"; lit "tests.js"; lit "README.md";
                                lit "implementation-summary.md"; lit "package.json"];
                      implementationType := lit "code" |}).
Proof.
  apply (@string_labels_are_never_skipped
           noSummary noConfig JiraWebhookProcessor
           (statusChanged storedImplementedIssue) storedImplementedIssue
           originalIssue (lit "PCP1-67") [lit "claude-stage-implemented"]
           readOnlyTracker (worldOf bothIssues)
           (snd (createImplementationArtifacts
                   noSummary noConfig (lit "PCP1-67") sampleImplementation
                   readOnlyTracker
                   (logged (GenerateImplementation
                              storedImplementedIssue (lit "PCP1-67")
                              (extractRequirementsFromCriteria storedImplementedIssue))
                           (logged (GetIssue (lit "PCP1-67")) (worldOf bothIssues)))))
           {| directory := lit "work-items/PCP1-67/implementation";
              files := [lit "solution.js"; lit "tests.js"; lit "README.md";
                        lit "implementation-summary.md"; lit "package.json"];
              implementationType := lit "code" |});
    reflexivity.
Defined.

(** ** The verification pass of [createImplementationArtifacts] *)

Lemma bind_run {A B} (m : M A) (f : A -> M B) (env : Env) (w w1 : World) (a : A) :
  m env w = (Returned a, w1) -> bind m f env w = f a env w1.
Proof. intros H. unfold bind. now rewrite H. Qed.

Lemma external_ok (c : Call) (env : Env) (w : World) :
  fault env (List.length (log w)) c = None ->
  external c env w = (Returned tt, logged c w).
Proof. intros H. now rewrite external_run, H. Qed.

Lemma writes_run (env : Env) (inDir : jsstring -> jsstring)
      (entries : list (jsstring * jsstring)) (w : World) :
  (forall n path content, fault env n (WriteFile path content) = None) ->
  exists w',
    forEach entries (fun entry => writeFile (inDir (fst entry)) (snd entry)) env w
    = (Returned tt, w').
Proof.
  intros Hwr. revert w. induction entries as [|entry entries IH]; intros w;
    cbn [forEach].
  - now exists w.
  - destruct (IH (logged (WriteFile (inDir (fst entry)) (snd entry)) w)) as [w' E].
    exists w'. erewrite bind_run; [exact E |].
    apply external_ok, Hwr.
Qed.

Lemma optional_write_run (env : Env) (c : bool) (path content : jsstring)
      (without within : list jsstring) (w : World) :
  (forall n, fault env n (WriteFile path content) = None) ->
  exists w',
    (if c then writeFile path content ;; ret within else ret without) env w
    = (Returned (if c then within else without), w').
Proof.
  intros Hwr. destruct c; [| now exists w].
  eexists. erewrite bind_run; [reflexivity |]. apply external_ok, Hwr.
Qed.

Section Verification.

Variable generateImplementationSummary : jsstring -> ImplementationResult -> jsstring.
Variable generateConfigFile : jsstring -> Implementation -> jsstring.

(** X30.  A failed check names the file, not the cause.  When the two
    directories and every file can be written but the check of the
    primary file fails, [createImplementationArtifacts] throws
    "Failed to create implementation artifacts: Failed to create <primary
    file>": the message of the failed check is dropped, whatever it was,
    and that check is the last call the function makes, so no further
    file is checked. *)
Theorem failed_check_names_the_file
        (originalKey : jsstring) (r : ImplementationResult) (env : Env) (w : World) :
  let primaryFile := getPrimaryFileName (impl_type (implementation r)) in
  (forall n path, fault env n (Mkdir path) = None) ->
  (forall n path content, fault env n (WriteFile path content) = None) ->
  (forall n, fault env n (Stat (artifactPath originalKey primaryFile)) <> None) ->
  exists w',
    createImplementationArtifacts generateImplementationSummary generateConfigFile
                                  originalKey r env w
    = (Threw (Error (lit "Failed to create implementation artifacts: "
                       ++ lit "Failed to create " ++ primaryFile)),
       logged (Stat (artifactPath originalKey primaryFile)) w').
Proof.
  intros primaryFile Hmk Hwr Hstat.
  enough (H : forall P : Result ArtifactsResult * World -> Prop,
             (forall w',
                 P (Threw (Error (lit "Failed to create implementation artifacts: "
                                    ++ lit "Failed to create " ++ primaryFile)),
                    logged (Stat (artifactPath originalKey primaryFile)) w')) ->
             P (createImplementationArtifacts
                  generateImplementationSummary generateConfigFile
                  originalKey r env w)).
  { apply H. intros w'. now exists w'. }
  intros P HP.
  unfold createImplementationArtifacts. rewrite tryCatch_run. cbv zeta.
  fold primaryFile.
  unfold mkdir at 1. erewrite bind_run; [| apply external_ok, Hmk]. cbv beta.
  unfold mkdir at 1. erewrite bind_run; [| apply external_ok, Hmk]. cbv beta.
  unfold writeFile at 1. erewrite bind_run; [| apply external_ok, Hwr]. cbv beta.
  match goal with
  | |- context [bind (forEach ?xs ?body) ?k env ?w0] =>
      destruct (writes_run env (artifactPath originalKey) xs w0 Hwr) as [w1 E1];
      rewrite (bind_run (forEach xs body) k env w0 E1); cbv beta
  end.
  match goal with
  | |- context [bind (if ?c then writeFile ?path ?x ;; ret ?l' else ret ?l) ?k env ?w0] =>
      destruct (optional_write_run env c path x l l' w0 (fun n => Hwr n path x))
        as [w2 E2];
      rewrite (bind_run _ k env w0 E2); cbv beta
  end.
  match goal with
  | |- context [bind (if ?c then writeFile ?path ?x ;; ret ?l' else ret ?l) ?k env ?w0] =>
      destruct (optional_write_run env c path x l l' w0 (fun n => Hwr n path x))
        as [w3 E3];
      rewrite (bind_run _ k env w0 E3); cbv beta
  end.
  unfold writeFile at 1. erewrite bind_run; [| apply external_ok, Hwr]. cbv beta.
  match goal with
  | |- context [bind (if ?c then writeFile ?path ?x ;; ret ?l' else ret ?l) ?k env ?w0] =>
      destruct (optional_write_run env c path x l l' w0 (fun n => Hwr n path x))
        as [w4 E4];
      rewrite (bind_run _ k env w0 E4); cbv beta
  end.
  destruct (truthy (tests r)), (truthy (documentation r)),
    (shouldCreateConfigFile (impl_type (implementation r)));
    cbn [List.app forEach];
    unfold bind at 1, bind at 1; rewrite tryCatch_run;
    unfold stat at 1; rewrite external_run;
    fold (artifactPath originalKey primaryFile);
    (destruct (fault env (List.length (log w4))
                     (Stat (artifactPath originalKey primaryFile))) eqn:F;
     [apply HP | now apply Hstat in F]).
Qed.

End Verification.

Lemma failed_check_names_the_file_witness :
  exists w',
    createImplementationArtifacts noSummary noConfig (lit "PCP1-67")
                                  sampleImplementation unreadableDisk
                                  (worldOf bothIssues)
    = (Threw (Error (lit "Failed to create implementation artifacts: "
                       ++ lit "Failed to create " ++ lit "solution.js")),
       logged (Stat (artifactPath (lit "PCP1-67") (lit "solution.js"))) w').
Proof.
  apply (@failed_check_names_the_file
           noSummary noConfig (lit "PCP1-67") sampleImplementation unreadableDisk
           (worldOf bothIssues)).
  - reflexivity.
  - reflexivity.
  - discriminate.
Defined.
